(** * genome-install: streaming gunzip pump into makeblastdb

A shallow embedding of [genome_install/blastdb.py],
[genome_install/edirect.py] and the retry loop of
[script/get_genomes.py], with the properties of the specification
stated and settled against it.

Layout: the Python values and exceptions the program manipulates
([Py]); the interface of [zlib.decompressobj] and one concrete
decompress object ([Zlib], [Inflate]); the two classes of
[blastdb.py] and its functions ([StreamGunZip], [MakeBlastDB],
[Blastdb]); [edirect.py] ([Edirect]); the batch driver
([GetGenomes]); the fixtures of the examples; then the theorems. *)

From Stdlib Require Import List ZArith NArith Bool String Ascii Lia.
From Stdlib Require Import Permutation DecimalString.
From Stdlib Require Strings.Byte.
Import ListNotations.

Local Open Scope string_scope.
Local Open Scope Z_scope.
Local Open Scope list_scope.

(* ================================================================== *)
(** * Python values and exceptions                                     *)
(* ================================================================== *)

Module Py.

(** A Python 2 [str] used as raw data. *)
Definition bytes := list Byte.byte.

(** The values that reach the options of [MakeBlastDB]. *)
Inductive pyval :=
| VNone
| VBool (b : bool)
| VInt (n : Z)
| VStr (s : string).

(** [bool(v)], as tested by [if v:]. *)
Definition truthy (v : pyval) : bool :=
  match v with
  | VNone => false
  | VBool b => b
  | VInt n => negb (n =? 0)
  | VStr s => negb (String.eqb s "")
  end.

(** [v is None]. *)
Definition is_none (v : pyval) : bool :=
  match v with VNone => true | _ => false end.

(** The integer a value denotes where Python wants one ([bool] is a
    subclass of [int]). *)
Definition as_int (v : pyval) : option Z :=
  match v with
  | VInt n => Some n
  | VBool true => Some 1
  | VBool false => Some 0
  | _ => None
  end.

(** The exceptions the modelled code raises or lets through. *)
Inductive exn :=
| ValueError (msg : string)
| TypeError (msg : string)
| AttributeError (msg : string)
| IndexError (msg : string)
| ZlibError (msg : string)
| StopIteration
| URLError (msg : string)
| UnboundLocalError (msg : string)
| SystemExit (code : Z).

(** How a call ends: it returns, it raises, or the model's loop
    bound was reached ([OutOfFuel], shown unreachable below). *)
Inductive outcome (A : Type) :=
| Ok (a : A)
| Raise (e : exn)
| OutOfFuel.
Arguments Ok {A} a.
Arguments Raise {A} e.
Arguments OutOfFuel {A}.

(** [x in s] for strings: [sub] occurs in [s]. *)
Fixpoint contains (sub s : string) : bool :=
  if String.prefix sub s then true
  else match s with
       | EmptyString => false
       | String _ s' => contains sub s'
       end.

End Py.
Export Py.

(* ================================================================== *)
(** * [zlib.decompressobj]                                             *)
(* ================================================================== *)

(** [zlib] is a library the program calls, not part of it.  What the
    program relies on is the documented behaviour of
    [zlib.decompressobj(wbits).decompress(string)] called without
    [max_length]: each call consumes its whole argument and returns all
    the output those bytes make available, so the object is an
    automaton over the bytes fed so far; it raises [zlib.error] on
    malformed data; and once the end of the compressed stream has been
    reached, further bytes go to [unused_data] and produce no output. *)
Module Zlib.

Record decompressobj := {
  dstate : Type;
  (** the state of a fresh object *)
  d_new : dstate;
  (** one more input byte: [inl msg] is [zlib.error(msg)] *)
  d_byte : dstate -> Byte.byte -> string + (dstate * bytes);
  (** the end of the compressed stream was reached *)
  d_eof : dstate -> bool;
  (** past that end every byte is unused data *)
  d_eof_absorbs : forall s b, d_eof s = true ->
    exists s', d_byte s b = inr (s', []) /\ d_eof s' = true
}.

(** [obj.decompress(data)]: the bytes of [data] in turn, the output
    of the call being the outputs in sequence. *)
Fixpoint feed (zd : decompressobj) (s : dstate zd) (data : bytes)
  : string + (dstate zd * bytes) :=
  match data with
  | [] => inr (s, [])
  | b :: rest =>
      match d_byte zd s b with
      | inl msg => inl msg
      | inr (s1, o1) =>
          match feed zd s1 rest with
          | inl msg => inl msg
          | inr (s2, o2) => inr (s2, o1 ++ o2)
          end
      end
  end.

(** [z] is a complete compressed stream whose content is [p]: a
    fresh object fed [z] returns [p] and stands at the stream's end. *)
Definition compressed_form (zd : decompressobj) (z p : bytes) : Prop :=
  exists s, feed zd (d_new zd) z = inr (s, p) /\ d_eof zd s = true.

End Zlib.
Export Zlib.

(** One decompress object in full: the automaton of zlib's [inflate]
    for [wbits = MAX_WBITS|32] (gzip or zlib wrapper, detected from the
    first two bytes) on streams whose deflate blocks are stored blocks
    (BTYPE 00, what compression level 0 writes).  The modes carry the
    names of zlib's [inflate_mode].  Huffman-coded blocks (BTYPE 01 and
    10) are not decoded by this automaton; it stops on them with a
    message of its own. *)
Module Inflate.

Local Open Scope N_scope.

Definition crc_poly : N := 0xEDB88320.

Definition crc_shift (c : N) : N :=
  if N.odd c then N.lxor (N.shiftr c 1) crc_poly else N.shiftr c 1.

(** The CRC-32 register after one more byte. *)
Definition crc_byte (c b : N) : N :=
  let c := N.lxor c b in
  crc_shift (crc_shift (crc_shift (crc_shift
    (crc_shift (crc_shift (crc_shift (crc_shift c))))))).

Definition crc_init : N := 0xFFFFFFFF.
Definition crc_value (c : N) : N := N.lxor c 0xFFFFFFFF.

(** [crc32(data)]. *)
Definition crc32 (data : list N) : N :=
  crc_value (fold_left crc_byte data crc_init).

(** The Adler-32 value after one more byte. *)
Definition adler_byte (c b : N) : N :=
  let a := ((N.land c 0xFFFF) + b) mod 65521 in
  let s := ((N.shiftr c 16) + a) mod 65521 in
  N.lor (N.shiftl s 16) a.

Definition adler_init : N := 1.

Inductive mode :=
| HEAD (held : list N)
| DICTID (todo : nat)
| FLAGS (held : list N)
| TIME (todo : nat)
| OS (todo : nat)
| EXLEN (held : list N)
| EXTRA (todo : N)
| NAME
| COMMENT
| HCRC (held : list N)
| TYPE
| STORED (held : list N)
| COPY (todo : N)
| CHECK (held : list N)
| LENGTH (held : list N)
| DONE.

Record state := mkstate {
  st_mode : mode;
  st_gzip : bool;      (* gzip wrapper (else zlib wrapper) *)
  st_flags : N;        (* the gzip FLG byte *)
  st_last : bool;      (* the current block is the last one *)
  st_hcheck : N;       (* CRC register over the header bytes *)
  st_check : N;        (* CRC register or Adler value of the output *)
  st_total : N         (* bytes of output so far *)
}.

Definition with_mode (m : mode) (s : state) : state :=
  mkstate m (st_gzip s) (st_flags s) (st_last s) (st_hcheck s)
          (st_check s) (st_total s).

Definition new : state :=
  mkstate (HEAD []) false 0 false crc_init crc_init 0.

(** Little-endian value of the bytes held. *)
Fixpoint le (held : list N) : N :=
  match held with
  | [] => 0
  | b :: rest => (b + 256 * le rest)%N
  end.

Definition flag (s : state) (bit : N) : bool := N.testbit (st_flags s) bit.

(** Where the header goes once a field is complete: the optional
    fields are those the FLG bits announce (FEXTRA bit 2, FNAME bit 3,
    FCOMMENT bit 4, FHCRC bit 1). *)
Definition after_comment (s : state) : state :=
  if flag s 1 then with_mode (HCRC []) s else with_mode TYPE s.
Definition after_name (s : state) : state :=
  if flag s 4 then with_mode COMMENT s else after_comment s.
Definition after_extra (s : state) : state :=
  if flag s 3 then with_mode NAME s else after_name s.
Definition after_os (s : state) : state :=
  if flag s 2 then with_mode (EXLEN []) s else after_extra s.

(** Where a block's end leads. *)
Definition after_block (s : state) : state :=
  if st_last s then with_mode (CHECK []) s else with_mode TYPE s.

(** A header byte enters the header CRC. *)
Definition hbyte (b : N) (s : state) : state :=
  mkstate (st_mode s) (st_gzip s) (st_flags s) (st_last s)
          (crc_byte (st_hcheck s) b) (st_check s) (st_total s).

(** An output byte enters the running check and the length. *)
Definition obyte (b : N) (s : state) : state :=
  mkstate (st_mode s) (st_gzip s) (st_flags s) (st_last s) (st_hcheck s)
          (if st_gzip s then crc_byte (st_check s) b
           else adler_byte (st_check s) b)
          (st_total s + 1)%N.

Definition ok (s : state) : string + (state * bytes) := inr (s, []).

(** [zlib.error] as Python words it for [Z_DATA_ERROR]. *)
Definition zerr (msg : string) : string + (state * bytes) :=
  inl ("Error -3 while decompressing data: " ++ msg)%string.

(** One input byte. *)
Definition step (s : state) (byte : Byte.byte) : string + (state * bytes) :=
  let b := Byte.to_N byte in
  match st_mode s with
  | HEAD [] => ok (with_mode (HEAD [b]) s)
  | HEAD (b0 :: _) =>
      if ((b0 =? 0x1f) && (b =? 0x8b))%N then
        ok (hbyte b (hbyte b0
              (mkstate (FLAGS []) true 0 false crc_init crc_init 0)))
      else if negb ((256 * b0 + b) mod 31 =? 0)%N then
        zerr "incorrect header check"
      else if negb (N.land b0 0xf =? 8)%N then
        zerr "unknown compression method"
      else if (15 <? N.shiftr b0 4 + 8)%N then
        zerr "invalid window size"
      else if N.testbit b 5 then ok (with_mode (DICTID 4) s)
      else ok (mkstate TYPE false 0 false crc_init adler_init 0)
  | DICTID todo =>
      match todo with
      | S (S k) => ok (with_mode (DICTID (S k)) s)
      | _ => inl "Error 2 while decompressing data"
      end
  | FLAGS [] => ok (hbyte b (with_mode (FLAGS [b]) s))
  | FLAGS (cm :: _) =>
      if negb (cm =? 8)%N then zerr "unknown compression method"
      else if negb (N.land b 0xe0 =? 0)%N then zerr "unknown header flags set"
      else ok (hbyte b
             (mkstate (TIME 4) true b false (st_hcheck s) (st_check s) 0))
  | TIME todo =>
      match todo with
      | S (S k) => ok (hbyte b (with_mode (TIME (S k)) s))
      | _ => ok (hbyte b (with_mode (OS 2) s))
      end
  | OS todo =>
      match todo with
      | S (S k) => ok (hbyte b (with_mode (OS (S k)) s))
      | _ => ok (after_os (hbyte b s))
      end
  | EXLEN [] => ok (hbyte b (with_mode (EXLEN [b]) s))
  | EXLEN (lo :: _) =>
      let n := (lo + 256 * b)%N in
      if (n =? 0)%N then ok (after_extra (hbyte b s))
      else ok (hbyte b (with_mode (EXTRA n) s))
  | EXTRA todo =>
      if (todo <=? 1)%N then ok (after_extra (hbyte b s))
      else ok (hbyte b (with_mode (EXTRA (todo - 1)) s))
  | NAME =>
      if (b =? 0)%N then ok (after_name (hbyte b s)) else ok (hbyte b s)
  | COMMENT =>
      if (b =? 0)%N then ok (after_comment (hbyte b s)) else ok (hbyte b s)
  | HCRC [] => ok (with_mode (HCRC [b]) s)
  | HCRC (lo :: _) =>
      if (lo + 256 * b =? N.land (crc_value (st_hcheck s)) 0xFFFF)%N
      then ok (with_mode TYPE s)
      else zerr "header crc mismatch"
  | TYPE =>
      let s' := mkstate (STORED []) (st_gzip s) (st_flags s) (N.odd b)
                        (st_hcheck s) (st_check s) (st_total s) in
      match N.land (N.shiftr b 1) 3 with
      | 0%N => ok s'
      | 3%N => zerr "invalid block type"
      | _ => inl "Huffman-coded block: not decoded by this automaton"
      end
  | STORED held =>
      match held with
      | [l0; l1; n0] =>
          let len := le [l0; l1] in
          if (len =? N.lxor (le [n0; b]) 0xFFFF)%N then
            if (len =? 0)%N then ok (after_block s)
            else ok (with_mode (COPY len) s)
          else zerr "invalid stored block lengths"
      | _ => ok (with_mode (STORED (held ++ [b])) s)
      end
  | COPY todo =>
      let s' := obyte b s in
      inr (if (todo <=? 1)%N then after_block s'
           else with_mode (COPY (todo - 1)) s', [byte])
  | CHECK held =>
      match held with
      | [c0; c1; c2] =>
          if st_gzip s then
            if (le [c0; c1; c2; b] =? crc_value (st_check s))%N
            then ok (with_mode (LENGTH []) s)
            else zerr "incorrect data check"
          else
            if (le [b; c2; c1; c0] =? st_check s)%N
            then ok (with_mode DONE s)
            else zerr "incorrect data check"
      | _ => ok (with_mode (CHECK (held ++ [b])) s)
      end
  | LENGTH held =>
      match held with
      | [c0; c1; c2] =>
          if (le [c0; c1; c2; b] =? st_total s mod 2 ^ 32)%N
          then ok (with_mode DONE s)
          else zerr "incorrect length check"
      | _ => ok (with_mode (LENGTH (held ++ [b])) s)
      end
  | DONE => ok s
  end.

Definition eof (s : state) : bool :=
  match st_mode s with DONE => true | _ => false end.

Lemma eof_absorbs : forall s b, eof s = true ->
  exists s', step s b = inr (s', []) /\ eof s' = true.
Proof.
  intros s b H. exists s. unfold eof in H. split; [|exact H].
  unfold step. destruct (st_mode s); try discriminate. reflexivity.
Qed.

(** [zlib.decompressobj(zlib.MAX_WBITS|32)]. *)
Definition decompressobj : Zlib.decompressobj :=
  Build_decompressobj state new step eof eof_absorbs.

(** Reading a hexadecimal dump as bytes (for the examples). *)
Definition hexval (c : ascii) : N :=
  let n := N_of_ascii c in
  if (n <? 58)%N then (n - 48)%N else (n - 87)%N.

Fixpoint unhex (s : string) : bytes :=
  match s with
  | String a (String b rest) =>
      match Byte.of_N (16 * hexval a + hexval b) with
      | Some x => x :: unhex rest
      | None => unhex rest
      end
  | _ => []
  end.

End Inflate.

(* ================================================================== *)
(** * The world: byte source, decompress object, child processes       *)
(* ================================================================== *)

(** What the program does to the outside, in the order it does it. *)
Inductive event :=
| EvUrlopen (url : string)
| EvShutdownWr
| EvStreamClose
| EvPopen (pid : nat) (args : list pyval)
| EvSelect (pid : nat)
| EvWrite (pid : nat) (data : bytes)
| EvFlush (pid : nat)
| EvFlushStd
| EvClose (pid : nat)
| EvWait (pid : nat) (returncode : Z)
| EvStderr (text : string)
| EvStdout (text : string).

Section World.

(** The type of the states of the decompress object in use. *)
Variable state : Type.

(** [src]: the bytes the input stream has still to deliver (a file
    object: [read(n)] returns [n] bytes while that many remain).
    [gz]: the state of the decompress object of the [StreamGunZip]
    in use.  [trace]: the events so far, oldest first. *)
Record world := mkworld {
  src : bytes;
  gz : state;
  trace : list event
}.

(** A computation: from a world to an outcome and the world as left
    (also when it raises). *)
Definition M (A : Type) := world -> outcome A * world.

Definition ret {A} (a : A) : M A := fun w => (Ok a, w).

Definition raise {A} (e : exn) : M A := fun w => (Raise e, w).

Definition bind {A B} (c : M A) (k : A -> M B) : M B :=
  fun w =>
    match c w with
    | (Ok a, w') => k a w'
    | (Raise e, w') => (Raise e, w')
    | (OutOfFuel, w') => (OutOfFuel, w')
    end.

Definition emit (e : event) : M unit :=
  fun w => (Ok tt, mkworld (src w) (gz w) (trace w ++ [e])).

End World.

Arguments mkworld {state} src gz trace.
Arguments src {state} w.
Arguments gz {state} w.
Arguments trace {state} w.
Arguments ret {state A} a.
Arguments raise {state A} e.
Arguments bind {state A B} c k.
Arguments emit {state} e.

Notation "x <- c ;; k" := (bind c (fun x => k))
  (at level 61, c at next level, right associativity).
Notation "c ;;; k" := (bind c (fun _ => k))
  (at level 61, right associativity).

(** [stream.read()] ([size = None]) and [stream.read(size)]: a negative
    size reads to the end, like no size. *)
Definition stream_read {state} (size : option pyval) : M state bytes :=
  fun w =>
    match size with
    | None => (Ok (src w), mkworld [] (gz w) (trace w))
    | Some v =>
        match as_int v with
        | None => (Raise (TypeError "an integer is required"), w)
        | Some n =>
            if n <? 0 then (Ok (src w), mkworld [] (gz w) (trace w))
            else (Ok (firstn (Z.to_nat n) (src w)),
                  mkworld (skipn (Z.to_nat n) (src w)) (gz w) (trace w))
        end
    end.

(* ================================================================== *)
(** * [StreamGunZip]                                                   *)
(* ================================================================== *)

Module StreamGunZip.
Section Methods.

Variable zd : decompressobj.

(** The instance: [self.stream] is the world's [src], [self.d] the
    world's [gz]. *)
Record t := mk { chunk_size : pyval }.

(** [__init__(self, compressed_f, chunk_size=1024)]: a fresh
    decompress object. *)
Definition init (chunk_size : pyval) : M (dstate zd) t :=
  fun w => (Ok (mk chunk_size), mkworld (src w) (d_new zd) (trace w)).

Definition default_chunk_size : pyval := VInt 1024.

(** [self.d(data)]. *)
Definition d (data : bytes) : M (dstate zd) bytes :=
  fun w =>
    match feed zd (gz w) data with
    | inl msg => (Raise (ZlibError msg), w)
    | inr (s, output) => (Ok output, mkworld (src w) s (trace w))
    end.

(** [decompress(self, chunk_size=None)]. *)
Definition decompress (self : t) (chunk_size : pyval) : M (dstate zd) bytes :=
  if is_none chunk_size then
    data <- stream_read None ;; d data
  else
    data <- stream_read (Some chunk_size) ;; d data.

(** [next(self)]. *)
Definition next (self : t) : M (dstate zd) bytes :=
  data <- decompress self (chunk_size self) ;;
  match data with
  | [] => raise StopIteration
  | _ => ret data
  end.

(** [k] calls of [decompress(chunk_size)] in a row, with what each
    returned. *)
Fixpoint decompress_calls (k : nat) (self : t) (chunk_size : pyval)
  : M (dstate zd) (list bytes) :=
  match k with
  | O => ret []
  | S k' =>
      data <- decompress self chunk_size ;;
      rest <- decompress_calls k' self chunk_size ;;
      ret (data :: rest)
  end.

(** The iterator protocol as a [for] statement runs it ([__iter__]
    returns [self]): [next] until it raises [StopIteration], with
    the chunks it returned. *)
Fixpoint iterate (fuel : nat) (self : t) : M (dstate zd) (list bytes) :=
  match fuel with
  | O => fun w => (OutOfFuel, w)
  | S fuel' =>
      fun w =>
        match next self w with
        | (Ok data, w') =>
            (rest <- iterate fuel' self ;; ret (data :: rest)) w'
        | (Raise StopIteration, w') => (Ok [], w')
        | (Raise e, w') => (Raise e, w')
        | (OutOfFuel, w') => (OutOfFuel, w')
        end
  end.

(** [list(self)]: a turn that goes on consumes a byte of the source
    at least, so one turn more than the source has bytes is enough
    ([chunks_total] below). *)
Definition chunks (self : t) : M (dstate zd) (list bytes) :=
  fun w => iterate (S (List.length (src w))) self w.

End Methods.
End StreamGunZip.

(* ================================================================== *)
(** * [MakeBlastDB]                                                    *)
(* ================================================================== *)

(** [**kwargs]: a dictionary, iterated in an order the program does not
    control; every statement below holds for every order. *)
Definition kwargs := list (string * pyval).

(** The last binding of a key, which is the one a dictionary built
    from the list would hold. *)
Fixpoint kw_get (k : string) (kw : kwargs) : option pyval :=
  match kw with
  | [] => None
  | (k', v) :: rest =>
      match kw_get k rest with
      | Some v' => Some v'
      | None => if String.eqb k k' then Some v else None
      end
  end.

(** A call [f(a1, .., an, **kwargs)] whose positional arguments fill
    the parameters [params] of [f]: a key of the dictionary that names
    one of them makes the call itself raise, before the body of [f]
    runs. *)
Definition keyword_clash (f : string) (params : list string) (kw : kwargs)
  : option exn :=
  match find (fun k => existsb (String.eqb k) params) (map fst kw) with
  | Some k =>
      Some (TypeError (f ++ "() got multiple values for keyword argument '"
                         ++ k ++ "'")%string)
  | None => None
  end.

Module MakeBlastDB.

(** The attributes of an instance.  [self.input] is the byte source,
    which lives in the world ([src] below); [proc] holds the pid of
    the [Popen] object, when one was opened. *)
Record t := mk {
  executable : string;
  _in : pyval;
  out : pyval;
  title : pyval;
  dbtype : pyval;
  parse_seqids : pyval;
  proc : option nat;
  decompress : pyval;
  chunk_size : pyval
}.

(** The option names the [if]/[elif] chain of [set_options] tests. *)
Definition option_names : list string :=
  ["input"; "out"; "title"; "dbtype"; "parse_seqids"; "decompress";
   "chunk_size"].

(** The attribute an option name stands for in [set_options]. *)
Definition attr (k : string) (self : t) : pyval :=
  if String.eqb k "input" then _in self
  else if String.eqb k "out" then out self
  else if String.eqb k "title" then title self
  else if String.eqb k "dbtype" then dbtype self
  else if String.eqb k "parse_seqids" then parse_seqids self
  else if String.eqb k "decompress" then decompress self
  else chunk_size self.

(** One turn of the [for k in kwargs] loop of [set_options]: the
    [if]/[elif] chain, [None] when it falls to the final [else]. *)
Definition set_option (k : string) (v : pyval) (self : t) : option t :=
  if String.eqb k "input" then
    Some (mk (executable self) v (out self) (title self) (dbtype self)
             (parse_seqids self) (proc self) (decompress self)
             (chunk_size self))
  else if String.eqb k "out" then
    Some (mk (executable self) (_in self) v (title self) (dbtype self)
             (parse_seqids self) (proc self) (decompress self)
             (chunk_size self))
  else if String.eqb k "title" then
    Some (mk (executable self) (_in self) (out self) v (dbtype self)
             (parse_seqids self) (proc self) (decompress self)
             (chunk_size self))
  else if String.eqb k "dbtype" then
    Some (mk (executable self) (_in self) (out self) (title self) v
             (parse_seqids self) (proc self) (decompress self)
             (chunk_size self))
  else if String.eqb k "parse_seqids" then
    Some (mk (executable self) (_in self) (out self) (title self)
             (dbtype self) v (proc self) (decompress self)
             (chunk_size self))
  else if String.eqb k "decompress" then
    Some (mk (executable self) (_in self) (out self) (title self)
             (dbtype self) (parse_seqids self) (proc self) v
             (chunk_size self))
  else if String.eqb k "chunk_size" then
    Some (mk (executable self) (_in self) (out self) (title self)
             (dbtype self) (parse_seqids self) (proc self)
             (decompress self) v)
  else None.

(** [set_options(self, **kwargs)].  The instance is mutated key by
    key, so the attributes set before an unknown key stay set: the
    result pairs the instance as left with the exception, if any. *)
Fixpoint set_options (kw : kwargs) (self : t) : t * option exn :=
  match kw with
  | [] => (self, None)
  | (k, v) :: rest =>
      match set_option k v self with
      | Some self' => set_options rest self'
      | None => (self, Some (ValueError ("unhandeled option: " ++ k)%string))
      end
  end.

(** [set_defaults(self)]. *)
Definition set_defaults (self : t) : t :=
  mk (executable self) (VStr "-") VNone VNone VNone (VBool false) None
     (VBool false) (VInt (16 * 1024)).

(** [__init__(self, input, **kwargs)]; [platform] is what
    [platform.system()] returns. *)
Definition init (platform : string) (kw : kwargs) : t * option exn :=
  let executable :=
    if String.eqb platform "Windows" then ("makeblastdb" ++ ".exe")%string
    else "makeblastdb" in
  let self := mk executable VNone VNone VNone VNone VNone None VNone VNone in
  set_options kw (set_defaults self).

(** [get_command_args(self)]. *)
Definition get_command_args (self : t) : list pyval :=
  let args := [VStr (executable self); VStr "-in"; _in self] in
  let args :=
    if negb (is_none (out self)) then args ++ [VStr "-out"; out self]
    else args in
  let args :=
    if negb (is_none (title self)) then args ++ [VStr "-title"; title self]
    else args in
  let args :=
    if negb (is_none (dbtype self)) then args ++ [VStr "-dbtype"; dbtype self]
    else args in
  let args :=
    if truthy (parse_seqids self) then args ++ [VStr "-parse_seqids"]
    else args in
  args.

(** The arguments an option contributes to the command line as the
    specification has it: none when the option is unset (absent from
    the dictionary, or [None]), else its flag and its value. *)
Definition option_args (flag : string) (v : option pyval) : list pyval :=
  match v with
  | Some x => if is_none x then [] else [VStr flag; x]
  | None => []
  end.

(** Likewise for the flag without a value. *)
Definition flag_args (flag : string) (v : option pyval) : list pyval :=
  match v with
  | Some x => if truthy x then [VStr flag] else []
  | None => []
  end.

(** The path given to [-in]: the option [input], by default a dash. *)
Definition input_arg (v : option pyval) : pyval :=
  match v with
  | Some x => x
  | None => VStr "-"
  end.

Definition nl : string := String (ascii_of_nat 10) EmptyString.

Definition is_popen (e : event) : bool :=
  match e with EvPopen _ _ => true | _ => false end.

(** The command line process [pid] was started with. *)
Fixpoint args_of (pid : nat) (tr : list event) : list pyval :=
  match tr with
  | [] => []
  | EvPopen pid' args :: rest =>
      if Nat.eqb pid pid' then args else args_of pid rest
  | _ :: rest => args_of pid rest
  end.

(** All that was written to the standard input of process [pid]. *)
Fixpoint stdin_of (pid : nat) (tr : list event) : bytes :=
  match tr with
  | [] => []
  | EvWrite pid' data :: rest =>
      if Nat.eqb pid pid' then data ++ stdin_of pid rest
      else stdin_of pid rest
  | _ :: rest => stdin_of pid rest
  end.

Section Methods.

Variable zd : decompressobj.

(** The external tool: the status [makeblastdb] exits with, given
    its command line and all it read on its standard input. *)
Variable child : list pyval -> bytes -> Z.

(** [open_process(self)]: [Popen(self.get_command_args(),
    stdin=PIPE)], the new process numbered after those before. *)
Definition open_process (self : t) : M (dstate zd) t :=
  fun w =>
    let pid := List.length (filter is_popen (trace w)) in
    (Ok (mk (executable self) (_in self) (out self) (title self)
            (dbtype self) (parse_seqids self) (Some pid)
            (decompress self) (chunk_size self)),
     mkworld (src w) (gz w)
             (trace w ++ [EvPopen pid (get_command_args self)])).

(** [self.proc.stdin]. *)
Definition proc_stdin (self : t) : M (dstate zd) nat :=
  match proc self with
  | Some pid => ret pid
  | None =>
      raise (AttributeError
               "'NoneType' object has no attribute 'stdin'")
  end.

(** [self.proc.wait()]. *)
Definition proc_wait (self : t) : M (dstate zd) Z :=
  match proc self with
  | Some pid =>
      fun w =>
        let r := child (args_of pid (trace w)) (stdin_of pid (trace w)) in
        (Ok r, mkworld (src w) (gz w) (trace w ++ [EvWait pid r]))
  | None =>
      raise (AttributeError "'NoneType' object has no attribute 'wait'")
  end.

(** The [_read] of [communicate]: the partial application chosen by
    [self.decompress]. *)
Definition read_method (self : t) : M (dstate zd) (M (dstate zd) bytes) :=
  if truthy (decompress self) then
    g <- StreamGunZip.init zd StreamGunZip.default_chunk_size ;;
    ret (StreamGunZip.decompress zd g (chunk_size self))
  else
    ret (stream_read (Some (chunk_size self))).

(** The [while data:] loop of [communicate].  [select] is called
    without a timeout, so when it returns the pipe is in [wlist]. *)
Fixpoint pump (fuel : nat) (self : t) (_read : M (dstate zd) bytes) (data : bytes)
  : M (dstate zd) unit :=
  match data with
  | [] => ret tt
  | _ :: _ =>
      match fuel with
      | O => fun w => (OutOfFuel, w)
      | S fuel' =>
          stdin <- proc_stdin self ;;
          emit (EvSelect stdin) ;;;
          emit (EvWrite stdin data) ;;;
          emit (EvFlush stdin) ;;;
          emit EvFlushStd ;;;
          fun w =>
            match _read w with
            | (Ok data', w') => pump fuel' self _read data' w'
            | (Raise StopIteration, w') => (Ok tt, w')
            | (Raise e, w') => (Raise e, w')
            | (OutOfFuel, w') => (OutOfFuel, w')
            end
      end
  end.

(** [communicate(self)].  A turn of the loop that goes on has read
    a byte of the source at least, so one turn more than the source
    has bytes is enough ([communicate_total] below). *)
Definition communicate (self : t) : M (dstate zd) Z :=
  _read <- read_method self ;;
  data <- _read ;;
  match data with
  | [] =>
      emit (EvStderr ("MakeBlastDB: null input" ++ nl)%string) ;;;
      stdin <- proc_stdin self ;;
      emit (EvClose stdin) ;;;
      proc_wait self
  | _ :: _ =>
      (fun w => pump (S (List.length (src w))) self _read data w) ;;;
      stdin <- proc_stdin self ;;
      emit (EvClose stdin) ;;;
      proc_wait self
  end.

(** [make(self, **kwargs)]. *)
Definition make (self : t) (kw : kwargs) : M (dstate zd) Z :=
  match set_options kw self with
  | (_, Some e) => raise e
  | (self, None) =>
      self <- open_process self ;;
      communicate self
  end.

End Methods.

End MakeBlastDB.

(* ================================================================== *)
(** * The functions of [blastdb.py]                                    *)
(* ================================================================== *)

Module Blastdb.
Section Functions.

Variable zd : decompressobj.
Variable child : list pyval -> bytes -> Z.

(** What [platform.system()] returns. *)
Variable platform : string.

(** The network: what the [n]-th call of [urllib2.urlopen] of the
    run delivers for [url], the content behind it or the reason of
    the [URLError] it raises. *)
Variable urlopen : nat -> string -> string + bytes.

Definition is_urlopen (e : event) : bool :=
  match e with EvUrlopen _ => true | _ => false end.

(** [make(input, **kwargs)], from the dictionary [kwargs] the body
    receives; [input] is the world's stream.  The body's first
    statement is the call [MakeBlastDB(input, **kwargs)], whose
    positional arguments fill [self] and [input]. *)
Definition make (kw : kwargs) : M (dstate zd) Z :=
  match keyword_clash "__init__" ["self"; "input"] kw with
  | Some e => raise e
  | None =>
      match MakeBlastDB.init platform kw with
      | (_, Some e) => raise e
      | (compiler, None) => MakeBlastDB.make zd child compiler []
      end
  end.

(** [download_and_make(url, **kwargs)]; the call
    [make(stream, **kwargs)] fills the parameter [input] of [make]
    with the stream. *)
Definition download_and_make (url : string) (kw : kwargs) : M (dstate zd) Z :=
  (fun w =>
     match urlopen (List.length (filter is_urlopen (trace w))) url with
     | inl reason =>
         (Raise (URLError reason),
          mkworld (src w) (gz w) (trace w ++ [EvUrlopen url]))
     | inr content =>
         (Ok tt, mkworld content (gz w) (trace w ++ [EvUrlopen url]))
     end) ;;;
  emit EvShutdownWr ;;;
  r <- match keyword_clash "make" ["input"] kw with
       | Some e => raise e
       | None => make kw
       end ;;
  emit EvStreamClose ;;;
  (if r >? 0 then
     emit (EvStderr ("makeblastdb exited with error ["
                     ++ NilZero.string_of_int (Z.to_int r) ++ "]" ++ MakeBlastDB.nl)%string)
   else ret tt) ;;;
  ret r.

End Functions.
End Blastdb.

(* ================================================================== *)
(** * [edirect.py]: assembly references                                *)
(* ================================================================== *)

Module Edirect.

(** [s.rfind(c)]: the last index of [c] in [s], or -1. *)
Fixpoint rfind (c : ascii) (s : string) : Z :=
  match s with
  | EmptyString => -1
  | String a rest =>
      let r := rfind c rest in
      if 0 <=? r then r + 1
      else if Ascii.eqb a c then 0 else -1
  end.

(** [s[i:]] for [0 <= i]. *)
Definition slice_from (i : Z) (s : string) : string :=
  substring (Z.to_nat i) (String.length s - Z.to_nat i) s.

(** [s[:i]] for [0 <= i]. *)
Definition slice_to (i : Z) (s : string) : string :=
  substring 0 (Z.to_nat i) s.

(** [os.path.split(p)[1]] of [posixpath]: [i = p.rfind('/') + 1],
    then [p[i:]]. *)
Definition path_split_tail (p : string) : string :=
  let i := rfind "/" p + 1 in
  slice_from i p.

(** [s.endswith(c)] for a one-character [c]. *)
Fixpoint endswith (c : ascii) (s : string) : bool :=
  match s with
  | EmptyString => false
  | String a EmptyString => Ascii.eqb a c
  | String _ rest => endswith c rest
  end.

(** [os.path.join(a, b)] of [posixpath]. *)
Definition path_join (a b : string) : string :=
  if String.prefix "/" b then b
  else if String.eqb a "" || endswith "/" a then (a ++ b)%string
  else (a ++ "/" ++ b)%string.

(** [s.split(c, 1)]: at most one cut, at the first [c]. *)
Fixpoint split1 (c : ascii) (s : string) : list string :=
  match s with
  | EmptyString => [EmptyString]
  | String a rest =>
      if Ascii.eqb a c then [EmptyString; rest]
      else match split1 c rest with
           | h :: t => String a h :: t
           | [] => [String a EmptyString]
           end
  end.

(** [s.split(c)[0]]: the text before the first [c]. *)
Fixpoint before_first (c : ascii) (s : string) : string :=
  match s with
  | EmptyString => EmptyString
  | String a rest =>
      if Ascii.eqb a c then EmptyString else String a (before_first c rest)
  end.

(** [l[i]]. *)
Definition index {A} (l : list A) (i : nat) : exn + A :=
  match nth_error l i with
  | Some x => inr x
  | None => inl (IndexError "list index out of range")
  end.

Record AssemblyReference := mkref {
  species : string;
  name : string;
  filename : string;
  filepath : string;
  version : string;
  type : string
}.

(** [AssemblyReference.__init__(self, species, assembly_ftppath)]. *)
Definition init (species assembly_ftppath : string)
  : exn + AssemblyReference :=
  let name := path_split_tail assembly_ftppath in
  let filename := (name ++ "_genomic.fna.gz")%string in
  let filepath := path_join assembly_ftppath filename in
  match index (split1 "_" name) 1 with
  | inl e => inl e
  | inr version =>
      let type := if String.prefix "GCA" name then "GenBank" else "RefSeq" in
      inr (mkref species name filename filepath version type)
  end.

(** The characters [str.strip()] removes. *)
Definition is_space (c : ascii) : bool :=
  let n := nat_of_ascii c in
  (Nat.eqb n 32 || (Nat.leb 9 n && Nat.leb n 13))%bool.

(** [s.lstrip()]. *)
Fixpoint lstrip (s : string) : string :=
  match s with
  | EmptyString => EmptyString
  | String a rest => if is_space a then lstrip rest else s
  end.

(** [s.rstrip()]. *)
Fixpoint rstrip (s : string) : string :=
  match s with
  | EmptyString => EmptyString
  | String a rest =>
      match rstrip rest with
      | EmptyString => if is_space a then EmptyString
                       else String a EmptyString
      | r => String a r
      end
  end.

(** [s.strip()]. *)
Definition strip (s : string) : string := rstrip (lstrip s).

(** [s.split(c)]. *)
Fixpoint split (c : ascii) (s : string) : list string :=
  match s with
  | EmptyString => [EmptyString]
  | String a rest =>
      if Ascii.eqb a c then EmptyString :: split c rest
      else match split c rest with
           | h :: t => String a h :: t
           | [] => [String a EmptyString]
           end
  end.

Definition tab : ascii := ascii_of_nat 9.

(** No character of [s] is one [strip] removes. *)
Fixpoint no_space (s : string) : bool :=
  match s with
  | EmptyString => true
  | String a rest => negb (is_space a) && no_space rest
  end.

(** The dictionary an [AssemblyRepository] is: the references of each
    species, in the order the species were met. *)
Definition repository := list (string * list AssemblyReference).

(** [self[species]], [None] standing for [KeyError]. *)
Fixpoint repo_get (species : string) (self : repository)
  : option (list AssemblyReference) :=
  match self with
  | [] => None
  | (k, refs) :: rest =>
      if String.eqb k species then Some refs else repo_get species rest
  end.

(** [self[species] = refs]. *)
Fixpoint repo_set (species : string) (refs : list AssemblyReference)
         (self : repository) : repository :=
  match self with
  | [] => [(species, refs)]
  | (k, old) :: rest =>
      if String.eqb k species then (k, refs) :: rest
      else (k, old) :: repo_set species refs rest
  end.

(** The body of [for assembly_ftppath in line[1:]]. *)
Definition add_path (species assembly_ftppath : string) (self : repository)
  : exn + repository :=
  match init species assembly_ftppath with
  | inl e => inl e
  | inr a =>
      match repo_get species self with
      | Some refs =>
          if existsb (fun x => String.eqb (filepath a) (filepath x)) refs
          then inr self
          else inr (repo_set species (refs ++ [a]) self)
      | None => inr (repo_set species [a] self)
      end
  end.

Fixpoint add_paths (species : string) (paths : list string)
         (self : repository) : exn + repository :=
  match paths with
  | [] => inr self
  | p :: rest =>
      match add_path species p self with
      | inl e => inl e
      | inr self' => add_paths species rest self'
      end
  end.

(** The body of [for line in f]. *)
Definition add_line (line : string) (self : repository)
  : exn + repository :=
  let fields := split tab (strip line) in
  match index fields 0 with
  | inl e => inl e
  | inr species => add_paths species (tl fields) self
  end.

(** [AssemblyRepository.__init__(self, f)]. *)
Fixpoint AssemblyRepository (f : list string) (self : repository)
  : exn + repository :=
  match f with
  | [] => inr self
  | line :: rest =>
      match add_line line self with
      | inl e => inl e
      | inr self' => AssemblyRepository rest self'
      end
  end.

(** The repository keeps, for every species, references of distinct
    file paths, all filed under their own species, and no species
    twice. *)
Inductive repo_ok : repository -> Prop :=
| repo_ok_nil : repo_ok []
| repo_ok_cons sp refs rest :
    repo_ok rest ->
    repo_get sp rest = None ->
    refs <> [] ->
    NoDup (map filepath refs) ->
    (forall a, In a refs -> species a = sp) ->
    repo_ok ((sp, refs) :: rest).

End Edirect.

(* ================================================================== *)
(** * [get_genomes.py]: downloading the assemblies of a species        *)
(* ================================================================== *)

Module GetGenomes.
Section Main.

Variable zd : decompressobj.
Variable child : list pyval -> bytes -> Z.
Variable platform : string.
Variable urlopen : nat -> string -> string + bytes.

(** [str(e)] for a [URLError]. *)
Definition str_URLError (reason : string) : string :=
  ("<urlopen error " ++ reason ++ ">")%string.

(** The keyword arguments [main] gives [download_and_make]. *)
Definition options (dbname : string) : kwargs :=
  [("dbtype", VStr "nucl"); ("parse_seqids", VBool true);
   ("out", VStr dbname); ("title", VStr dbname);
   ("decompress", VBool true)].

(** The [while counter < 3:] loop; [r] is the local variable of
    [main], [None] while it is unbound.  The result is [r] as the
    loop leaves it. *)
Fixpoint retry (fuel : nat) (counter : Z) (assembly : Edirect.AssemblyReference)
               (r : option Z) : M (dstate zd) (option Z) :=
  if counter <? 3 then
    match fuel with
    | O => fun w => (OutOfFuel, w)
    | S fuel' =>
        fun w =>
          match Blastdb.download_and_make zd child platform urlopen
                  (Edirect.filepath assembly)
                  (options (Edirect.before_first "." (Edirect.name assembly)))
                  w with
          | (Ok v, w') => (Ok (Some v), w')
          | (Raise (URLError reason), w') =>
              if contains "[Errno 110]" (str_URLError reason)
              then retry fuel' (counter + 1) assembly r w'
              else (Raise (URLError reason), w')
          | (Raise e, w') => (Raise e, w')
          | (OutOfFuel, w') => (OutOfFuel, w')
          end
    end
  else ret r.

Definition tab : string := String (ascii_of_nat 9) EmptyString.

(** The body of [for assembly in assemblies:]; the loop starts with
    [counter = 0], so three turns are all it can take. *)
Definition download_assembly (species : string)
           (assembly : Edirect.AssemblyReference) (r : option Z)
  : M (dstate zd) (option Z) :=
  r <- retry 3 0 assembly r ;;
  match r with
  | None =>
      raise (UnboundLocalError
               "local variable 'r' referenced before assignment")
  | Some v =>
      if negb (v =? 0) then
        emit (EvStderr ("makeblastdb exited with an error"
                        ++ MakeBlastDB.nl)%string) ;;;
        raise (SystemExit v)
      else
        emit (EvStdout (species ++ tab ++ Edirect.filepath assembly
                        ++ MakeBlastDB.nl)%string) ;;;
        ret r
  end.

(** [for assembly in assemblies:]. *)
Fixpoint download_assemblies (species : string)
         (assemblies : list Edirect.AssemblyReference) (r : option Z)
  : M (dstate zd) (option Z) :=
  match assemblies with
  | [] => ret r
  | assembly :: rest =>
      r <- download_assembly species assembly r ;;
      download_assemblies species rest r
  end.

(** The choice of [main] among the assemblies of a species: the
    RefSeq ones when there is one, else all of them. *)
Definition select_assemblies (assemblies : list Edirect.AssemblyReference)
  : list Edirect.AssemblyReference :=
  if existsb (fun x => String.eqb "RefSeq" (Edirect.type x)) assemblies
  then filter (fun x => String.eqb (Edirect.type x) "RefSeq") assemblies
  else assemblies.

End Main.
End GetGenomes.

(* ================================================================== *)
(** * Fixtures of the examples                                         *)
(* ================================================================== *)

(** The chunks before the first empty one. *)
Fixpoint take_nonempty (chunks : list bytes) : list bytes :=
  match chunks with
  | [] => []
  | [] :: _ => []
  | c :: rest => c :: take_nonempty rest
  end.

(** The events of one turn of the pump's loop. *)
Definition is_pump_event (e : event) : bool :=
  match e with
  | EvSelect _ | EvWrite _ _ | EvFlush _ | EvFlushStd => true
  | _ => false
  end.

(** A read as the pump needs it: it ends, it touches neither the trace
    nor gives bytes back to the source, and data it returns were taken
    from the source. *)
Definition well_behaved_read {state} (rd : M state bytes) : Prop :=
  forall w o w',
    rd w = (o, w') ->
    o <> OutOfFuel /\
    trace w' = trace w /\
    (List.length (src w') <= List.length (src w))%nat /\
    (forall b data, o = Ok (b :: data) ->
                    (List.length (src w') < List.length (src w))%nat).



(** A network on which every [urlopen] delivers the same content. *)
Definition always_serving (content : bytes) : nat -> string -> string + bytes :=
  fun _ _ => inr content.

(** A network that times out on the first [urlopen] of the run and
    delivers [content] from then on. *)
Definition failing_once (content : bytes) : nat -> string -> string + bytes :=
  fun n _ =>
    match n with
    | O => inl "[Errno 110] Connection timed out"
    | S _ => inr content
    end.

(** A stub tool that always succeeds. *)
Definition exits_with_0 (args : list pyval) (input : bytes) : Z := 0.

(** An assembly reference as [AssemblyReference] builds it. *)
Definition assembly0 : Edirect.AssemblyReference :=
  Edirect.mkref "Homo sapiens" "GCF_1.2_x" "GCF_1.2_x_genomic.fna.gz"
    "ftp://host/GCF_1.2_x/GCF_1.2_x_genomic.fna.gz" "1.2_x" "RefSeq".

(** A GenBank assembly, to go with [assembly0]. *)
Definition assembly1 : Edirect.AssemblyReference :=
  Edirect.mkref "Homo sapiens" "GCA_1.2_x" "GCA_1.2_x_genomic.fna.gz"
    "ftp://host/GCA_1.2_x/GCA_1.2_x_genomic.fna.gz" "1.2_x" "GenBank".

(** Two lines of search output for one species, the same path given
    twice. *)
Definition search_output : list string :=
  let nl := String (ascii_of_nat 10) EmptyString in
  let tab := String Edirect.tab EmptyString in
  [("Homo sapiens" ++ tab ++ "ftp://host/GCF_1.2_x" ++ tab
    ++ "ftp://host/GCA_1.2_x" ++ nl)%string;
   ("Homo sapiens" ++ tab ++ "ftp://host/GCF_1.2_x" ++ nl)%string].

(** The events [communicate] can add to the trace. *)
Definition is_communicate_event (e : event) : bool :=
  match e with
  | EvSelect _ | EvWrite _ _ | EvFlush _ | EvFlushStd
  | EvStderr _ | EvClose _ | EvWait _ _ => true
  | _ => false
  end.

Definition is_stream_close (e : event) : bool :=
  match e with EvStreamClose => true | _ => false end.

(** A write of at least one byte and at most [n]. *)
Definition write_within (n : Z) (e : event) : bool :=
  match e with
  | EvWrite _ data =>
      (1 <=? Z.of_nat (List.length data))
      && (Z.of_nat (List.length data) <=? n)
  | _ => true
  end.

(** A stub tool: its exit status is the number of bytes it read. *)
Definition byte_count (args : list pyval) (input : bytes) : Z :=
  Z.of_nat (List.length input).

(** A world whose stream holds [z], with a fresh decompress object of
    [Inflate] and nothing done yet. *)
Definition world0 (z : bytes) : world Inflate.state :=
  @mkworld Inflate.state z Inflate.new [].

(** The same once a child was opened. *)
Definition world1 (z : bytes) (tr : list event)
  : world Inflate.state :=
  @mkworld Inflate.state z Inflate.new tr.

(** An instance with the default options, decompression on and a child
    opened as process 0. *)
Definition compiler0 (chunk_size : Z) : MakeBlastDB.t :=
  MakeBlastDB.mk "makeblastdb" (VStr "-") VNone VNone VNone (VBool false)
    (Some 0%nat) (VBool true) (VInt chunk_size).

Definition popen0 : event :=
  EvPopen 0 [VStr "makeblastdb"; VStr "-in"; VStr "-"].

(** A network on which every [urlopen] fails, with the same reason. *)
Definition always_failing (reason : string) : nat -> string -> string + bytes :=
  fun _ _ => inl reason.

(** What [zlib] writes for the one-byte payloads [a] and [b] at level
    0 with the gzip wrapper: ten bytes of header, one stored block,
    CRC-32 and length. *)
Definition payload_a : bytes := [Byte.x61].
Definition payload_b : bytes := [Byte.x62].
Definition gz_a : bytes :=
  Inflate.unhex "1f8b0800000000000403010100feff6143beb7e801000000".
Definition gz_b : bytes :=
  Inflate.unhex "1f8b0800000000000403010100feff62f9efbe7101000000".

(** [gz_a] with the first byte of its CRC-32 changed: the header, the
    stored block and the payload are sound, the check after them is
    not. *)
Definition gz_bad_check : bytes :=
  Inflate.unhex "1f8b0800000000000403010100feff6100beb7e801000000".

(** What a fresh decompress object of [Inflate] makes of a hexadecimal
    dump fed in one call: the output, or the error. *)
Definition inflate_hex (dump : string) : string + bytes :=
  match feed Inflate.decompressobj Inflate.new (Inflate.unhex dump) with
  | inl msg => inl msg
  | inr (_, output) => inr output
  end.

(** Eight bytes that are no compressed stream: the text [not gzip]. *)
Definition not_gzip : bytes := Inflate.unhex "6e6f7420677a6970".

(* ================================================================== *)
(** * Properties of the options and the command line                   *)
(* ================================================================== *)

Module OptionFacts.
  Import MakeBlastDB.

Ltac name_cases H :=
  simpl in H;
  repeat (destruct H as [H | H]; [subst | ]); try contradiction.

Lemma set_option_known k v self :
  In k option_names -> exists self', set_option k v self = Some self'.
Proof.
  intros H. name_cases H; eexists; reflexivity.
Qed.

Lemma set_option_unknown k v self :
  ~ In k option_names -> set_option k v self = None.
Proof.
  intros H. unfold set_option.
  repeat match goal with
  | |- context [String.eqb k ?s] =>
      destruct (String.eqb_spec k s) as [E | _];
      [exfalso; apply H; rewrite E; simpl; tauto | ]
  end.
  reflexivity.
Qed.

Lemma set_option_some_known k v self self' :
  set_option k v self = Some self' -> In k option_names.
Proof.
  intros H. destruct (in_dec string_dec k option_names) as [I | N]; auto.
  rewrite (set_option_unknown k v self N) in H. discriminate.
Qed.

(** What one assignment does to each attribute. *)
Lemma set_option_attr k v self self' k' :
  set_option k v self = Some self' -> In k' option_names ->
  attr k' self' = if String.eqb k' k then v else attr k' self.
Proof.
  intros H Hk'. pose proof (set_option_some_known _ _ _ _ H) as Hk.
  name_cases Hk; name_cases Hk';
    cbv in H; injection H as <-; reflexivity.
Qed.

Lemma set_option_rest k v self self' :
  set_option k v self = Some self' ->
  executable self' = executable self /\ proc self' = proc self.
Proof.
  intros H. pose proof (set_option_some_known _ _ _ _ H) as Hk.
  name_cases Hk; cbv in H; injection H as <-; split; reflexivity.
Qed.

(** After a merge that raised nothing, an attribute holds the value
    the dictionary gives its option, or what it held before. *)
Lemma set_options_attr kw : forall self self' k,
  set_options kw self = (self', None) -> In k option_names ->
  attr k self' = match kw_get k kw with
                 | Some v => v
                 | None => attr k self
                 end.
Proof.
  induction kw as [| [k0 v0] rest IH]; intros self self' k H Hk.
  - injection H as <-. reflexivity.
  - simpl in H. destruct (set_option k0 v0 self) as [self1 |] eqn:E;
      [| discriminate].
    rewrite (IH _ _ _ H Hk). simpl.
    destruct (kw_get k rest); auto.
    rewrite (set_option_attr _ _ _ _ _ E Hk).
    destruct (String.eqb k k0); reflexivity.
Qed.

Lemma set_options_rest kw : forall self self',
  set_options kw self = (self', None) ->
  executable self' = executable self /\ proc self' = proc self.
Proof.
  induction kw as [| [k0 v0] rest IH]; intros self self' H.
  - injection H as <-. auto.
  - simpl in H. destruct (set_option k0 v0 self) as [self1 |] eqn:E;
      [| discriminate].
    destruct (IH _ _ H) as [A B].
    destruct (set_option_rest _ _ _ _ E) as [C D]. split; congruence.
Qed.

(** A merge raises nothing exactly when every key is a known one. *)
Lemma set_options_ok kw : forall self,
  (forall k v, In (k, v) kw -> In k option_names) ->
  exists self', set_options kw self = (self', None).
Proof.
  induction kw as [| [k0 v0] rest IH]; intros self H.
  - eexists; reflexivity.
  - simpl. destruct (set_option_known k0 v0 self) as [self1 E].
    + apply (H k0 v0). left; reflexivity.
    + rewrite E. apply IH. intros k v I. apply (H k v). right; exact I.
Qed.

Lemma set_options_unknown kw : forall self,
  (exists k v, In (k, v) kw /\ ~ In k option_names) ->
  exists self' k, In k (map fst kw) /\ ~ In k option_names /\
    set_options kw self
    = (self', Some (ValueError ("unhandeled option: " ++ k)%string)).
Proof.
  induction kw as [| [k0 v0] rest IH]; intros self (k & v & I & N).
  - destruct I.
  - simpl. destruct (set_option k0 v0 self) as [self1 |] eqn:E.
    + destruct I as [I | I].
      * injection I as -> ->.
        rewrite (set_option_unknown _ _ _ N) in E. discriminate.
      * destruct (IH self1) as (self' & k' & A & B & C);
          [exists k, v; auto |].
        exists self', k'. auto.
    + exists self, k0. repeat split; auto.
      intro I0. destruct (set_option_known k0 v0 self I0) as [x X].
      congruence.
Qed.

Lemma keyword_clash_some f params kw e :
  keyword_clash f params kw = Some e ->
  exists k,
    In k (map fst kw) /\ In k params /\
    e = TypeError (f ++ "() got multiple values for keyword argument '"
                     ++ k ++ "'")%string.
Proof.
  unfold keyword_clash.
  destruct (find _ (map fst kw)) as [k |] eqn:F; [| discriminate].
  intros [= <-]. apply find_some in F. destruct F as [I X].
  apply existsb_exists in X. destruct X as (p & P & Q).
  apply String.eqb_eq in Q. subst p. exists k. auto.
Qed.

Lemma keyword_clash_none f params kw :
  (forall p, In p params -> ~ In p (map fst kw)) ->
  keyword_clash f params kw = None.
Proof.
  intros H. unfold keyword_clash.
  destruct (find _ (map fst kw)) as [k |] eqn:F; [| reflexivity].
  apply find_some in F. destruct F as [I X].
  apply existsb_exists in X. destruct X as (p & P & Q).
  apply String.eqb_eq in Q. subst p. destruct (H k P I).
Qed.



Lemma kw_get_some kw : forall k v,
  kw_get k kw = Some v -> In (k, v) kw.
Proof.
  induction kw as [| [k0 v0] rest IH]; intros k v G; [discriminate |].
  simpl in G. destruct (kw_get k rest) as [v' |] eqn:G'.
  - injection G as ->. right. apply IH. exact G'.
  - destruct (String.eqb_spec k k0) as [-> |]; [| discriminate].
    injection G as ->. left. reflexivity.
Qed.

Lemma kw_get_notin kw : forall k,
  ~ In k (map fst kw) -> kw_get k kw = None.
Proof.
  induction kw as [| [k0 v0] rest IH]; intros k N; [reflexivity |].
  simpl in *. rewrite IH by tauto.
  destruct (String.eqb_spec k k0); [exfalso; apply N; auto | reflexivity].
Qed.

(** In a dictionary (no key twice) the binding found does not depend
    on the order of iteration. *)
Lemma kw_get_in kw : forall k v,
  NoDup (map fst kw) -> In (k, v) kw -> kw_get k kw = Some v.
Proof.
  induction kw as [| [k0 v0] rest IH]; intros k v ND I; [destruct I |].
  simpl in ND. inversion ND as [| ? ? NI ND']; subst.
  simpl. destruct I as [I | I].
  - injection I as -> ->.
    rewrite (kw_get_notin _ _ NI), String.eqb_refl. reflexivity.
  - rewrite (IH _ _ ND' I). reflexivity.
Qed.

Lemma kw_get_perm kw kw' k :
  NoDup (map fst kw') -> Permutation kw kw' -> kw_get k kw = kw_get k kw'.
Proof.
  intros ND P.
  assert (ND0 : NoDup (map fst kw)).
  { apply (Permutation_NoDup (l := map fst kw')); auto.
    apply Permutation_map. apply Permutation_sym. exact P. }
  destruct (kw_get k kw') as [v |] eqn:G.
  - apply kw_get_in; auto.
    apply (Permutation_in _ (Permutation_sym P)).
    apply kw_get_some. exact G.
  - destruct (kw_get k kw) as [v |] eqn:G0; [| reflexivity].
    apply kw_get_some in G0. apply (Permutation_in _ P) in G0.
    rewrite (kw_get_in _ _ _ ND G0) in G. discriminate.
Qed.

End OptionFacts.

Section OptionClaims.
  Import MakeBlastDB OptionFacts.

Variable zd : decompressobj.
Variable child : list pyval -> bytes -> Z.

Lemma init_attr platform kw self k :
  init platform kw = (self, None) -> In k option_names ->
  attr k self = match kw_get k kw with
                | Some v => v
                | None =>
                    attr k (mk "" (VStr "-") VNone VNone VNone (VBool false)
                               None (VBool false) (VInt 16384))
                end.
Proof.
  intros H Hk. unfold init in H.
  rewrite (set_options_attr _ _ _ _ H Hk).
  destruct (kw_get k kw); [reflexivity |].
  name_cases Hk; reflexivity.
Qed.

Lemma init_executable platform kw self :
  init platform kw = (self, None) ->
  executable self = if String.eqb platform "Windows"
                    then "makeblastdb.exe" else "makeblastdb".
Proof.
  intros H. unfold init in H.
  destruct (set_options_rest _ _ _ H) as [E _]. rewrite E. reflexivity.
Qed.

(** C6.  For the configuration dbtype "nucl", parse_seqids true, out
    "x", title "x" (in whatever order the dictionary yields its keys)
    and the default input, [get_command_args] returns the executable
    followed by -in - -out x -title x -dbtype nucl -parse_seqids, in
    that order; and for every configuration the command line is the
    executable, -in and the input followed by what each option
    contributes, which is nothing for an option left unset. *)
Theorem get_command_args_spec :
  (forall platform kw,
      Permutation kw [("dbtype", VStr "nucl"); ("parse_seqids", VBool true);
                      ("out", VStr "x"); ("title", VStr "x")] ->
      exists self,
        init platform kw = (self, None) /\
        executable self = (if String.eqb platform "Windows"
                           then "makeblastdb.exe" else "makeblastdb") /\
        get_command_args self
        = [VStr (executable self); VStr "-in"; VStr "-";
           VStr "-out"; VStr "x"; VStr "-title"; VStr "x";
           VStr "-dbtype"; VStr "nucl"; VStr "-parse_seqids"])
  /\
  (forall platform kw self,
      init platform kw = (self, None) ->
      get_command_args self
      = [VStr (executable self); VStr "-in"; input_arg (kw_get "input" kw)]
          ++ option_args "-out" (kw_get "out" kw)
          ++ option_args "-title" (kw_get "title" kw)
          ++ option_args "-dbtype" (kw_get "dbtype" kw)
          ++ flag_args "-parse_seqids" (kw_get "parse_seqids" kw)).
Proof.
  assert (G : forall platform kw self,
      init platform kw = (self, None) ->
      get_command_args self
      = [VStr (executable self); VStr "-in"; input_arg (kw_get "input" kw)]
          ++ option_args "-out" (kw_get "out" kw)
          ++ option_args "-title" (kw_get "title" kw)
          ++ option_args "-dbtype" (kw_get "dbtype" kw)
          ++ flag_args "-parse_seqids" (kw_get "parse_seqids" kw)).
  { intros platform kw self H.
    pose proof (init_attr _ _ _ "input" H) as A1.
    pose proof (init_attr _ _ _ "out" H) as A2.
    pose proof (init_attr _ _ _ "title" H) as A3.
    pose proof (init_attr _ _ _ "dbtype" H) as A4.
    pose proof (init_attr _ _ _ "parse_seqids" H) as A5.
    unfold option_names in *. simpl in A1, A2, A3, A4, A5.
    unfold attr in *. simpl in A1, A2, A3, A4, A5.
    unfold get_command_args.
    rewrite A1, A2, A3, A4, A5 by tauto.
    destruct (kw_get "input" kw), (kw_get "out" kw) as [[] |],
      (kw_get "title" kw) as [[] |], (kw_get "dbtype" kw) as [[] |],
      (kw_get "parse_seqids" kw) as [x |];
      simpl; try reflexivity;
      destruct (truthy x); reflexivity. }
  split; [| exact G].
  intros platform kw P.
  set (kw0 := [("dbtype", VStr "nucl"); ("parse_seqids", VBool true);
               ("out", VStr "x"); ("title", VStr "x")]) in *.
  assert (ND : NoDup (map fst kw0)).
  { simpl. repeat constructor; simpl; intuition discriminate. }
  destruct (set_options_ok kw
              (set_defaults (mk (if String.eqb platform "Windows"
                                 then "makeblastdb.exe" else "makeblastdb")
                                VNone VNone VNone VNone VNone None VNone
                                VNone))) as [self H].
  { intros k v I. apply (Permutation_in _ P) in I.
    simpl in I. unfold option_names. simpl.
    intuition (match goal with E : (_, _) = (_, _) |- _ =>
                 injection E as <- _ end; tauto). }
  exists self. split; [exact H |]. split; [exact (init_executable _ _ _ H) |].
  rewrite (G _ _ _ H).
  rewrite !(kw_get_perm kw kw0 _ ND P). reflexivity.
Qed.

Lemma get_command_args_spec_witness :
  exists self,
    init "Linux" [("dbtype", VStr "nucl"); ("parse_seqids", VBool true);
                  ("out", VStr "x"); ("title", VStr "x")] = (self, None) /\
    get_command_args self
    = [VStr "makeblastdb"; VStr "-in"; VStr "-";
       VStr "-out"; VStr "x"; VStr "-title"; VStr "x";
       VStr "-dbtype"; VStr "nucl"; VStr "-parse_seqids"].
Proof.
  destruct (proj1 get_command_args_spec "Linux" _ (Permutation_refl _))
    as (self & H & E & A).
  exists self. split; [exact H |]. rewrite A, E. reflexivity.
Defined.

Variable platform : string.
Variable urlopen : nat -> string -> string + bytes.

(** C7.  When the configuration holds an option name outside input,
    out, title, dbtype, parse_seqids, decompress, chunk_size, the
    merge [set_options] raises the error naming such a key, and so do
    the method [make] and the function [make], while
    [download_and_make] raises as well, all before any process is
    opened: the first three leave the world as it was, the last adds
    no [Popen] to the trace.  In the function [make] the constructor
    call comes first: a key self or input there is refused by the call
    itself, with a TypeError, and with no such key the error is the
    one of the merge. *)
Theorem unknown_option_raises_before_spawn :
  forall kw,
    (exists k v, In (k, v) kw /\ ~ In k option_names) ->
    (forall self, exists self' k,
        In k (map fst kw) /\ ~ In k option_names /\
        set_options kw self
        = (self', Some (ValueError ("unhandeled option: " ++ k)%string)))
    /\
    (forall self w, exists k,
        ~ In k option_names /\
        MakeBlastDB.make zd child self kw w
        = (Raise (ValueError ("unhandeled option: " ++ k)%string), w))
    /\
    (forall w,
        (exists k,
            In k (map fst kw) /\ In k ["self"; "input"] /\
            Blastdb.make zd child platform kw w
            = (Raise (TypeError
                        ("__init__() got multiple values for keyword argument '"
                           ++ k ++ "'")%string), w))
        \/
        (exists k,
            ~ In k option_names /\
            Blastdb.make zd child platform kw w
            = (Raise (ValueError ("unhandeled option: " ++ k)%string), w)))
    /\
    (~ In "self" (map fst kw) -> ~ In "input" (map fst kw) ->
     forall w, exists k,
        ~ In k option_names /\
        Blastdb.make zd child platform kw w
        = (Raise (ValueError ("unhandeled option: " ++ k)%string), w))
    /\
    (forall url w, exists e w',
        Blastdb.download_and_make zd child platform urlopen url kw w
        = (Raise e, w')
        /\ filter MakeBlastDB.is_popen (trace w')
           = filter MakeBlastDB.is_popen (trace w)).
Proof.
  intros kw H.
  assert (A : forall self, exists self' k,
        In k (map fst kw) /\ ~ In k option_names /\
        set_options kw self
        = (self', Some (ValueError ("unhandeled option: " ++ k)%string))).
  { intros self. apply set_options_unknown. exact H. }
  assert (V : forall w,
        keyword_clash "__init__" ["self"; "input"] kw = None ->
        exists k,
          ~ In k option_names /\
          Blastdb.make zd child platform kw w
          = (Raise (ValueError ("unhandeled option: " ++ k)%string), w)).
  { intros w C. unfold Blastdb.make, init. rewrite C.
    match goal with |- context [set_options kw ?s] =>
      destruct (A s) as (self' & k & _ & N & E) end.
    exists k. split; [exact N |]. rewrite E. reflexivity. }
  assert (B : forall w, exists e,
        Blastdb.make zd child platform kw w = (Raise e, w)).
  { intros w.
    destruct (keyword_clash "__init__" ["self"; "input"] kw) as [e |] eqn:C.
    - exists e. unfold Blastdb.make. rewrite C. reflexivity.
    - destruct (V w eq_refl) as (k & _ & E). eexists. exact E. }
  split; [exact A |]. split; [| split; [| split]].
  - intros self w. destruct (A self) as (self' & k & _ & N & E).
    exists k. split; [exact N |].
    unfold MakeBlastDB.make. rewrite E. reflexivity.
  - intros w.
    destruct (keyword_clash "__init__" ["self"; "input"] kw) as [e |] eqn:C.
    + left. destruct (keyword_clash_some _ _ _ _ C) as (k & I & P & ->).
      exists k. split; [exact I |]. split; [exact P |].
      unfold Blastdb.make. rewrite C. reflexivity.
    + right. apply V. reflexivity.
  - intros NS NI w. apply V. apply keyword_clash_none.
    intros p [<- | [<- | []]]; assumption.
  - intros url w. unfold Blastdb.download_and_make. unfold bind at 1.
    destruct (urlopen _ url) as [reason | content].
    + eexists _, _. split; [reflexivity |]. simpl.
      rewrite filter_app. simpl. apply app_nil_r.
    + unfold bind at 1. unfold emit at 1. unfold bind at 1.
      destruct (keyword_clash "make" ["input"] kw) as [e |].
      * eexists _, _. split; [reflexivity |]. simpl.
        rewrite !filter_app. simpl. rewrite !app_nil_r. reflexivity.
      * match goal with |- context [Blastdb.make zd child platform kw ?w0] =>
          destruct (B w0) as (e & E) end.
        rewrite E. eexists _, _. split; [reflexivity |]. simpl.
        rewrite !filter_app. simpl. rewrite !app_nil_r. reflexivity.
Qed.

(** C8, as the code has it.  The chunk size is 16384 unless the
    configuration gives one, and the merge checks no value: whatever
    is given for chunk_size, a zero or a negative integer included,
    is accepted and becomes the chunk size. *)
Theorem chunk_size_default_and_unchecked :
  (forall self, chunk_size (set_defaults self) = VInt 16384)
  /\
  (forall kw self,
      init platform kw = (self, None) ->
      chunk_size self = match kw_get "chunk_size" kw with
                        | Some v => v
                        | None => VInt 16384
                        end)
  /\
  (forall v, exists self,
      init platform [("chunk_size", v)] = (self, None)
      /\ chunk_size self = v).
Proof.
  split; [reflexivity |]. split.
  - intros kw self H.
    pose proof (init_attr _ _ _ "chunk_size" H) as A.
    unfold option_names in A. simpl in A. apply A. tauto.
  - intros v. eexists. split; reflexivity.
Qed.

End OptionClaims.

Lemma unknown_option_raises_before_spawn_witness :
  exists k,
    ~ In k MakeBlastDB.option_names /\
    Blastdb.make Inflate.decompressobj byte_count "Linux"
      [("out", VStr "x"); ("bogus", VInt 1)] (world0 [])
    = (Raise (ValueError ("unhandeled option: " ++ k)%string), world0 []).
Proof.
  apply (unknown_option_raises_before_spawn Inflate.decompressobj byte_count
           "Linux" (fun _ _ => inl "")
           [("out", VStr "x"); ("bogus", VInt 1)]).
  - exists "bogus", (VInt 1). split.
    + simpl. auto.
    + unfold MakeBlastDB.option_names. simpl. intuition discriminate.
  - simpl. intuition discriminate.
  - simpl. intuition discriminate.
Defined.

Lemma chunk_size_default_and_unchecked_witness :
  MakeBlastDB.chunk_size
    (fst (MakeBlastDB.init "Linux"
            [("chunk_size", VInt (-5)); ("out", VStr "db")]))
  = VInt (-5).
Proof.
  apply (proj1 (proj2 (chunk_size_default_and_unchecked "Linux"))
           [("chunk_size", VInt (-5)); ("out", VStr "db")]).
  reflexivity.
Defined.

(** C8 as stated fails: a chunk size of zero and a negative one are
    both accepted by the constructor, which raises nothing. *)
Lemma chunk_size_not_validated :
  ~ (exists e, snd (MakeBlastDB.init "Linux" [("chunk_size", VInt 0)])
               = Some e)
  /\ ~ (exists e, snd (MakeBlastDB.init "Linux" [("chunk_size", VInt (-1))])
                  = Some e).
Proof.
  split; intros [e H]; discriminate H.
Qed.

(* ================================================================== *)
(** * Properties of the assembly references                            *)
(* ================================================================== *)

Module EdirectFacts.
Import Edirect.

Lemma substring_all s : substring 0 (String.length s) s = s.
Proof.
  induction s as [| a s IH]; [reflexivity |]. simpl. now rewrite IH.
Qed.

Lemma slice_from_0 s : slice_from 0 s = s.
Proof.
  unfold slice_from. simpl. rewrite Nat.sub_0_r. apply substring_all.
Qed.

Lemma slice_from_cons i a s :
  0 <= i -> slice_from (i + 1) (String a s) = slice_from i s.
Proof.
  intros H. unfold slice_from.
  replace (Z.to_nat (i + 1)) with (S (Z.to_nat i)) by lia. reflexivity.
Qed.

Lemma contains_char_cons c a s :
  contains (String c EmptyString) (String a s)
  = Ascii.eqb a c || contains (String c EmptyString) s.
Proof.
  simpl. destruct (ascii_dec c a) as [<- | N].
  - rewrite Ascii.eqb_refl. now destruct s.
  - destruct (Ascii.eqb_spec a c) as [E | _]; [congruence | reflexivity].
Qed.

Lemma rfind_ge c s : -1 <= rfind c s.
Proof.
  induction s as [| a s IH]; simpl; [lia |].
  destruct (0 <=? rfind c s) eqn:E; [apply Z.leb_le in E; lia |].
  destruct (Ascii.eqb a c); lia.
Qed.

(** [os.path.split(p)[1]] is the last segment of [p]: what follows the
    last slash, or all of [p] when it has none. *)
Lemma path_split_tail_spec p :
  exists head,
    p = (head ++ path_split_tail p)%string /\
    contains "/" (path_split_tail p) = false /\
    (0 <= rfind "/" p -> endswith "/" head = true) /\
    (rfind "/" p = -1 -> head = EmptyString).
Proof.
  unfold path_split_tail.
  induction p as [| a p IH].
  - exists EmptyString. simpl. repeat split; auto; lia.
  - destruct IH as (head & E & NC & H1 & H2).
    pose proof (rfind_ge "/" p) as G.
    cbn [rfind]. destruct (0 <=? rfind "/" p) eqn:L.
    + apply Z.leb_le in L.
      rewrite slice_from_cons by lia.
      exists (String a head). repeat split.
      * simpl. congruence.
      * exact NC.
      * intros _. specialize (H1 L). simpl.
        destruct head; [discriminate | exact H1].
      * lia.
    + apply Z.leb_gt in L. assert (R : rfind "/" p = -1) by lia.
      rewrite R in *. specialize (H2 eq_refl). subst head.
      simpl in E. change (-1 + 1) with 0 in *.
      rewrite slice_from_0 in *.
      destruct (Ascii.eqb_spec a "/"%char) as [-> | N].
      * change (0 + 1) with (0 + 1). rewrite slice_from_cons by lia.
        rewrite slice_from_0.
        exists "/"%string. repeat split; auto. lia.
      * change (-1 + 1) with 0. rewrite slice_from_0.
        exists EmptyString. repeat split; auto; try lia.
        rewrite contains_char_cons, NC.
        destruct (Ascii.eqb_spec a "/"%char); [contradiction | reflexivity].
Qed.

(** [s.split(c, 1)]: one piece when [c] is absent, else the text before
    the first [c] and the text after it. *)
Lemma split1_spec c s :
  (contains (String c EmptyString) s = false /\ split1 c s = [s])
  \/ (contains (String c EmptyString) s = true /\
      exists pre post,
        split1 c s = [pre; post] /\
        s = (pre ++ String c post)%string /\
        contains (String c EmptyString) pre = false).
Proof.
  induction s as [| a s IH].
  - left. auto.
  - rewrite contains_char_cons. cbn [split1].
    destruct (Ascii.eqb_spec a c) as [-> | N].
    + right. split; [reflexivity |].
      exists EmptyString, s. auto.
    + destruct IH as [[NC E] | [C (pre & post & E & D & NC)]].
      * left. rewrite E, NC. auto.
      * right. rewrite C. split; [reflexivity |].
        exists (String a pre), post. rewrite E. repeat split.
        -- simpl. congruence.
        -- rewrite contains_char_cons, NC.
           destruct (Ascii.eqb_spec a c); [contradiction | reflexivity].
Qed.

Lemma prefix_app s1 s2 :
  String.prefix s1 s2 = true <-> exists rest, s2 = (s1 ++ rest)%string.
Proof.
  revert s2. induction s1 as [| a s1 IH]; intros s2.
  - split; [intros _; exists s2; reflexivity |].
    intros _. destruct s2; reflexivity.
  - destruct s2 as [| b s2]; simpl.
    + split; [discriminate | intros [r E]; discriminate].
    + destruct (ascii_dec a b) as [<- | N].
      * rewrite IH. split; intros [r E]; exists r; congruence.
      * split; [discriminate | intros [r E]; congruence].
Qed.

Lemma rstrip_app x y :
  rstrip y <> EmptyString -> rstrip (x ++ y) = (x ++ rstrip y)%string.
Proof.
  intros H. induction x as [| a x IH]; [reflexivity |].
  simpl. rewrite IH. destruct (x ++ rstrip y)%string eqn:E; [| reflexivity].
  destruct x; simpl in E; [contradiction | discriminate].
Qed.

Lemma rstrip_newline p :
  p <> EmptyString -> no_space p = true ->
  rstrip (p ++ String (ascii_of_nat 10) EmptyString) = p.
Proof.
  induction p as [| a p IH]; intros NE NS; [contradiction |].
  simpl in NS. apply andb_prop in NS. destruct NS as [Na Np].
  destruct p as [| b p].
  - simpl. destruct (is_space a); [discriminate | reflexivity].
  - change (rstrip ((String a (String b p))
                    ++ String (ascii_of_nat 10) EmptyString))
      with (match rstrip (String b p ++ String (ascii_of_nat 10) EmptyString)
            with
            | EmptyString => if is_space a then EmptyString
                             else String a EmptyString
            | r => String a r
            end).
    rewrite IH by (auto; discriminate). reflexivity.
Qed.

Lemma no_space_no_tab p :
  no_space p = true -> contains (String tab EmptyString) p = false.
Proof.
  induction p as [| a p IH]; intros NS; [reflexivity |].
  simpl in NS. apply andb_prop in NS. destruct NS as [Na Np].
  rewrite contains_char_cons, IH by exact Np.
  destruct (Ascii.eqb_spec a tab) as [-> | _]; [discriminate | reflexivity].
Qed.

Lemma split_no_sep c s :
  contains (String c EmptyString) s = false -> split c s = [s].
Proof.
  induction s as [| a s IH]; intros H; [reflexivity |].
  rewrite contains_char_cons in H. apply orb_false_elim in H.
  destruct H as [Ha Hs]. simpl. rewrite Ha, IH by exact Hs. reflexivity.
Qed.

Lemma split_two c x y :
  contains (String c EmptyString) x = false ->
  contains (String c EmptyString) y = false ->
  split c (x ++ String c y) = [x; y].
Proof.
  intros Hx Hy. induction x as [| a x IH].
  - simpl. rewrite Ascii.eqb_refl, split_no_sep by exact Hy. reflexivity.
  - rewrite contains_char_cons in Hx. apply orb_false_elim in Hx.
    destruct Hx as [Ha Hx]. simpl. rewrite Ha, IH by exact Hx. reflexivity.
Qed.

(** A line [species<TAB>path] of the search output, with its newline,
    is cut into the species and the path, and the reference of that
    path is what the line adds. *)
Lemma add_line_one_path c species path self :
  is_space c = false ->
  contains (String tab EmptyString) (String c species) = false ->
  path <> EmptyString -> no_space path = true ->
  add_line (String c species ++ String tab path
            ++ String (ascii_of_nat 10) EmptyString) self
  = match add_path (String c species) path self with
    | inl e => inl e
    | inr self' => inr self'
    end.
Proof.
  intros Hc Hs NE NS. unfold add_line, strip.
  set (nl := String (ascii_of_nat 10) EmptyString).
  assert (A : forall x y : string,
             (x ++ String tab y = (x ++ String tab EmptyString) ++ y)%string).
  { intros x y. induction x as [| a x IH]; [reflexivity |].
    simpl. now rewrite IH. }
  cbn [append]. rewrite A. cbn [lstrip]. rewrite Hc.
  change (String c ((species ++ String tab EmptyString) ++ path ++ nl))
    with ((String c species ++ String tab EmptyString) ++ (path ++ nl))%string.
  rewrite rstrip_app by (unfold nl; rewrite rstrip_newline; auto).
  unfold nl. rewrite rstrip_newline by auto.
  replace ((String c species ++ String tab EmptyString) ++ path)%string
    with (String c species ++ String tab path)%string.
  - rewrite split_two by (auto using no_space_no_tab).
    cbn [index nth_error tl add_paths].
    destruct (add_path (String c species) path self); reflexivity.
  - apply A.
Qed.

End EdirectFacts.

(** C10.  For every species and path, the name of the reference is the
    last segment of the path (what follows its last slash); and when
    that name holds an underscore the reference is built with that
    name, the file name made of the name followed by _genomic.fna.gz,
    the version being the text after the first underscore of the name,
    and the kind GenBank when the name starts with GCA and RefSeq
    otherwise.  (A name without an underscore has no such text: the
    constructor then raises IndexError and builds nothing.) *)
Theorem assembly_reference_fields :
  forall species path,
    let name := Edirect.path_split_tail path in
    (exists head,
        path = (head ++ name)%string /\
        contains "/" name = false /\
        (head = EmptyString \/ Edirect.endswith "/" head = true))
    /\
    (contains "_" name = true ->
     exists a,
       Edirect.init species path = inr a /\
       Edirect.species a = species /\
       Edirect.name a = name /\
       Edirect.filename a = (name ++ "_genomic.fna.gz")%string /\
       (exists pre,
           name = (pre ++ "_" ++ Edirect.version a)%string /\
           contains "_" pre = false) /\
       ((exists rest, name = ("GCA" ++ rest)%string) ->
        Edirect.type a = "GenBank") /\
       (~ (exists rest, name = ("GCA" ++ rest)%string) ->
        Edirect.type a = "RefSeq"))
    /\
    (contains "_" name = false ->
     Edirect.init species path
     = inl (IndexError "list index out of range")).
Proof.
  intros species path name. split; [| split].
  - destruct (EdirectFacts.path_split_tail_spec path)
      as (head & E & NC & H1 & H2).
    exists head. repeat split; auto.
    pose proof (EdirectFacts.rfind_ge "/" path).
    destruct (Z.eq_dec (Edirect.rfind "/" path) (-1)); [left | right]; auto.
    apply H1. lia.
  - intros C. unfold Edirect.init. fold name.
    destruct (EdirectFacts.split1_spec "_" name)
      as [[NC _] | [_ (pre & post & E & D & NC)]]; [congruence |].
    rewrite E. cbn [Edirect.index nth_error].
    pose proof (EdirectFacts.prefix_app "GCA" name) as PA.
    eexists. split; [reflexivity |].
    cbn [Edirect.species Edirect.name Edirect.filename Edirect.version
         Edirect.type].
    repeat split.
    + exists pre. split; [exact D | exact NC].
    + intros R. apply PA in R. rewrite R. reflexivity.
    + intros R. destruct (String.prefix "GCA" name) eqn:P; auto.
      exfalso. apply R, PA. reflexivity.
  - intros NC. unfold Edirect.init. fold name.
    destruct (EdirectFacts.split1_spec "_" name)
      as [[_ E] | [C _]]; [| congruence].
    rewrite E. reflexivity.
Qed.

Lemma assembly_reference_fields_witness :
  exists a,
    Edirect.init "Homo sapiens"
      "ftp://ftp.ncbi.nlm.nih.gov/genomes/all/GCF/000/001/GCF_000001405.39_GRCh38.p13"
    = inr a /\
    Edirect.name a = "GCF_000001405.39_GRCh38.p13" /\
    Edirect.filename a = "GCF_000001405.39_GRCh38.p13_genomic.fna.gz" /\
    Edirect.version a = "000001405.39_GRCh38.p13" /\
    Edirect.type a = "RefSeq".
Proof.
  destruct (proj1 (proj2 (assembly_reference_fields "Homo sapiens"
    "ftp://ftp.ncbi.nlm.nih.gov/genomes/all/GCF/000/001/GCF_000001405.39_GRCh38.p13"))
    eq_refl) as (a & E & _).
  exists a. split; [exact E |].
  vm_compute in E. injection E as <-. repeat split; reflexivity.
Defined.

(* ================================================================== *)
(** * The retry loop of the batch driver                               *)
(* ================================================================== *)

Section RetryClaims.

Variable zd : decompressobj.
Variable child : list pyval -> bytes -> Z.
Variable platform : string.

(** C9, at the failing input.  When every attempt raises the URLError
    of the reset condition, the loop makes three attempts and then
    ends normally, leaving [r] as it was: no error is raised by the
    loop.  What follows reads [r]: unbound (the first assembly of the
    run), that is an UnboundLocalError, not the URLError; left at 0 by
    an earlier assembly, the assembly is reported as compiled. *)
Theorem retry_gives_up_without_raising :
  forall reason species assembly w,
    contains "[Errno 110]" (GetGenomes.str_URLError reason) = true ->
    let url := Edirect.filepath assembly in
    let w3 := mkworld (src w) (gz w)
                ((((trace w) ++ [EvUrlopen url]) ++ [EvUrlopen url])
                   ++ [EvUrlopen url]) in
    (forall r,
        GetGenomes.retry zd child platform (always_failing reason) 3 0
          assembly r w
        = (Ok r, w3))
    /\
    GetGenomes.download_assembly zd child platform (always_failing reason)
      species assembly None w
    = (Raise (UnboundLocalError
                "local variable 'r' referenced before assignment"), w3)
    /\
    GetGenomes.download_assembly zd child platform (always_failing reason)
      species assembly (Some 0) w
    = (Ok (Some 0),
       mkworld (src w) (gz w)
         (trace w3 ++ [EvStdout (species ++ GetGenomes.tab ++ url
                                 ++ MakeBlastDB.nl)%string])).
Proof.
  intros reason species assembly w H url w3.
  assert (R : forall r,
      GetGenomes.retry zd child platform (always_failing reason) 3 0
        assembly r w = (Ok r, w3)).
  { assert (F : forall w0,
        Blastdb.download_and_make zd child platform (always_failing reason)
          url (GetGenomes.options
                 (Edirect.before_first "." (Edirect.name assembly))) w0
        = (Raise (URLError reason),
           mkworld (src w0) (gz w0) (trace w0 ++ [EvUrlopen url])))
      by reflexivity.
    assert (S : forall fuel counter r w0,
        counter < 3 ->
        GetGenomes.retry zd child platform (always_failing reason)
          (S fuel) counter assembly r w0
        = GetGenomes.retry zd child platform (always_failing reason)
            fuel (counter + 1) assembly r
            (mkworld (src w0) (gz w0) (trace w0 ++ [EvUrlopen url]))).
    { intros fuel counter r w0 L. cbn [GetGenomes.retry].
      apply Z.ltb_lt in L. rewrite L. fold url. rewrite F, H.
      reflexivity. }
    intros r. rewrite !S by lia. reflexivity. }
  split; [exact R |].
  unfold GetGenomes.download_assembly, bind. rewrite !R.
  split; reflexivity.
Qed.

End RetryClaims.

Lemma retry_gives_up_without_raising_witness :
  let assembly :=
    Edirect.mkref "Homo sapiens" "GCF_1.2_x" "GCF_1.2_x_genomic.fna.gz"
      "ftp://host/GCF_1.2_x/GCF_1.2_x_genomic.fna.gz" "1.2_x" "RefSeq" in
  exists w',
    GetGenomes.download_assembly Inflate.decompressobj byte_count "Linux"
      (always_failing "[Errno 110] Connection timed out")
      "Homo sapiens" assembly None (world0 [])
    = (Raise (UnboundLocalError
                "local variable 'r' referenced before assignment"), w')
    /\ List.length (filter Blastdb.is_urlopen (trace w')) = 3%nat.
Proof.
  intros assembly.
  eexists. split.
  - apply (retry_gives_up_without_raising Inflate.decompressobj byte_count
             "Linux" "[Errno 110] Connection timed out" "Homo sapiens"
             assembly (world0 [])).
    reflexivity.
  - reflexivity.
Defined.

(* ================================================================== *)
(** * Properties of the decompressing reader                           *)
(* ================================================================== *)

Section ReaderFacts.

Variable zd : decompressobj.

Lemma feed_app (s : dstate zd) (a b : bytes) :
  feed zd s (a ++ b)
  = match feed zd s a with
    | inl msg => inl msg
    | inr (s1, o1) =>
        match feed zd s1 b with
        | inl msg => inl msg
        | inr (s2, o2) => inr (s2, o1 ++ o2)
        end
    end.
Proof.
  revert s. induction a as [| x a IH]; intros s; simpl.
  - destruct (feed zd s b) as [| [s2 o2]]; reflexivity.
  - destruct (d_byte zd s x) as [| [s1 o1]]; [reflexivity |].
    rewrite IH. destruct (feed zd s1 a) as [| [s2 o2]]; [reflexivity |].
    destruct (feed zd s2 b) as [| [s3 o3]]; [reflexivity |].
    now rewrite app_assoc.
Qed.

(** Past the end of the compressed stream nothing comes out. *)
Lemma feed_eof (z : bytes) : forall s : dstate zd,
  d_eof zd s = true ->
  exists s', feed zd s z = inr (s', []) /\ d_eof zd s' = true.
Proof.
  induction z as [| x z IH]; intros s H; simpl.
  - exists s. auto.
  - destruct (d_eof_absorbs zd s x H) as (s1 & E & H1). rewrite E.
    destruct (IH s1 H1) as (s2 & E2 & H2). rewrite E2.
    exists s2. auto.
Qed.

(** [decompress(n)] for an integer [n >= 0]: the next [n] bytes of the
    source, through the decompress object. *)
Lemma decompress_int self (n : Z) (w : world (dstate zd)) :
  0 <= n ->
  StreamGunZip.decompress zd self (VInt n) w
  = match feed zd (gz w) (firstn (Z.to_nat n) (src w)) with
    | inl msg =>
        (Raise (ZlibError msg),
         mkworld (skipn (Z.to_nat n) (src w)) (gz w) (trace w))
    | inr (s, output) =>
        (Ok output, mkworld (skipn (Z.to_nat n) (src w)) s (trace w))
    end.
Proof.
  intros H. unfold StreamGunZip.decompress, bind, stream_read,
    StreamGunZip.d. simpl.
  destruct (n <? 0) eqn:L; [apply Z.ltb_lt in L; lia |]. simpl.
  destruct (feed zd (gz w) (firstn (Z.to_nat n) (src w))) as [| [s o]];
    reflexivity.
Qed.

(** Enough calls of [decompress(n)] to read the source through return
    chunks that make up all the source decompresses to. *)
Lemma decompress_calls_spec self (n : Z) (k : nat) :
  1 <= n ->
  forall z s s' p tr,
    (List.length z <= k * Z.to_nat n)%nat ->
    feed zd s z = inr (s', p) ->
    exists chunks,
      StreamGunZip.decompress_calls zd k self (VInt n) (mkworld z s tr)
      = (Ok chunks, mkworld [] s' tr)
      /\ List.concat chunks = p.
Proof.
  intros Hn. induction k as [| k IH]; intros z s s' p tr L F.
  - destruct z; [| simpl in L; lia]. simpl in F. injection F as <- <-.
    exists []. auto.
  - rewrite <- (firstn_skipn (Z.to_nat n) z) in F. rewrite feed_app in F.
    cbn [StreamGunZip.decompress_calls]. unfold bind at 1.
    rewrite decompress_int by lia. cbn [src gz trace].
    destruct (feed zd s (firstn (Z.to_nat n) z)) as [| [s1 o1]];
      [discriminate |].
    destruct (feed zd s1 (skipn (Z.to_nat n) z)) as [| [s2 o2]] eqn:F2;
      [discriminate |].
    injection F as <- <-.
    assert (L' : (List.length (skipn (Z.to_nat n) z) <= k * Z.to_nat n)%nat)
      by (rewrite length_skipn; lia).
    destruct (IH _ _ _ _ tr L' F2) as (chunks & E & C).
    exists (o1 :: chunks). unfold bind, ret. rewrite E. simpl.
    now rewrite C.
Qed.

(** The iterator yields the chunks of those calls up to the first empty
    one, and stops there. *)
Lemma iterate_spec (n : Z) (k : nat) :
  1 <= n ->
  forall fuel z s tr self chunks w',
    (List.length z <= k * Z.to_nat n)%nat ->
    (List.length z < fuel)%nat ->
    StreamGunZip.decompress_calls zd k self (VInt n) (mkworld z s tr)
    = (Ok chunks, w') ->
    exists w'',
      StreamGunZip.iterate zd fuel (StreamGunZip.mk (VInt n))
        (mkworld z s tr)
      = (Ok (take_nonempty chunks), w'').
Proof.
  intros Hn. induction k as [| k IH];
    intros fuel z s tr self chunks w' L Lf C.
  - destruct z; [| simpl in L; lia]. simpl in C. injection C as <- <-.
    destruct fuel; [simpl in Lf; lia |].
    cbn [StreamGunZip.iterate]. unfold StreamGunZip.next, bind.
    cbn [StreamGunZip.chunk_size]. rewrite decompress_int by lia.
    cbn [src gz trace]. rewrite firstn_nil. simpl.
    eexists. reflexivity.
  - destruct fuel; [lia |].
    cbn [StreamGunZip.decompress_calls] in C. unfold bind at 1 in C.
    cbn [StreamGunZip.iterate]. unfold StreamGunZip.next, bind at 1.
    cbn [StreamGunZip.chunk_size].
    rewrite decompress_int in * by lia. cbn [src gz trace] in *.
    destruct (feed zd s (firstn (Z.to_nat n) z)) as [| [s1 o1]] eqn:F;
      [discriminate |].
    unfold bind in C.
    destruct (StreamGunZip.decompress_calls zd k self (VInt n)
                (mkworld (skipn (Z.to_nat n) z) s1 tr))
      as [[rest | e |] w1] eqn:C1; try discriminate.
    injection C as <- <-.
    destruct o1 as [| b o1].
    + simpl. eexists. reflexivity.
    + assert (NZ : z <> []).
      { intros ->. rewrite firstn_nil in F. simpl in F. discriminate. }
      assert (L1 : (List.length (skipn (Z.to_nat n) z) <= k * Z.to_nat n)%nat)
        by (rewrite length_skipn; lia).
      assert (L2 : (List.length (skipn (Z.to_nat n) z) < fuel)%nat).
      { rewrite length_skipn.
        assert (0 < List.length z)%nat
          by (destruct z; [congruence | simpl; lia]).
        lia. }
      destruct (IH fuel (skipn (Z.to_nat n) z) s1 tr self rest w1 L1 L2 C1)
        as (w2 & E).
      unfold ret. cbn [take_nonempty]. unfold bind. rewrite E.
      eexists. reflexivity.
Qed.

(** What a read does to the world. *)
Lemma stream_read_spec size (w : world (dstate zd)) o w' :
  stream_read size w = (o, w') ->
  trace w' = trace w /\ gz w' = gz w /\
  match o with
  | Ok data => src w = data ++ src w'
  | Raise e => w' = w
  | OutOfFuel => False
  end.
Proof.
  unfold stream_read. intros H.
  destruct size as [v |].
  - destruct (as_int v) as [n |].
    + destruct (n <? 0); injection H as <- <-; simpl; repeat split.
      * symmetry. apply app_nil_r.
      * symmetry. apply firstn_skipn.
    + injection H as <- <-. auto.
  - injection H as <- <-. simpl. repeat split. symmetry. apply app_nil_r.
Qed.

(** What [decompress] returns is what the bytes it read decompress to;
    it raises when they are malformed (or the size is no integer). *)
Lemma decompress_spec self cs (w : world (dstate zd)) o w' :
  StreamGunZip.decompress zd self cs w = (o, w') ->
  trace w' = trace w /\
  exists raw,
    src w = raw ++ src w' /\
    match o with
    | Ok data => feed zd (gz w) raw = inr (gz w', data)
    | Raise (ZlibError msg) => feed zd (gz w) raw = inl msg
    | Raise (TypeError _) => w' = w /\ raw = []
    | _ => False
    end.
Proof.
  assert (G : forall size,
    (data <- stream_read size ;; StreamGunZip.d zd data) w = (o, w') ->
    trace w' = trace w /\
    exists raw,
      src w = raw ++ src w' /\
      match o with
      | Ok data => feed zd (gz w) raw = inr (gz w', data)
      | Raise (ZlibError msg) => feed zd (gz w) raw = inl msg
      | Raise (TypeError _) => w' = w /\ raw = []
      | _ => False
      end).
  { intros size H. unfold bind in H.
    destruct (stream_read size w) as [[raw | e |] w1] eqn:R;
      pose proof (stream_read_spec _ _ _ _ R) as (T & Z & S);
      [| | contradiction].
    - unfold StreamGunZip.d in H. rewrite Z in H.
      destruct (feed zd (gz w) raw) as [msg | [s1 out]] eqn:F;
        injection H as <- <-; simpl; (split; [exact T |]);
        exists raw; split; auto.
    - injection H as <- <-. subst w1. split; [reflexivity |].
      exists []. split; [reflexivity |].
      unfold stream_read in R. destruct size as [v |];
        [| discriminate].
      destruct (as_int v); [destruct (_ <? 0); discriminate |].
      injection R as <-. auto. }
  unfold StreamGunZip.decompress. destruct (is_none cs); apply G.
Qed.

Lemma decompress_well_behaved self cs :
  well_behaved_read (StreamGunZip.decompress zd self cs).
Proof.
  intros w o w' H. destruct (decompress_spec _ _ _ _ _ H) as (T & raw & S & F).
  assert (L : List.length (src w) = (List.length raw + List.length (src w'))%nat)
    by (rewrite S; apply length_app).
  repeat split; auto; try lia.
  - intros ->. exact F.
  - intros b data ->. destruct raw; [discriminate | simpl in L; lia].
Qed.

Lemma stream_read_well_behaved size :
  well_behaved_read (@stream_read (dstate zd) size).
Proof.
  intros w o w' H. destruct (stream_read_spec _ _ _ _ H) as (T & _ & S).
  repeat split; auto.
  - intros ->. exact S.
  - destruct o as [data | e |]; [| subst; lia | contradiction].
    rewrite S, length_app. lia.
  - intros b data ->. rewrite S, length_app. simpl. lia.
Qed.

(** The reader's own attributes play no part in [decompress]. *)
Lemma decompress_calls_self (k : nat) g1 g2 cs :
  StreamGunZip.decompress_calls zd k g1 cs
  = StreamGunZip.decompress_calls zd k g2 cs.
Proof.
  induction k as [| k IH]; [reflexivity |].
  cbn [StreamGunZip.decompress_calls]. rewrite IH. reflexivity.
Qed.

Lemma take_nonempty_prefix (chunks : list bytes) :
  exists rest, List.concat chunks = List.concat (take_nonempty chunks) ++ rest.
Proof.
  induction chunks as [| c chunks IH]; [exists []; reflexivity |].
  destruct c as [| b c].
  - exists (List.concat chunks). reflexivity.
  - destruct IH as [rest E]. exists rest.
    cbn [take_nonempty List.concat]. rewrite E. now rewrite app_assoc.
Qed.

End ReaderFacts.

(* ================================================================== *)
(** * Properties of the pump                                           *)
(* ================================================================== *)

Section PumpFacts.

Variable zd : decompressobj.
Variable child : list pyval -> bytes -> Z.

Import MakeBlastDB.

Lemma stdin_of_app pid (a b : list event) :
  stdin_of pid (a ++ b) = stdin_of pid a ++ stdin_of pid b.
Proof.
  induction a as [| e a IH]; [reflexivity |].
  destruct e; simpl; auto.
  destruct (Nat.eqb pid pid0); [rewrite IH; apply app_assoc | exact IH].
Qed.

Lemma args_of_app pid (a b : list event) :
  forallb (fun e => negb (is_popen e)) b = true ->
  args_of pid (a ++ b) = args_of pid a.
Proof.
  intros H. induction a as [| e a IH].
  - simpl. induction b as [| e b IHb]; [reflexivity |].
    simpl in H. apply andb_prop in H. destruct H as [H1 H2].
    destruct e; simpl in *; auto; discriminate.
  - destruct e; simpl; auto.
    destruct (Nat.eqb pid pid0); auto.
Qed.

Lemma pump_nil fuel self (rd : M (dstate zd) bytes) w :
  pump zd fuel self rd [] w = (Ok tt, w).
Proof.
  destruct fuel; reflexivity.
Qed.

(** One turn of the loop. *)
Lemma pump_step fuel self (rd : M (dstate zd) bytes) b data w :
  pump zd (S fuel) self rd (b :: data) w
  = match proc self with
    | None =>
        (Raise (AttributeError "'NoneType' object has no attribute 'stdin'"),
         w)
    | Some pid =>
        match rd (mkworld (src w) (gz w)
                    (trace w ++ [EvSelect pid; EvWrite pid (b :: data);
                                 EvFlush pid; EvFlushStd])) with
        | (Ok data', w') => pump zd fuel self rd data' w'
        | (Raise StopIteration, w') => (Ok tt, w')
        | (Raise e, w') => (Raise e, w')
        | (OutOfFuel, w') => (OutOfFuel, w')
        end
    end.
Proof.
  cbn [pump]. unfold bind, proc_stdin, emit.
  destruct (proc self) as [pid |]; [| reflexivity].
  cbn [ret src gz trace]. rewrite <- !app_assoc. reflexivity.
Qed.

(** The loop ends, whatever it reads, and all it does to the outside
    is select, write and flush. *)
Lemma pump_runs self (rd : M (dstate zd) bytes) :
  well_behaved_read rd ->
  forall fuel data w,
    (List.length (src w) < fuel)%nat ->
    exists o w' evs,
      pump zd fuel self rd data w = (o, w') /\
      o <> OutOfFuel /\
      trace w' = trace w ++ evs /\
      forallb is_pump_event evs = true.
Proof.
  intros WB. induction fuel as [| fuel IH]; intros data w L; [lia |].
  destruct data as [| b data].
  - exists (Ok tt), w, []. rewrite pump_nil, app_nil_r.
    repeat split; auto. discriminate.
  - rewrite pump_step. destruct (proc self) as [pid |].
    + set (w1 := mkworld (src w) (gz w) _).
      destruct (rd w1) as [o w2] eqn:R.
      destruct (WB _ _ _ R) as (NF & T & Le & Lt). simpl in T, Le, Lt.
      destruct o as [data' | e |]; [| | congruence].
      * destruct data' as [| b' data'].
        -- exists (Ok tt), w2, [EvSelect pid; EvWrite pid (b :: data);
                                EvFlush pid; EvFlushStd].
           rewrite pump_nil. repeat split; auto. discriminate.
        -- specialize (Lt _ _ eq_refl).
           destruct (IH (b' :: data') w2 ltac:(lia))
             as (o & w3 & evs & P & NF' & T' & EV).
           exists o, w3, ([EvSelect pid; EvWrite pid (b :: data);
                           EvFlush pid; EvFlushStd] ++ evs).
           rewrite P. repeat split; auto.
           rewrite T', T, app_assoc. reflexivity.
      * exists (match e with StopIteration => Ok tt | _ => Raise e end),
          w2, [EvSelect pid; EvWrite pid (b :: data); EvFlush pid; EvFlushStd].
        repeat split; auto; destruct e; auto; discriminate.
    + exists (Raise (AttributeError
                       "'NoneType' object has no attribute 'stdin'")),
        w, []. rewrite app_nil_r. repeat split; auto. discriminate.
Qed.

Lemma read_method_spec self (w : world (dstate zd)) :
  exists rd w0,
    read_method zd self w = (Ok rd, w0) /\
    well_behaved_read rd /\ trace w0 = trace w /\ src w0 = src w /\
    (truthy (decompress self) = true ->
     rd = StreamGunZip.decompress zd
            (StreamGunZip.mk StreamGunZip.default_chunk_size)
            (chunk_size self)
     /\ gz w0 = d_new zd) /\
    (truthy (decompress self) = false ->
     rd = stream_read (Some (chunk_size self)) /\ w0 = w).
Proof.
  unfold read_method. destruct (truthy (decompress self)).
  - eexists _, _. split; [reflexivity |].
    split; [apply (decompress_well_behaved zd) |].
    simpl. repeat split; auto; discriminate.
  - eexists _, _. split; [reflexivity |].
    split; [apply (stream_read_well_behaved zd) |].
    repeat split; auto; discriminate.
Qed.

(** [communicate] always ends: the bound on the loop is never met. *)
Lemma communicate_total self w :
  fst (communicate zd child self w) <> OutOfFuel.
Proof.
  unfold communicate. unfold bind at 1.
  destruct (read_method_spec self w) as (rd & w0 & E & WB & _).
  rewrite E. unfold bind at 1.
  destruct (rd w0) as [o w1] eqn:R.
  destruct (WB _ _ _ R) as (NF & _).
  destruct o as [data | e |]; [| simpl; discriminate | congruence].
  destruct data as [| b data].
  - unfold bind, emit, proc_stdin, proc_wait.
    destruct (proc self); simpl; discriminate.
  - unfold bind at 1.
    destruct (pump_runs self rd WB (S (List.length (src w1))) (b :: data) w1
                ltac:(lia)) as (o & w2 & evs & P & NF' & _).
    rewrite P. destruct o as [[] | e |]; [| simpl; discriminate | congruence].
    unfold bind, emit, proc_stdin, proc_wait.
    destruct (proc self); simpl; discriminate.
Qed.

(** When [communicate] lets a [zlib.error] through, all it has done to
    the child is select, write and flush. *)
Lemma communicate_zlib_error self w msg w' :
  communicate zd child self w = (Raise (ZlibError msg), w') ->
  exists evs, trace w' = trace w ++ evs /\ forallb is_pump_event evs = true.
Proof.
  unfold communicate. unfold bind at 1.
  destruct (read_method_spec self w) as (rd & w0 & E & WB & T0 & _).
  rewrite E. unfold bind at 1.
  destruct (rd w0) as [o w1] eqn:R.
  destruct (WB _ _ _ R) as (NF & T1 & _).
  destruct o as [data | e |]; [| | congruence].
  - destruct data as [| b data].
    + unfold bind, emit, proc_stdin, proc_wait.
      destruct (proc self); simpl; discriminate.
    + unfold bind at 1.
      destruct (pump_runs self rd WB (S (List.length (src w1))) (b :: data)
                  w1 ltac:(lia)) as (o & w2 & evs & P & NF' & T2 & EV).
      rewrite P. destruct o as [[] | e |]; [| | congruence].
      * unfold bind, emit, proc_stdin, proc_wait.
        destruct (proc self); simpl; discriminate.
      * intros H. injection H as -> <-. exists evs. split; auto.
        rewrite T2, T1, T0. reflexivity.
  - intros H. injection H as -> <-. exists []. rewrite app_nil_r.
    split; auto. rewrite T1, T0. reflexivity.
Qed.

(** The calls of [decompress] neither read nor write the trace. *)
Lemma decompress_calls_frame g (n : Z) (k : nat) :
  0 <= n ->
  forall z s tr chunks z' s',
    StreamGunZip.decompress_calls zd k g (VInt n) (mkworld z s tr)
    = (Ok chunks, mkworld z' s' tr) ->
    forall tr',
      StreamGunZip.decompress_calls zd k g (VInt n) (mkworld z s tr')
      = (Ok chunks, mkworld z' s' tr').
Proof.
  intros Hn. induction k as [| k IH]; intros z s tr chunks z' s' C tr'.
  - simpl in *. unfold ret in *. injection C as <- <- <-. reflexivity.
  - cbn [StreamGunZip.decompress_calls] in *. unfold bind at 1 in C.
    unfold bind at 1. rewrite decompress_int in * by lia.
    cbn [src gz trace] in *.
    destruct (feed zd s (firstn (Z.to_nat n) z)) as [| [s1 o1]];
      [discriminate |].
    unfold bind, ret in *.
    destruct (StreamGunZip.decompress_calls zd k g (VInt n)
                (mkworld (skipn (Z.to_nat n) z) s1 tr))
      as [[rest | e |] [z2 s2 tr2]] eqn:C1; try discriminate.
    injection C as <- <- <- <-.
    rewrite (IH _ _ _ _ _ _ C1 tr'). reflexivity.
Qed.

(** What the loop writes to the child when it reads through the
    decompressing reader: the chunk in hand and those that follow, up
    to the first empty one. *)
Lemma pump_decompress_spec self g pid (n : Z) (k : nat) :
  1 <= n -> proc self = Some pid ->
  forall fuel z s tr data chunks z' s',
    (List.length z <= k * Z.to_nat n)%nat ->
    (List.length z < fuel)%nat ->
    StreamGunZip.decompress_calls zd k g (VInt n) (mkworld z s tr)
    = (Ok chunks, mkworld z' s' tr) ->
    exists w'' evs,
      pump zd fuel self (StreamGunZip.decompress zd g (VInt n)) data
        (mkworld z s tr) = (Ok tt, w'') /\
      trace w'' = tr ++ evs /\
      forallb is_pump_event evs = true /\
      stdin_of pid evs = List.concat (take_nonempty (data :: chunks)).
Proof.
  intros Hn Hp. induction k as [| k IH];
    intros fuel z s tr data chunks z' s' L Lf C.
  - destruct z; [| simpl in L; lia].
    simpl in C. unfold ret in C. injection C as <- <- <-.
    destruct data as [| b data].
    + rewrite pump_nil. exists (mkworld [] s tr), [].
      rewrite app_nil_r. auto.
    + destruct fuel; [simpl in Lf; lia |].
      rewrite pump_step, Hp, decompress_int by lia.
      cbn [src gz trace]. rewrite firstn_nil. cbn [feed].
      rewrite pump_nil. eexists _, _. split; [reflexivity |].
      cbn [trace]. split; [reflexivity |]. split; [reflexivity |].
      simpl. rewrite Nat.eqb_refl. reflexivity.
  - destruct data as [| b data].
    + rewrite pump_nil. exists (mkworld z s tr), [].
      rewrite app_nil_r. auto.
    + destruct fuel; [lia |].
      rewrite pump_step, Hp, decompress_int by lia.
      cbn [src gz trace].
      cbn [StreamGunZip.decompress_calls] in C. unfold bind at 1 in C.
      rewrite decompress_int in C by lia. cbn [src gz trace] in C.
      destruct (feed zd s (firstn (Z.to_nat n) z)) as [| [s1 o1]] eqn:F;
        [discriminate |].
      unfold bind, ret in C.
      destruct (StreamGunZip.decompress_calls zd k g (VInt n)
                  (mkworld (skipn (Z.to_nat n) z) s1 tr))
        as [[rest | e |] [z2 s2 tr2]] eqn:C1; try discriminate.
      injection C as <- <- <- ->.
      set (tr1 := tr ++ [EvSelect pid; EvWrite pid (b :: data);
                         EvFlush pid; EvFlushStd]).
      pose proof (decompress_calls_frame g n k ltac:(lia) _ _ _ _ _ _ C1 tr1)
        as C2.
      destruct o1 as [| b1 o1].
      * rewrite pump_nil. eexists _, _. split; [reflexivity |].
        cbn [trace]. split; [reflexivity |]. split; [reflexivity |].
        simpl. rewrite Nat.eqb_refl. reflexivity.
      * assert (NZ : z <> []).
        { intros ->. rewrite firstn_nil in F. simpl in F. discriminate. }
        assert (L1 : (List.length (skipn (Z.to_nat n) z)
                      <= k * Z.to_nat n)%nat)
          by (rewrite length_skipn; lia).
        assert (L2 : (List.length (skipn (Z.to_nat n) z) < fuel)%nat).
        { rewrite length_skipn.
          assert (0 < List.length z)%nat
            by (destruct z; [congruence | simpl; lia]).
          lia. }
        destruct (IH fuel _ _ tr1 (b1 :: o1) rest _ _ L1 L2 C2)
          as (w2 & evs & P & T2 & EV & SI).
        exists w2, ([EvSelect pid; EvWrite pid (b :: data);
                     EvFlush pid; EvFlushStd] ++ evs).
        split; [exact P |]. split.
        { rewrite T2. unfold tr1. rewrite app_assoc. reflexivity. }
        split; [exact EV |].
        rewrite stdin_of_app, SI. simpl. rewrite Nat.eqb_refl.
        rewrite app_nil_r. reflexivity.
Qed.

(** The loop when a later read meets malformed bytes: the chunks read
    until then, none of them empty, were written to the child, and the
    error of that read leaves the loop. *)
Lemma pump_decompress_error self g pid (n : Z) (k : nat) :
  0 <= n -> proc self = Some pid ->
  forall fuel z s tr b data chunks z' s' msg,
    (List.length z < fuel)%nat ->
    StreamGunZip.decompress_calls zd k g (VInt n) (mkworld z s tr)
    = (Ok chunks, mkworld z' s' tr) ->
    Forall (fun c => c <> []) chunks ->
    feed zd s' (firstn (Z.to_nat n) z') = inl msg ->
    exists evs,
      pump zd fuel self (StreamGunZip.decompress zd g (VInt n)) (b :: data)
        (mkworld z s tr)
      = (Raise (ZlibError msg),
         mkworld (skipn (Z.to_nat n) z') s' (tr ++ evs)) /\
      forallb is_pump_event evs = true /\
      stdin_of pid evs = (b :: data) ++ List.concat chunks.
Proof.
  intros Hn Hp. induction k as [| k IH];
    intros fuel z s tr b data chunks z' s' msg Lf C NE FE.
  - simpl in C. unfold ret in C. injection C as <- <- <-.
    destruct fuel; [lia |].
    rewrite pump_step, Hp, decompress_int by lia.
    cbn [src gz trace]. rewrite FE.
    eexists. split; [reflexivity |]. split; [reflexivity |].
    simpl. rewrite Nat.eqb_refl. reflexivity.
  - destruct fuel; [lia |].
    rewrite pump_step, Hp, decompress_int by lia.
    cbn [src gz trace].
    cbn [StreamGunZip.decompress_calls] in C. unfold bind at 1 in C.
    rewrite decompress_int in C by lia. cbn [src gz trace] in C.
    destruct (feed zd s (firstn (Z.to_nat n) z)) as [| [s1 o1]] eqn:F;
      [discriminate |].
    unfold bind, ret in C.
    destruct (StreamGunZip.decompress_calls zd k g (VInt n)
                (mkworld (skipn (Z.to_nat n) z) s1 tr))
      as [[rest | e |] [z2 s2 tr2]] eqn:C1; try discriminate.
    injection C as <- <- <- ->.
    set (tr1 := tr ++ [EvSelect pid; EvWrite pid (b :: data);
                       EvFlush pid; EvFlushStd]).
    pose proof (decompress_calls_frame g n k Hn _ _ _ _ _ _ C1 tr1) as C2.
    inversion NE as [| c cs NE1 NE2]; subst c cs.
    destruct o1 as [| b1 o1]; [congruence |].
    assert (NZ : firstn (Z.to_nat n) z <> []).
    { intros E. rewrite E in F. simpl in F. discriminate. }
    assert (L2 : (List.length (skipn (Z.to_nat n) z) < fuel)%nat).
    { rewrite length_skipn.
      destruct (Z.to_nat n); [simpl in NZ; congruence |].
      destruct z; [simpl in NZ; congruence | simpl in *; lia]. }
    destruct (IH fuel _ _ tr1 b1 o1 rest _ _ msg L2 C2 NE2 FE)
      as (evs & P & EV & SI).
    exists ([EvSelect pid; EvWrite pid (b :: data);
             EvFlush pid; EvFlushStd] ++ evs).
    split; [| split; [exact EV |]].
    + rewrite P. unfold tr1. rewrite <- app_assoc. reflexivity.
    + rewrite stdin_of_app, SI. simpl. rewrite Nat.eqb_refl.
      rewrite app_nil_r. reflexivity.
Qed.

(** Closing the pipe and waiting for the child. *)
Lemma close_and_wait self pid (w : world (dstate zd)) :
  proc self = Some pid ->
  (stdin <- proc_stdin zd self ;;
   emit (EvClose stdin) ;;; proc_wait zd child self) w
  = (Ok (child (args_of pid (trace w)) (stdin_of pid (trace w))),
     mkworld (src w) (gz w)
       (trace w ++ [EvClose pid;
                    EvWait pid (child (args_of pid (trace w))
                                      (stdin_of pid (trace w)))])).
Proof.
  intros Hp. unfold bind, proc_stdin, proc_wait, emit. rewrite Hp.
  cbn [ret src gz trace].
  rewrite args_of_app, stdin_of_app by reflexivity.
  simpl. rewrite app_nil_r, <- app_assoc. reflexivity.
Qed.

End PumpFacts.

Section CommunicateFacts.

Variable zd : decompressobj.
Variable child : list pyval -> bytes -> Z.

Import MakeBlastDB.

(** The path taken when the first read gives nothing. *)
Lemma null_input_path self pid (w : world (dstate zd)) :
  proc self = Some pid ->
  (emit (EvStderr ("MakeBlastDB: null input" ++ nl)%string) ;;;
   stdin <- proc_stdin zd self ;;
   emit (EvClose stdin) ;;; proc_wait zd child self) w
  = (Ok (child (args_of pid (trace w)) (stdin_of pid (trace w))),
     mkworld (src w) (gz w)
       (trace w ++ [EvStderr ("MakeBlastDB: null input" ++ nl)%string;
                    EvClose pid;
                    EvWait pid (child (args_of pid (trace w))
                                      (stdin_of pid (trace w)))])).
Proof.
  intros Hp. unfold bind at 1. unfold emit at 1.
  rewrite (close_and_wait zd child self pid _ Hp). cbn [src gz trace].
  rewrite args_of_app, stdin_of_app by reflexivity.
  simpl. rewrite app_nil_r, <- app_assoc. reflexivity.
Qed.

Lemma pump_events_no_popen (evs : list event) :
  forallb is_pump_event evs = true ->
  forallb (fun e => negb (is_popen e)) evs = true.
Proof.
  induction evs as [| e evs IH]; [reflexivity |].
  simpl. intros H. apply andb_prop in H. destruct H as [H1 H2].
  rewrite IH by exact H2. destruct e; try discriminate; reflexivity.
Qed.

(** [communicate] through the decompressing reader: the child is sent
    the chunks up to the first empty one, then the pipe is closed and
    the child waited for. *)
Lemma communicate_decompress self pid (n : Z) (k : nat) :
  1 <= n ->
  truthy (decompress self) = true -> chunk_size self = VInt n ->
  proc self = Some pid ->
  forall z s0 tr chunks z' s' g,
    (List.length z <= k * Z.to_nat n)%nat ->
    StreamGunZip.decompress_calls zd k g (VInt n) (mkworld z (d_new zd) tr)
    = (Ok chunks, mkworld z' s' tr) ->
    exists w',
      communicate zd child self (mkworld z s0 tr)
      = (Ok (child (args_of pid tr)
                   (stdin_of pid tr ++ List.concat (take_nonempty chunks))),
         w') /\
      stdin_of pid (trace w')
      = stdin_of pid tr ++ List.concat (take_nonempty chunks) /\
      exists evs status,
        trace w' = tr ++ evs ++ [EvClose pid; EvWait pid status] /\
        forallb (fun e => is_pump_event e
                          || match e with EvStderr _ => true | _ => false end)
                evs = true.
Proof.
  intros Hn Ht Hc Hp z s0 tr chunks z' s' g L C.
  unfold communicate. unfold bind at 1. unfold read_method.
  rewrite Ht, Hc. unfold bind at 1. cbn [StreamGunZip.init ret src gz trace].
  unfold bind at 1. rewrite decompress_int by lia. cbn [src gz trace].
  destruct k as [| k].
  - destruct z; [| simpl in L; lia].
    simpl in C. unfold ret in C. injection C as <- <- <-.
    rewrite firstn_nil. cbn [feed].
    rewrite (null_input_path self pid _ Hp). cbn [src gz trace].
    eexists. split; [simpl; rewrite app_nil_r; reflexivity |].
    cbn [trace]. split.
    + rewrite stdin_of_app. reflexivity.
    + eexists [_], _. split; reflexivity.
  - cbn [StreamGunZip.decompress_calls] in C. unfold bind at 1 in C.
    rewrite decompress_int in C by lia. cbn [src gz trace] in C.
    destruct (feed zd (d_new zd) (firstn (Z.to_nat n) z))
      as [| [s1 o1]] eqn:F; [discriminate |].
    unfold bind, ret in C.
    destruct (StreamGunZip.decompress_calls zd k g (VInt n)
                (mkworld (skipn (Z.to_nat n) z) s1 tr))
      as [[rest | e |] [z2 s2 tr2]] eqn:C1; try discriminate.
    injection C as <- <- <- ->.
    destruct o1 as [| b1 o1].
    + rewrite (null_input_path self pid _ Hp). cbn [src gz trace].
      eexists. split; [simpl; rewrite app_nil_r; reflexivity |].
      cbn [trace]. split.
      * rewrite stdin_of_app. reflexivity.
      * eexists [_], _. split; reflexivity.
    + assert (L1 : (List.length (skipn (Z.to_nat n) z)
                    <= k * Z.to_nat n)%nat)
        by (rewrite length_skipn; lia).
      assert (H0 : 0 <= n) by lia.
      assert (L2 : (List.length (skipn (Z.to_nat n) z)
                    < S (List.length (skipn (Z.to_nat n) z)))%nat) by lia.
      rewrite (decompress_calls_self zd k g
                 (StreamGunZip.mk StreamGunZip.default_chunk_size)) in C1.
      destruct (pump_decompress_spec zd self _ pid n k Hn Hp _ _ _ tr
                  (b1 :: o1) rest _ _ L1 L2 C1)
        as (w2 & evs & P & T2 & EV & SI).
      unfold bind at 1. cbn beta. cbn [src]. rewrite P.
      rewrite (close_and_wait zd child self pid _ Hp).
      rewrite T2, args_of_app, stdin_of_app, SI
        by (apply (pump_events_no_popen evs EV)).
      eexists. split; [reflexivity |]. cbn [trace].
      split.
      * rewrite !stdin_of_app, SI. simpl. rewrite app_nil_r. reflexivity.
      * exists evs. eexists. split; [rewrite <- app_assoc; reflexivity |].
        clear - EV. induction evs as [| e evs IH]; [reflexivity |].
        simpl in *. apply andb_prop in EV. destruct EV as [E1 E2].
        rewrite E1, IH by exact E2. reflexivity.
Qed.

(** The decompression error of the read after [k] chunks with data
    leaves [communicate] as it is. *)
Lemma communicate_zlib_error_at self pid (n : Z) (k : nat) :
  0 <= n ->
  truthy (decompress self) = true -> chunk_size self = VInt n ->
  proc self = Some pid ->
  forall z s0 tr chunks z' s' g msg,
    StreamGunZip.decompress_calls zd k g (VInt n) (mkworld z (d_new zd) tr)
    = (Ok chunks, mkworld z' s' tr) ->
    Forall (fun c => c <> []) chunks ->
    feed zd s' (firstn (Z.to_nat n) z') = inl msg ->
    exists evs,
      communicate zd child self (mkworld z s0 tr)
      = (Raise (ZlibError msg),
         mkworld (skipn (Z.to_nat n) z') s' (tr ++ evs)) /\
      forallb is_pump_event evs = true /\
      stdin_of pid evs = List.concat chunks.
Proof.
  intros Hn Ht Hc Hp z s0 tr chunks z' s' g msg C NE FE.
  unfold communicate. unfold bind at 1. unfold read_method.
  rewrite Ht, Hc. unfold bind at 1. cbn [StreamGunZip.init ret src gz trace].
  unfold bind at 1. rewrite decompress_int by lia. cbn [src gz trace].
  destruct k as [| k].
  - simpl in C. unfold ret in C. injection C as <- <- <-.
    rewrite FE. exists []. rewrite app_nil_r. auto.
  - cbn [StreamGunZip.decompress_calls] in C. unfold bind at 1 in C.
    rewrite decompress_int in C by lia. cbn [src gz trace] in C.
    destruct (feed zd (d_new zd) (firstn (Z.to_nat n) z))
      as [| [s1 o1]] eqn:F; [discriminate |].
    unfold bind, ret in C.
    destruct (StreamGunZip.decompress_calls zd k g (VInt n)
                (mkworld (skipn (Z.to_nat n) z) s1 tr))
      as [[rest | e |] [z2 s2 tr2]] eqn:C1; try discriminate.
    injection C as <- <- <- ->.
    inversion NE as [| c cs NE1 NE2]; subst c cs.
    destruct o1 as [| b1 o1]; [congruence |].
    rewrite (decompress_calls_self zd k g
               (StreamGunZip.mk StreamGunZip.default_chunk_size)) in C1.
    destruct (pump_decompress_error zd self _ pid n k Hn Hp
                (S (List.length (skipn (Z.to_nat n) z))) _ _ tr b1 o1 rest
                _ _ msg (Nat.lt_succ_diag_r _) C1 NE2 FE)
      as (evs & P & EV & SI).
    unfold bind at 1. cbn beta. cbn [src]. rewrite P.
    exists evs. auto.
Qed.

(** The first read gives nothing: the report, the close and the
    wait. *)
Lemma communicate_null_input self pid (w : world (dstate zd)) rd w0 w1 :
  proc self = Some pid ->
  read_method zd self w = (Ok rd, w0) ->
  rd w0 = (Ok [], w1) ->
  communicate zd child self w
  = (Ok (child (args_of pid (trace w)) (stdin_of pid (trace w))),
     mkworld (src w1) (gz w1)
       (trace w ++ [EvStderr ("MakeBlastDB: null input" ++ nl)%string;
                    EvClose pid;
                    EvWait pid (child (args_of pid (trace w))
                                      (stdin_of pid (trace w)))])).
Proof.
  intros Hp E R.
  destruct (read_method_spec zd self w) as (rd' & w0' & E' & WB & T0 & _).
  rewrite E in E'. injection E' as <- <-.
  destruct (WB _ _ _ R) as (_ & T1 & _).
  unfold communicate. unfold bind at 1. rewrite E. unfold bind at 1.
  rewrite R. rewrite (null_input_path self pid _ Hp).
  rewrite T1, T0. reflexivity.
Qed.

End CommunicateFacts.

(* ================================================================== *)
(** * The claims on the reader and the pump                            *)
(* ================================================================== *)

Section PumpClaims.

Variable zd : decompressobj.
Variable child : list pyval -> bytes -> Z.

Import MakeBlastDB.

Lemma read_nothing cs (n : Z) (w : world (dstate zd)) :
  as_int cs = Some n -> src w = [] \/ n = 0 ->
  stream_read (Some cs) w = (Ok [], w).
Proof.
  intros A H. unfold stream_read. rewrite A. destruct w as [z s tr].
  cbn [src gz trace] in *.
  destruct (n <? 0) eqn:L.
  - destruct H as [-> | ->]; [reflexivity | discriminate].
  - destruct H as [-> | ->]; [| reflexivity].
    now rewrite firstn_nil, skipn_nil.
Qed.

(** C5.  When the first read of the source returns no data,
    [communicate] writes nothing to the child: it reports the null
    input on the error stream, closes the pipe at once, waits for the
    child and returns the status the child exits with.  This holds
    for whichever read [communicate] chose and wherever that read
    left the source: for an empty source or a chunk size of 0, and,
    with decompression on, for first raw bytes that decompress to
    nothing (a chunk that ends within the header of the stream), with
    an integer chunk size or with none. *)
Theorem null_input_closes_and_waits :
  forall self pid (w : world (dstate zd)),
    proc self = Some pid ->
    let status := child (args_of pid (trace w)) (stdin_of pid (trace w)) in
    let report := [EvStderr ("MakeBlastDB: null input" ++ nl)%string;
                   EvClose pid; EvWait pid status] in
    (forall rd w0 w1,
        read_method zd self w = (Ok rd, w0) ->
        rd w0 = (Ok [], w1) ->
        communicate zd child self w
        = (Ok status, mkworld (src w1) (gz w1) (trace w ++ report)))
    /\
    (forall n : Z,
        as_int (chunk_size self) = Some n ->
        src w = [] \/ n = 0 ->
        exists w',
          communicate zd child self w = (Ok status, w') /\
          trace w' = trace w ++ report /\
          stdin_of pid (trace w') = stdin_of pid (trace w) /\
          src w' = src w)
    /\
    (forall (n : Z) s',
        truthy (decompress self) = true ->
        chunk_size self = VInt n -> 0 <= n ->
        feed zd (d_new zd) (firstn (Z.to_nat n) (src w)) = inr (s', []) ->
        communicate zd child self w
        = (Ok status,
           mkworld (skipn (Z.to_nat n) (src w)) s' (trace w ++ report)))
    /\
    (forall s',
        truthy (decompress self) = true ->
        chunk_size self = VNone ->
        feed zd (d_new zd) (src w) = inr (s', []) ->
        communicate zd child self w
        = (Ok status, mkworld [] s' (trace w ++ report))).
Proof.
  intros self pid w Hp status report.
  split; [| split; [| split]].
  - intros rd w0 w1 E R.
    apply (communicate_null_input zd child self pid w rd w0 w1 Hp E R).
  - intros n A H.
    assert (N : is_none (chunk_size self) = false)
      by (destruct (chunk_size self); [discriminate | | |]; reflexivity).
    destruct (read_method_spec zd self w) as (rd & w0 & E & _ & _ & S0 & D1 & D0).
    assert (R : rd w0 = (Ok [], w0)).
    { destruct (truthy (decompress self)).
      - destruct (D1 eq_refl) as [-> G].
        unfold StreamGunZip.decompress. rewrite N. unfold bind at 1.
        rewrite (read_nothing _ n w0 A) by (rewrite S0; exact H).
        unfold StreamGunZip.d. cbn [feed]. destruct w0; reflexivity.
      - destruct (D0 eq_refl) as [-> ->].
        apply (read_nothing _ n); auto. }
    rewrite (communicate_null_input zd child self pid w rd w0 w0 Hp E R).
    eexists. split; [reflexivity |]. cbn [src trace].
    split; [reflexivity |]. split; [| exact S0].
    rewrite stdin_of_app. simpl. apply app_nil_r.
  - intros n s' Ht Hc Hn F.
    destruct (read_method_spec zd self w) as (rd & w0 & E & _ & T0 & S0 & D1 & _).
    destruct (D1 Ht) as [-> G].
    rewrite (communicate_null_input zd child self pid w _ w0
               (mkworld (skipn (Z.to_nat n) (src w)) s' (trace w0)) Hp E).
    + reflexivity.
    + rewrite Hc, decompress_int by exact Hn. rewrite G, S0, F. reflexivity.
  - intros s' Ht Hc F.
    destruct (read_method_spec zd self w) as (rd & w0 & E & _ & T0 & S0 & D1 & _).
    destruct (D1 Ht) as [-> G].
    rewrite (communicate_null_input zd child self pid w _ w0
               (mkworld [] s' (trace w0)) Hp E).
    + reflexivity.
    + rewrite Hc. unfold StreamGunZip.decompress. cbn [is_none].
      unfold bind, stream_read, StreamGunZip.d. cbn [src gz trace].
      rewrite G, S0, F. reflexivity.
Qed.

(** C4, as the code has it.  Malformed compressed data make
    [communicate] raise the decompression error of the read that
    meets them: at once when the first chunk read is malformed
    (whatever the chunk size), nothing having been done to the child;
    and, when the reads before it each gave a chunk with data, after
    exactly these chunks were written to the child, in the world that
    read left.  In neither
    case, and whenever [communicate] raises that error, has the pipe
    been closed or the child been waited for: up to then the child
    was only selected on, written to and flushed. *)
Theorem zlib_error_skips_close_and_wait :
  forall self (w : world (dstate zd)),
    (forall (n : Z) msg,
        truthy (decompress self) = true ->
        chunk_size self = VInt n -> 0 <= n ->
        feed zd (d_new zd) (firstn (Z.to_nat n) (src w)) = inl msg ->
        communicate zd child self w
        = (Raise (ZlibError msg),
           mkworld (skipn (Z.to_nat n) (src w)) (d_new zd) (trace w)))
    /\
    (forall msg w',
        communicate zd child self w = (Raise (ZlibError msg), w') ->
        exists evs,
          trace w' = trace w ++ evs /\
          (forall pid, ~ In (EvClose pid) evs) /\
          (forall pid status, ~ In (EvWait pid status) evs))
    /\
    (forall pid (n : Z) (k : nat) g chunks z' s' msg,
        truthy (decompress self) = true ->
        chunk_size self = VInt n -> 0 <= n ->
        proc self = Some pid ->
        StreamGunZip.decompress_calls zd k g (VInt n)
          (mkworld (src w) (d_new zd) (trace w))
        = (Ok chunks, mkworld z' s' (trace w)) ->
        Forall (fun c => c <> []) chunks ->
        feed zd s' (firstn (Z.to_nat n) z') = inl msg ->
        exists evs,
          communicate zd child self w
          = (Raise (ZlibError msg),
             mkworld (skipn (Z.to_nat n) z') s' (trace w ++ evs)) /\
          forallb is_pump_event evs = true /\
          stdin_of pid evs = List.concat chunks /\
          (forall pid', ~ In (EvClose pid') evs) /\
          (forall pid' status, ~ In (EvWait pid' status) evs))
    /\
    (forall rd w0 w1 msg,
        read_method zd self w = (Ok rd, w0) ->
        rd w0 = (Raise (ZlibError msg), w1) ->
        communicate zd child self w = (Raise (ZlibError msg), w1)).
Proof.
  intros self w. split; [| split; [| split]].
  - intros n msg Ht Hc Hn F.
    unfold communicate. unfold bind at 1. unfold read_method.
    rewrite Ht, Hc. unfold bind at 1. cbn [StreamGunZip.init ret].
    unfold bind at 1. rewrite decompress_int by lia. cbn [src gz trace].
    rewrite F. reflexivity.
  - intros msg w' H.
    destruct (communicate_zlib_error zd child _ _ _ _ H) as (evs & T & EV).
    exists evs. split; [exact T |].
    rewrite forallb_forall in EV.
    split; intros; intro I; apply EV in I; discriminate.
  - intros pid n k g chunks z' s' msg Ht Hc Hn Hp C NE FE.
    destruct w as [z s0 tr]. cbn [src gz trace] in *.
    destruct (communicate_zlib_error_at zd child self pid n k Hn Ht Hc Hp
                z s0 tr chunks z' s' g msg C NE FE) as (evs & E & EV & SI).
    exists evs. split; [exact E |]. split; [exact EV |].
    split; [exact SI |].
    rewrite forallb_forall in EV.
    split; intros; intro I; apply EV in I; discriminate.
  - intros rd w0 w1 msg E R.
    unfold communicate. unfold bind at 1. rewrite E. unfold bind at 1.
    rewrite R. reflexivity.
Qed.

End PumpClaims.

Lemma null_input_closes_and_waits_witness :
  exists s',
    MakeBlastDB.communicate Inflate.decompressobj byte_count
      (compiler0 1) (world1 gz_a [popen0])
    = (Ok 0,
       @mkworld Inflate.state (skipn 1 gz_a) s'
         [popen0;
          EvStderr ("MakeBlastDB: null input" ++ MakeBlastDB.nl)%string;
          EvClose 0; EvWait 0 0]).
Proof.
  assert (F : exists s',
             feed Inflate.decompressobj (d_new Inflate.decompressobj)
               (firstn (Z.to_nat 1) (src (world1 gz_a [popen0])))
             = inr (s', [])) by (vm_compute; eexists; reflexivity).
  destruct F as [s' F]. exists s'.
  assert (Hn : 0 <= 1) by lia.
  rewrite (proj1 (proj2 (proj2
             (null_input_closes_and_waits Inflate.decompressobj byte_count
                (compiler0 1) 0%nat (world1 gz_a [popen0]) eq_refl)))
             1 s' eq_refl eq_refl Hn F).
  reflexivity.
Defined.

(** C4 as stated fails: with decompression on and a stream that is no
    compressed data, [make] opens the child, raises the decompression
    error at the first read and leaves: the trace holds the opening of
    the process and nothing else, neither a close nor a wait. *)
Lemma malformed_input_leaks_child :
  exists self,
    MakeBlastDB.init "Linux" [] = (self, None) /\
    MakeBlastDB.make Inflate.decompressobj byte_count self
      [("decompress", VBool true)] (world0 not_gzip)
    = (Raise (ZlibError
                "Error -3 while decompressing data: incorrect header check"),
       world1 [] [popen0])
    /\ ~ In (EvClose 0) [popen0]
    /\ (forall status, ~ In (EvWait 0 status) [popen0]).
Proof.
  eexists. split; [reflexivity |]. split; [reflexivity |].
  split; [| intros status]; intros [I | []]; discriminate I.
Qed.

Lemma zlib_error_skips_close_and_wait_witness :
  exists w' evs,
    MakeBlastDB.communicate Inflate.decompressobj byte_count
      (compiler0 16) (world1 gz_bad_check [popen0])
    = (Raise (ZlibError
                "Error -3 while decompressing data: incorrect data check"),
       w')
    /\ trace w' = [popen0] ++ evs
    /\ MakeBlastDB.stdin_of 0 evs = payload_a
    /\ ~ In (EvClose 0) evs.
Proof.
  destruct (proj1 (proj2 (proj2
              (zlib_error_skips_close_and_wait Inflate.decompressobj
                 byte_count (compiler0 16) (world1 gz_bad_check [popen0]))))
              0%nat 16 1%nat
              (StreamGunZip.mk StreamGunZip.default_chunk_size)
              [payload_a] (skipn 16 gz_bad_check)
              (match feed Inflate.decompressobj Inflate.new
                       (firstn 16 gz_bad_check) with
               | inr (s, _) => s
               | inl _ => Inflate.new
               end)
              "Error -3 while decompressing data: incorrect data check")
    as (evs & E & _ & S & NC & _).
  - reflexivity.
  - reflexivity.
  - lia.
  - reflexivity.
  - vm_compute. reflexivity.
  - repeat constructor. discriminate.
  - vm_compute. reflexivity.
  - eexists _, evs. split; [exact E |]. split; [reflexivity |].
    split; [exact S | apply NC].
Defined.

Section ReaderClaims.

Variable zd : decompressobj.
Variable child : list pyval -> bytes -> Z.

(** C2, as the code has it.  The chunk [decompress] returns is what
    the raw bytes it read decompress to, so it is empty exactly when
    those bytes yield no output: always once the source is exhausted,
    but also for raw bytes that yield nothing while more remain.
    [next] raises StopIteration exactly when that chunk is empty,
    wherever the source stands, and otherwise returns the chunk; it
    never returns an empty chunk. *)
Theorem next_stops_at_empty_chunk :
  forall self (w : world (dstate zd)),
    (forall cs o w',
        StreamGunZip.decompress zd self cs w = (o, w') ->
        exists raw,
          src w = raw ++ src w' /\
          match o with
          | Ok data => feed zd (gz w) raw = inr (gz w', data)
          | Raise (ZlibError msg) => feed zd (gz w) raw = inl msg
          | Raise (TypeError _) => w' = w /\ raw = []
          | _ => False
          end)
    /\
    (forall cs,
        src w = [] ->
        is_none cs = true \/ (exists n, as_int cs = Some n) ->
        StreamGunZip.decompress zd self cs w = (Ok [], w))
    /\
    (forall o w',
        StreamGunZip.decompress zd self (StreamGunZip.chunk_size self) w
        = (o, w') ->
        StreamGunZip.next zd self w
        = (match o with
           | Ok [] => Raise StopIteration
           | _ => o
           end, w')).
Proof.
  intros self w. split; [| split].
  - intros cs o w' H.
    destruct (decompress_spec zd _ _ _ _ _ H) as (_ & raw & S & F).
    exists raw. auto.
  - intros cs E H. destruct w as [z s tr]. cbn [src] in E. subst z.
    unfold StreamGunZip.decompress, bind, StreamGunZip.d.
    destruct (is_none cs) eqn:N; [reflexivity |].
    destruct H as [H | [n A]]; [discriminate |].
    unfold stream_read. rewrite A. destruct (n <? 0); [reflexivity |].
    cbn [src gz trace]. rewrite firstn_nil, skipn_nil. reflexivity.
  - intros o w' H. unfold StreamGunZip.next, bind. rewrite H.
    destruct o as [[| b data] | e |]; reflexivity.
Qed.

(** C1, as the code has it.  For every payload, every compressed form
    of it and every chunk size n >= 1: the chunks that successive
    calls of [decompress(n)] return, taken until the source is read
    through, concatenate to exactly the payload.  The two consumers of
    the program stop at the first empty chunk instead: iterating the
    reader yields the chunks before the first empty one, and
    [communicate] writes those to the child, closes the pipe and
    returns the child's status; what they deliver is a prefix of the
    payload. *)
Theorem chunks_concatenate_to_payload :
  forall z p (n : Z) (k : nat) tr,
    compressed_form zd z p ->
    1 <= n ->
    (List.length z <= k * Z.to_nat n)%nat ->
    exists chunks s',
      (forall g,
          StreamGunZip.decompress_calls zd k g (VInt n)
            (mkworld z (d_new zd) tr)
          = (Ok chunks, mkworld [] s' tr)) /\
      List.concat chunks = p /\
      (exists w',
          StreamGunZip.chunks zd (StreamGunZip.mk (VInt n))
            (mkworld z (d_new zd) tr)
          = (Ok (take_nonempty chunks), w')) /\
      (forall self pid s0,
          truthy (MakeBlastDB.decompress self) = true ->
          MakeBlastDB.chunk_size self = VInt n ->
          MakeBlastDB.proc self = Some pid ->
          exists w',
            MakeBlastDB.communicate zd child self (mkworld z s0 tr)
            = (Ok (child (MakeBlastDB.args_of pid tr)
                         (MakeBlastDB.stdin_of pid tr
                          ++ List.concat (take_nonempty chunks))), w') /\
            MakeBlastDB.stdin_of pid (trace w')
            = MakeBlastDB.stdin_of pid tr
              ++ List.concat (take_nonempty chunks)) /\
      (exists rest, p = List.concat (take_nonempty chunks) ++ rest).
Proof.
  intros z p n k tr (s' & F & _) Hn L.
  destruct (decompress_calls_spec zd (StreamGunZip.mk (VInt n)) n k Hn
              z (d_new zd) s' p tr L F) as (chunks & C & E).
  exists chunks, s'. split; [| split; [exact E | split; [| split]]].
  - intros g. rewrite (decompress_calls_self zd k g (StreamGunZip.mk (VInt n))).
    exact C.
  - unfold StreamGunZip.chunks. cbn [src].
    apply (iterate_spec zd n k Hn _ _ _ _ _ _ _ L (Nat.lt_succ_diag_r _) C).
  - intros self pid s0 Ht Hc Hp.
    destruct (communicate_decompress zd child self pid n k Hn Ht Hc Hp
                z s0 tr chunks _ _ _ L C) as (w' & R & S & _).
    exists w'. auto.
  - rewrite <- E. apply take_nonempty_prefix.
Qed.

(** C3, as the code has it.  When the stream is a complete gzip member
    followed by anything (a second member, say), the reader returns,
    over all its calls until the source is read through, the payload
    of the first member and nothing more: what follows the first
    member is read and yields no output. *)
Theorem only_first_member_is_decompressed :
  forall z1 p1 z2 (n : Z) (k : nat) tr,
    compressed_form zd z1 p1 ->
    1 <= n ->
    (List.length (z1 ++ z2) <= k * Z.to_nat n)%nat ->
    exists chunks s',
      (forall g,
          StreamGunZip.decompress_calls zd k g (VInt n)
            (mkworld (z1 ++ z2) (d_new zd) tr)
          = (Ok chunks, mkworld [] s' tr)) /\
      List.concat chunks = p1 /\
      (exists w',
          StreamGunZip.chunks zd (StreamGunZip.mk (VInt n))
            (mkworld (z1 ++ z2) (d_new zd) tr)
          = (Ok (take_nonempty chunks), w')).
Proof.
  intros z1 p1 z2 n k tr (s1 & F & EOF) Hn L.
  destruct (feed_eof zd z2 s1 EOF) as (s2 & F2 & _).
  assert (F12 : feed zd (d_new zd) (z1 ++ z2) = inr (s2, p1)).
  { rewrite feed_app, F, F2, app_nil_r. reflexivity. }
  destruct (decompress_calls_spec zd (StreamGunZip.mk (VInt n)) n k Hn
              (z1 ++ z2) (d_new zd) s2 p1 tr L F12) as (chunks & C & E).
  exists chunks, s2. split; [| split; [exact E |]].
  - intros g. rewrite (decompress_calls_self zd k g (StreamGunZip.mk (VInt n))).
    exact C.
  - unfold StreamGunZip.chunks. cbn [src].
    apply (iterate_spec zd n k Hn _ _ _ _ _ _ _ L (Nat.lt_succ_diag_r _) C).
Qed.

End ReaderClaims.

(** The fixtures are compressed forms of their payloads. *)
Lemma gz_a_compressed_form :
  compressed_form Inflate.decompressobj gz_a payload_a.
Proof.
  eexists. split; vm_compute; reflexivity.
Qed.

Lemma gz_b_compressed_form :
  compressed_form Inflate.decompressobj gz_b payload_b.
Proof.
  eexists. split; vm_compute; reflexivity.
Qed.

(** C1 as stated fails at chunk size 1: the first raw byte of a gzip
    stream is a header byte and decompresses to nothing, so the
    iteration stops before any chunk and the pump sends the child no
    byte at all, while the payload is one byte long. *)
Lemma round_trip_fails_at_chunk_size_1 :
  compressed_form Inflate.decompressobj gz_a payload_a /\
  ~ (exists chunks w',
        StreamGunZip.chunks Inflate.decompressobj (StreamGunZip.mk (VInt 1))
          (world0 gz_a) = (Ok chunks, w')
        /\ List.concat chunks = payload_a) /\
  (exists w',
      StreamGunZip.chunks Inflate.decompressobj (StreamGunZip.mk (VInt 1))
        (world0 gz_a) = (Ok [], w')) /\
  (exists w',
      MakeBlastDB.communicate Inflate.decompressobj byte_count (compiler0 1)
        (world1 gz_a [popen0]) = (Ok 0, w')
      /\ MakeBlastDB.stdin_of 0 (trace w') = []).
Proof.
  split; [exact gz_a_compressed_form |]. split; [| split].
  - intros (chunks & w' & H & C). vm_compute in H.
    injection H as <- _. discriminate C.
  - eexists. vm_compute. reflexivity.
  - eexists. split; vm_compute; reflexivity.
Qed.

Lemma chunks_concatenate_to_payload_witness :
  exists chunks,
    List.concat chunks = payload_a /\
    (exists w',
        StreamGunZip.chunks Inflate.decompressobj
          (StreamGunZip.mk (VInt 16384)) (world0 gz_a)
        = (Ok (take_nonempty chunks), w')) /\
    (exists w',
        MakeBlastDB.communicate Inflate.decompressobj byte_count
          (compiler0 16384) (world1 gz_a [])
        = (Ok (Z.of_nat (List.length (List.concat (take_nonempty chunks)))),
           w')).
Proof.
  assert (L : (List.length gz_a <= 1 * Z.to_nat 16384)%nat)
    by (vm_compute; lia).
  destruct (chunks_concatenate_to_payload Inflate.decompressobj byte_count
              gz_a payload_a 16384 1 [] gz_a_compressed_form
              ltac:(lia) L)
    as (chunks & s' & _ & E & I & P & _).
  exists chunks. split; [exact E |]. split; [exact I |].
  destruct (P (compiler0 16384) 0%nat Inflate.new eq_refl eq_refl eq_refl)
    as (w' & R & _).
  exists w'. exact R.
Defined.

(** C2 as stated fails: with chunk size 1 the first call of [next] on
    a gzip stream reads one header byte, which decompresses to
    nothing, and raises StopIteration although the source is not
    exhausted: the bytes left still decompress to the whole payload. *)
Lemma empty_chunk_midstream_ends_iteration :
  exists w',
    StreamGunZip.next Inflate.decompressobj (StreamGunZip.mk (VInt 1))
      (world0 gz_a) = (Raise StopIteration, w') /\
    src w' <> [] /\
    exists chunks w'',
      StreamGunZip.decompress_calls Inflate.decompressobj 23
        (StreamGunZip.mk (VInt 1)) (VInt 1) w' = (Ok chunks, w'') /\
      List.concat chunks = payload_a.
Proof.
  eexists. split; [vm_compute; reflexivity |].
  split; [discriminate |].
  eexists _, _. split; vm_compute; reflexivity.
Qed.

Lemma next_stops_at_empty_chunk_witness :
  StreamGunZip.next Inflate.decompressobj (StreamGunZip.mk (VInt 1))
    (world0 gz_a)
  = (Raise StopIteration,
     @mkworld Inflate.state (tl gz_a)
       (Inflate.with_mode (Inflate.HEAD [31%N]) Inflate.new) []).
Proof.
  apply (proj2 (proj2 (next_stops_at_empty_chunk Inflate.decompressobj
                         (StreamGunZip.mk (VInt 1)) (world0 gz_a)))
           (Ok [])).
  vm_compute. reflexivity.
Defined.

(** C3 as stated fails: on two gzip members in a row the reader
    returns the payload of the first and, from the bytes of the
    second, nothing, however many more calls are made. *)
Lemma second_member_is_dropped :
  compressed_form Inflate.decompressobj gz_a payload_a /\
  compressed_form Inflate.decompressobj gz_b payload_b /\
  (exists w',
      StreamGunZip.decompress_calls Inflate.decompressobj 3
        (StreamGunZip.mk (VInt 1024)) (VInt 1024) (world0 (gz_a ++ gz_b))
      = (Ok [payload_a; []; []], w')
      /\ src w' = []) /\
  (exists w',
      StreamGunZip.chunks Inflate.decompressobj (StreamGunZip.mk (VInt 1024))
        (world0 (gz_a ++ gz_b)) = (Ok [payload_a], w')) /\
  List.concat [payload_a; []; []] <> payload_a ++ payload_b.
Proof.
  split; [exact gz_a_compressed_form |].
  split; [exact gz_b_compressed_form |].
  split; [eexists; split; vm_compute; reflexivity |].
  split; [eexists; vm_compute; reflexivity |].
  discriminate.
Qed.

Lemma only_first_member_is_decompressed_witness :
  exists chunks,
    List.concat chunks = payload_a /\
    exists w',
      StreamGunZip.chunks Inflate.decompressobj
        (StreamGunZip.mk (VInt 1024)) (world0 (gz_a ++ gz_b))
      = (Ok (take_nonempty chunks), w').
Proof.
  assert (L : (List.length (gz_a ++ gz_b) <= 1 * Z.to_nat 1024)%nat)
    by (vm_compute; lia).
  destruct (only_first_member_is_decompressed Inflate.decompressobj
              gz_a payload_a gz_b 1024 1 [] gz_a_compressed_form
              ltac:(lia) L)
    as (chunks & s' & _ & E & I).
  exists chunks. split; [exact E | exact I].
Defined.

(* ================================================================== *)
(** * The automaton of [Inflate] against zlib                          *)
(* ================================================================== *)

(** What zlib itself returns on these inputs, byte for byte: streams
    written by zlib at level 0 with the zlib and the gzip wrapper, a
    gzip header with all its optional fields, and damaged streams with
    the error zlib reports for each. *)
Module InflateExamples.

Example zlib_wrapper :
  inflate_hex "7801010500faff68656c6c6f062c0215"
  = inr (Inflate.unhex "68656c6c6f").
Proof. vm_compute. reflexivity. Qed.

Example gzip_wrapper :
  inflate_hex "1f8b0800000000000403010500faff414347540a3c9bc76105000000"
  = inr (Inflate.unhex "414347540a").
Proof. vm_compute. reflexivity. Qed.

Example gzip_empty_payload :
  inflate_hex "1f8b0800000000000403010000ffff0000000000000000" = inr [].
Proof. vm_compute. reflexivity. Qed.

Example gzip_all_header_fields :
  inflate_hex
    "1f8b081e010203040003030078797a6e616d6500636d7400d53d010200fdff6869ac2a93d802000000"
  = inr (Inflate.unhex "6869").
Proof. vm_compute. reflexivity. Qed.

Example gzip_empty_block_first :
  inflate_hex "1f8b0800000000000403000000ffff010100feff6143beb7e801000000"
  = inr payload_a.
Proof. vm_compute. reflexivity. Qed.

Example bad_header_crc :
  inflate_hex
    "1f8b081e010203040003030078797a6e616d6500636d74000000010200fdff6869ac2a93d802000000"
  = inl "Error -3 while decompressing data: header crc mismatch".
Proof. vm_compute. reflexivity. Qed.

Example bad_magic :
  inflate_hex "6e6f7420677a6970"
  = inl "Error -3 while decompressing data: incorrect header check".
Proof. vm_compute. reflexivity. Qed.

Example bad_method_zlib :
  inflate_hex "00000000"
  = inl "Error -3 while decompressing data: unknown compression method".
Proof. vm_compute. reflexivity. Qed.

Example bad_method_gzip :
  inflate_hex "1f8b0700"
  = inl "Error -3 while decompressing data: unknown compression method".
Proof. vm_compute. reflexivity. Qed.

Example bad_flags :
  inflate_hex "1f8b08200000"
  = inl "Error -3 while decompressing data: unknown header flags set".
Proof. vm_compute. reflexivity. Qed.

Example bad_window :
  inflate_hex "881c00000000000000"
  = inl "Error -3 while decompressing data: invalid window size".
Proof. vm_compute. reflexivity. Qed.

Example needs_dictionary :
  inflate_hex "78bb00000000000000"
  = inl "Error 2 while decompressing data".
Proof. vm_compute. reflexivity. Qed.

Example bad_block_type :
  inflate_hex "1f8b0800000000000403070100feff6143beb7e801000000"
  = inl "Error -3 while decompressing data: invalid block type".
Proof. vm_compute. reflexivity. Qed.

Example bad_stored_lengths :
  inflate_hex "1f8b0800000000000403010200feff6143beb7e801000000"
  = inl "Error -3 while decompressing data: invalid stored block lengths".
Proof. vm_compute. reflexivity. Qed.

Example bad_crc :
  inflate_hex "1f8b0800000000000403010100feff6100beb7e801000000"
  = inl "Error -3 while decompressing data: incorrect data check".
Proof. vm_compute. reflexivity. Qed.

Example bad_length :
  inflate_hex "1f8b0800000000000403010100feff6143beb7e802000000"
  = inl "Error -3 while decompressing data: incorrect length check".
Proof. vm_compute. reflexivity. Qed.

(** A truncated stream is no error to [decompress]: it returns what it
    has. *)
Example truncated :
  inflate_hex "1f8b0800000000000403010500faff4143" = inr (Inflate.unhex "4143").
Proof. vm_compute. reflexivity. Qed.

End InflateExamples.

(* ================================================================== *)
(** * Termination: the loop bounds are never met                       *)
(* ================================================================== *)

Section Termination.

Variable zd : decompressobj.
Variable child : list pyval -> bytes -> Z.
Variable platform : string.
Variable urlopen : nat -> string -> string + bytes.

Lemma iterate_total self : forall fuel (w : world (dstate zd)),
  (List.length (src w) < fuel)%nat ->
  fst (StreamGunZip.iterate zd fuel self w) <> OutOfFuel.
Proof.
  induction fuel as [| fuel IH]; intros w L; [lia |].
  cbn [StreamGunZip.iterate]. unfold StreamGunZip.next, bind at 1.
  destruct (StreamGunZip.decompress zd self (StreamGunZip.chunk_size self) w)
    as [o w1] eqn:D.
  destruct (decompress_well_behaved zd _ _ _ _ _ D) as (NF & _ & _ & Lt).
  destruct o as [[| b data] | e |]; [| | | congruence].
  - simpl. discriminate.
  - specialize (Lt _ _ eq_refl). unfold ret, bind.
    specialize (IH w1 ltac:(lia)).
    destruct (StreamGunZip.iterate zd fuel self w1) as [[rest | e |] w2];
      simpl in *; congruence.
  - unfold raise. destruct e; simpl; discriminate.
Qed.

(** [list(reader)] always ends. *)
Lemma chunks_total self (w : world (dstate zd)) :
  fst (StreamGunZip.chunks zd self w) <> OutOfFuel.
Proof.
  unfold StreamGunZip.chunks. apply iterate_total. lia.
Qed.

Lemma make_total self kw (w : world (dstate zd)) :
  fst (MakeBlastDB.make zd child self kw w) <> OutOfFuel.
Proof.
  unfold MakeBlastDB.make.
  destruct (MakeBlastDB.set_options kw self) as [self1 [e |]];
    [simpl; discriminate |].
  unfold bind, MakeBlastDB.open_process. apply communicate_total.
Qed.

Lemma function_make_total kw (w : world (dstate zd)) :
  fst (Blastdb.make zd child platform kw w) <> OutOfFuel.
Proof.
  unfold Blastdb.make.
  destruct (keyword_clash _ _ kw); [simpl; discriminate |].
  destruct (MakeBlastDB.init platform kw) as [self [e |]];
    [simpl; discriminate |].
  apply make_total.
Qed.

Lemma download_and_make_total url kw (w : world (dstate zd)) :
  fst (Blastdb.download_and_make zd child platform urlopen url kw w)
  <> OutOfFuel.
Proof.
  unfold Blastdb.download_and_make. unfold bind at 1.
  destruct (urlopen _ url); [simpl; discriminate |].
  unfold bind at 1, emit at 1. unfold bind at 1.
  destruct (keyword_clash "make" ["input"] kw); [simpl; discriminate |].
  match goal with |- context [Blastdb.make zd child platform kw ?w0] =>
    pose proof (function_make_total kw w0) as T;
    destruct (Blastdb.make zd child platform kw w0) as [[r | e |] w1]
  end; [| simpl; discriminate | simpl in T; congruence].
  unfold bind, emit, ret. destruct (r >? 0); simpl; discriminate.
Qed.

(** The retry loop always ends within its three turns. *)
Lemma retry_total assembly r (w : world (dstate zd)) :
  fst (GetGenomes.retry zd child platform urlopen 3 0 assembly r w)
  <> OutOfFuel.
Proof.
  assert (G : forall fuel counter r0 (w0 : world (dstate zd)),
    3 - counter <= Z.of_nat fuel ->
    fst (GetGenomes.retry zd child platform urlopen fuel counter assembly
           r0 w0) <> OutOfFuel).
  { induction fuel as [| fuel IH]; intros counter r0 w0 L.
    - simpl. destruct (counter <? 3) eqn:C; [apply Z.ltb_lt in C; lia |].
      simpl. discriminate.
    - cbn [GetGenomes.retry].
      destruct (counter <? 3) eqn:C; [| simpl; discriminate].
      match goal with |- context [Blastdb.download_and_make ?a ?b ?c ?d ?u ?k ?x] =>
        pose proof (download_and_make_total u k x) as T;
        destruct (Blastdb.download_and_make a b c d u k x) as [[v | e |] w1]
      end; [simpl; discriminate | | simpl in T; congruence].
      destruct e; try (simpl; discriminate).
      destruct (contains _ _); [| simpl; discriminate].
      apply IH. lia. }
  apply G. simpl. lia.
Qed.

End Termination.

(* ================================================================== *)
(** * Further properties: the pump without decompression              *)
(* ================================================================== *)

Section RawPump.

Variable zd : decompressobj.
Variable child : list pyval -> bytes -> Z.

Import MakeBlastDB.

(** [read(n)] for a size that is not 0: nothing is returned only when
    nothing is left. *)
Lemma stream_read_nonzero cs (n : Z) (z : bytes) (s : dstate zd) tr :
  as_int cs = Some n -> n <> 0 ->
  exists data rest,
    stream_read (Some cs) (mkworld z s tr) = (Ok data, mkworld rest s tr) /\
    z = data ++ rest /\
    (data = [] -> z = []).
Proof.
  intros A N. unfold stream_read. rewrite A. cbn [src gz trace].
  destruct (n <? 0) eqn:L.
  - exists z, []. rewrite app_nil_r. auto.
  - apply Z.ltb_ge in L.
    exists (firstn (Z.to_nat n) z), (skipn (Z.to_nat n) z).
    split; [reflexivity |]. split; [symmetry; apply firstn_skipn |].
    intros E. destruct z as [| b z]; [reflexivity |].
    destruct (Z.to_nat n) eqn:T; [lia | discriminate].
Qed.

(** Reading the source itself, the loop sends the child the chunk in
    hand and all that the source still holds. *)
Lemma pump_raw_spec self pid cs (n : Z) (s : dstate zd) :
  proc self = Some pid -> as_int cs = Some n -> n <> 0 ->
  forall fuel z data tr,
    (List.length z < fuel)%nat ->
    (data = [] -> z = []) ->
    exists evs,
      pump zd fuel self (stream_read (Some cs)) data (mkworld z s tr)
      = (Ok tt, mkworld [] s (tr ++ evs)) /\
      forallb is_pump_event evs = true /\
      stdin_of pid evs = data ++ z.
Proof.
  intros Hp A N. induction fuel as [| fuel IH]; intros z data tr L E; [lia |].
  destruct data as [| b data].
  - rewrite (E eq_refl), pump_nil. exists []. rewrite app_nil_r. auto.
  - rewrite pump_step, Hp. cbn [src gz trace].
    destruct (stream_read_nonzero cs n z s
                (tr ++ [EvSelect pid; EvWrite pid (b :: data);
                        EvFlush pid; EvFlushStd]) A N)
      as (data' & rest & R & Z & E').
    rewrite R.
    destruct z as [| b0 z0].
    + destruct data'; [| discriminate]. destruct rest; [| discriminate].
      rewrite pump_nil. eexists. split; [reflexivity |].
      split; [reflexivity |]. simpl. rewrite Nat.eqb_refl. reflexivity.
    + assert (L' : (List.length rest < fuel)%nat).
      { assert (List.length (b0 :: z0)
                = (List.length data' + List.length rest)%nat)
          by (rewrite Z; apply length_app).
        destruct data' as [| b1 d1]; [specialize (E' eq_refl); discriminate |].
        simpl in *. lia. }
      assert (E2 : data' = [] -> rest = []).
      { intros ->. specialize (E' eq_refl). discriminate. }
      destruct (IH rest data'
                  (tr ++ [EvSelect pid; EvWrite pid (b :: data);
                          EvFlush pid; EvFlushStd]) L' E2)
        as (evs & P & EV & SI).
      rewrite P. eexists. split.
      * rewrite <- app_assoc. reflexivity.
      * split; [exact EV |].
        rewrite stdin_of_app, SI. simpl. rewrite Nat.eqb_refl, app_nil_r.
        rewrite Z. reflexivity.
Qed.

Lemma communicate_raw :
  forall self pid (n : Z) (w : world (dstate zd)),
    truthy (decompress self) = false ->
    as_int (chunk_size self) = Some n -> n <> 0 ->
    proc self = Some pid ->
    let sent := stdin_of pid (trace w) ++ src w in
    let status := child (args_of pid (trace w)) sent in
    exists evs,
      communicate zd child self w
      = (Ok status,
         mkworld [] (gz w) (trace w ++ evs ++ [EvClose pid; EvWait pid status]))
      /\ stdin_of pid (trace w ++ evs) = sent
      /\ forallb (fun e => negb (is_popen e)) evs = true.
Proof.
  intros self pid n [z s tr] Ht A N Hp. cbn [src gz trace].
  unfold communicate. unfold bind at 1. unfold read_method. rewrite Ht.
  cbn [ret]. unfold bind at 1.
  destruct (stream_read_nonzero (chunk_size self) n z s tr A N)
    as (data & rest & R & Z & E).
  rewrite R. destruct data as [| b data].
  - rewrite (E eq_refl) in *. destruct rest; [| discriminate].
    rewrite (null_input_path zd child self pid _ Hp). cbn [src gz trace].
    rewrite app_nil_r.
    exists [EvStderr ("MakeBlastDB: null input" ++ nl)%string].
    split; [reflexivity |]. split; [| reflexivity].
    rewrite stdin_of_app. simpl. apply app_nil_r.
  - unfold bind at 1. cbn beta. cbn [src].
    assert (E2 : b :: data = [] -> rest = []) by discriminate.
    destruct (pump_raw_spec self pid (chunk_size self) n s Hp A N
                (S (List.length rest)) rest (b :: data) tr
                (Nat.lt_succ_diag_r _) E2) as (evs & P & EV & SI).
    rewrite P, (close_and_wait zd child self pid _ Hp). cbn [src gz trace].
    rewrite args_of_app by (apply pump_events_no_popen; exact EV).
    rewrite stdin_of_app, SI, <- Z.
    exists evs. split; [rewrite <- app_assoc; reflexivity |].
    split; [rewrite stdin_of_app, SI, <- Z; reflexivity |].
    apply pump_events_no_popen. exact EV.
Qed.

(** With decompression off and a chunk size that is not 0 (a negative
    one reads all at once), [communicate] sends the child the whole of
    the source, byte for byte, reads the source through, closes the
    pipe, waits, and returns the status of the child. *)
Theorem raw_pump_delivers_whole_source :
  forall self pid (n : Z) (w : world (dstate zd)),
    truthy (decompress self) = false ->
    as_int (chunk_size self) = Some n -> n <> 0 ->
    proc self = Some pid ->
    let sent := stdin_of pid (trace w) ++ src w in
    let status := child (args_of pid (trace w)) sent in
    exists evs,
      communicate zd child self w
      = (Ok status,
         mkworld [] (gz w) (trace w ++ evs ++ [EvClose pid; EvWait pid status]))
      /\ stdin_of pid (trace w ++ evs) = sent
      /\ forallb (fun e => negb (is_popen e)) evs = true.
Proof.
  exact communicate_raw.
Qed.

End RawPump.

Lemma raw_pump_delivers_whole_source_witness :
  exists evs,
    MakeBlastDB.communicate Inflate.decompressobj byte_count
      (MakeBlastDB.mk "makeblastdb" (VStr "-") VNone VNone VNone (VBool false)
         (Some 0%nat) (VBool false) (VInt 2))
      (world1 (Inflate.unhex "414347540a") [popen0])
    = (Ok 5, world1 [] ([popen0] ++ evs ++ [EvClose 0; EvWait 0 5]))
    /\ MakeBlastDB.stdin_of 0 ([popen0] ++ evs) = Inflate.unhex "414347540a".
Proof.
  destruct (raw_pump_delivers_whole_source Inflate.decompressobj byte_count
              (MakeBlastDB.mk "makeblastdb" (VStr "-") VNone VNone VNone
                 (VBool false) (Some 0%nat) (VBool false) (VInt 2))
              0%nat 2 (world1 (Inflate.unhex "414347540a") [popen0])
              eq_refl eq_refl ltac:(discriminate) eq_refl)
    as (evs & E & S & _).
  exists evs. split; [exact E | exact S].
Defined.

(* ================================================================== *)
(** * Further properties: reading all at once                          *)
(* ================================================================== *)

Section Drain.

Variable zd : decompressobj.

(** Without a chunk size, one call of [decompress] returns the whole
    payload of a compressed stream and leaves the source read through;
    a further call returns nothing.  Iterating a reader whose chunk
    size is [None] therefore yields the payload in one chunk (or no
    chunk, for the empty payload). *)
Theorem decompress_without_size_returns_payload :
  forall self z p tr,
    compressed_form zd z p ->
    exists s',
      StreamGunZip.decompress zd self VNone (mkworld z (d_new zd) tr)
      = (Ok p, mkworld [] s' tr) /\
      StreamGunZip.decompress zd self VNone (mkworld [] s' tr)
      = (Ok [], mkworld [] s' tr) /\
      exists chunks w',
        StreamGunZip.chunks zd (StreamGunZip.mk VNone)
          (mkworld z (d_new zd) tr) = (Ok chunks, w') /\
        List.concat chunks = p /\
        (List.length chunks <= 1)%nat.
Proof.
  intros self z p tr (s' & F & _).
  assert (D : forall g, StreamGunZip.decompress zd g VNone
                          (mkworld z (d_new zd) tr)
                        = (Ok p, mkworld [] s' tr)).
  { intros g. unfold StreamGunZip.decompress, bind, stream_read,
      StreamGunZip.d. cbn [is_none src gz trace]. rewrite F. reflexivity. }
  assert (D2 : forall g, StreamGunZip.decompress zd g VNone
                           (mkworld [] s' tr)
                         = (Ok [], mkworld [] s' tr)) by reflexivity.
  exists s'. split; [apply D |]. split; [apply D2 |].
  unfold StreamGunZip.chunks. cbn [src].
  cbn [StreamGunZip.iterate]. unfold StreamGunZip.next at 1, bind at 1.
  cbn [StreamGunZip.chunk_size]. rewrite D.
  destruct p as [| b p].
  - exists [], (mkworld [] s' tr). simpl. auto.
  - destruct z as [| b0 z]; [simpl in F; discriminate |].
    cbn [List.length StreamGunZip.iterate]. unfold ret at 1, bind at 1.
    unfold StreamGunZip.next at 1, bind at 1.
    cbn [StreamGunZip.chunk_size]. rewrite D2. cbn [raise].
    exists [b :: p], (mkworld [] s' tr). simpl. rewrite app_nil_r. auto.
Qed.

End Drain.

Lemma decompress_without_size_returns_payload_witness :
  exists s',
    StreamGunZip.decompress Inflate.decompressobj (StreamGunZip.mk VNone)
      VNone (world0 gz_a)
    = (Ok payload_a, @mkworld Inflate.state [] s' []).
Proof.
  destruct (decompress_without_size_returns_payload Inflate.decompressobj
              (StreamGunZip.mk VNone) gz_a payload_a []
              gz_a_compressed_form) as (s' & D & _).
  exists s'. exact D.
Defined.

(* ================================================================== *)
(** * Further properties: merging options                              *)
(* ================================================================== *)

Section OptionExtras.

Import MakeBlastDB OptionFacts.

Variable zd : decompressobj.
Variable child : list pyval -> bytes -> Z.

Lemma set_options_app kw1 : forall kw2 self,
  set_options (kw1 ++ kw2) self
  = match set_options kw1 self with
    | (self1, None) => set_options kw2 self1
    | failed => failed
    end.
Proof.
  induction kw1 as [| [k v] kw1 IH]; intros kw2 self; [reflexivity |].
  simpl. destruct (set_option k v self) as [self1 |]; [apply IH | reflexivity].
Qed.

(** The merge is not atomic: when the iteration meets an unknown name
    after known ones, the error is raised with the instance already
    holding the options met before it; those after it are not
    applied. *)
Theorem set_options_stops_at_unknown_option :
  forall kw1 k v kw2 self,
    (forall k' v', In (k', v') kw1 -> In k' option_names) ->
    ~ In k option_names ->
    exists self1,
      set_options kw1 self = (self1, None) /\
      set_options (kw1 ++ (k, v) :: kw2) self
      = (self1, Some (ValueError ("unhandeled option: " ++ k)%string)) /\
      (forall k', In k' option_names ->
                  attr k' self1 = match kw_get k' kw1 with
                                  | Some v' => v'
                                  | None => attr k' self
                                  end).
Proof.
  intros kw1 k v kw2 self K N.
  destruct (set_options_ok kw1 self K) as [self1 E].
  exists self1. split; [exact E |]. split.
  - rewrite set_options_app, E. simpl.
    rewrite (set_option_unknown _ _ _ N). reflexivity.
  - intros k' Hk'. apply (set_options_attr _ _ _ _ E Hk').
Qed.


End OptionExtras.

Lemma set_options_stops_at_unknown_option_witness :
  exists self1,
    MakeBlastDB.set_options
      [("out", VStr "db"); ("bogus", VInt 1); ("title", VStr "t")]
      (compiler0 16384)
    = (self1, Some (ValueError "unhandeled option: bogus")) /\
    MakeBlastDB.out self1 = VStr "db" /\ MakeBlastDB.title self1 = VNone.
Proof.
  destruct (set_options_stops_at_unknown_option
              [("out", VStr "db")] "bogus" (VInt 1) [("title", VStr "t")]
              (compiler0 16384)) as (self1 & E1 & E & A).
  - intros k' v' [I | []]. injection I as <- _. simpl. auto.
  - simpl. intuition discriminate.
  - exists self1. split; [exact E |].
    split; [apply (A "out") | apply (A "title")]; simpl; auto.
Defined.


(* ================================================================== *)
(** * Further properties: a download from end to end                   *)
(* ================================================================== *)

Section Download.

Variable zd : decompressobj.
Variable child : list pyval -> bytes -> Z.
Variable platform : string.
Variable urlopen : nat -> string -> string + bytes.

Import MakeBlastDB.





End Download.


(* ================================================================== *)
(** * Further properties: the attempts of the batch driver             *)
(* ================================================================== *)

Section RetryExtras.

Variable zd : decompressobj.
Variable child : list pyval -> bytes -> Z.
Variable platform : string.
Variable urlopen : nat -> string -> string + bytes.

(** One attempt: the call of [download_and_make] in the loop. *)
Let attempt (assembly : Edirect.AssemblyReference)
  : M (dstate zd) Z :=
  Blastdb.download_and_make zd child platform urlopen
    (Edirect.filepath assembly)
    (GetGenomes.options (Edirect.before_first "." (Edirect.name assembly))).

(** The error is the one the loop retries on. *)
Let transient (e : exn) : bool :=
  match e with
  | URLError reason => contains "[Errno 110]" (GetGenomes.str_URLError reason)
  | _ => false
  end.

Lemma retry_turn fuel counter assembly r (w : world (dstate zd)) :
  counter < 3 ->
  GetGenomes.retry zd child platform urlopen (S fuel) counter assembly r w
  = match attempt assembly w with
    | (Ok v, w') => (Ok (Some v), w')
    | (Raise e, w') =>
        if transient e
        then GetGenomes.retry zd child platform urlopen fuel (counter + 1)
               assembly r w'
        else (Raise e, w')
    | (OutOfFuel, w') => (OutOfFuel, w')
    end.
Proof.
  intros L. apply Z.ltb_lt in L. cbn [GetGenomes.retry]. rewrite L.
  unfold attempt, transient.
  destruct (Blastdb.download_and_make _ _ _ _ _ _ w) as [[v | e |] w'];
    try reflexivity.
  destruct e; reflexivity.
Qed.

Lemma retry_other_error fuel counter assembly r (w w' : world (dstate zd)) e :
  counter < 3 ->
  attempt assembly w = (Raise e, w') -> transient e = false ->
  GetGenomes.retry zd child platform urlopen (S fuel) counter assembly r w
  = (Raise e, w').
Proof.
  intros L A T. rewrite retry_turn by exact L. rewrite A, T. reflexivity.
Qed.

Lemma retry_failure assembly r (w0 w1 w2 w3 : world (dstate zd)) e1 e2 e :
  (attempt assembly w0 = (Raise e, w3)
   \/ (attempt assembly w0 = (Raise e1, w1) /\ transient e1 = true /\
       attempt assembly w1 = (Raise e, w3))
   \/ (attempt assembly w0 = (Raise e1, w1) /\ transient e1 = true /\
       attempt assembly w1 = (Raise e2, w2) /\ transient e2 = true /\
       attempt assembly w2 = (Raise e, w3))) ->
  transient e = false ->
  GetGenomes.retry zd child platform urlopen 3 0 assembly r w0
  = (Raise e, w3).
Proof.
  intros [A | [(A1 & T1 & A) | (A1 & T1 & A2 & T2 & A)]] T.
  - apply retry_other_error; [lia | exact A | exact T].
  - rewrite retry_turn by lia. rewrite A1, T1.
    apply retry_other_error; [lia | exact A | exact T].
  - rewrite retry_turn by lia. rewrite A1, T1.
    rewrite retry_turn by lia. rewrite A2, T2.
    apply retry_other_error; [lia | exact A | exact T].
Qed.

(** An exception of an attempt other than the timeout URLError (another
    URLError, a decompression error, a bad option) ends the loop at
    once, at whichever turn it occurs: a turn of the loop (counter
    below 3) whose attempt raises it raises it in the world the
    attempt left, with no further attempt; so when the first attempt,
    or the second after one timeout, or the third after two, raises
    it, the loop and the body of the assembly raise it there, and
    neither a line for the assembly nor a status is written. *)
Theorem other_errors_are_not_retried :
  forall species assembly,
    (forall fuel counter r (w w' : world (dstate zd)) e,
        counter < 3 ->
        attempt assembly w = (Raise e, w') ->
        transient e = false ->
        GetGenomes.retry zd child platform urlopen (S fuel) counter
          assembly r w
        = (Raise e, w'))
    /\
    (forall r (w0 w1 w2 w3 : world (dstate zd)) e1 e2 e,
        (attempt assembly w0 = (Raise e, w3)
         \/ (attempt assembly w0 = (Raise e1, w1) /\ transient e1 = true /\
             attempt assembly w1 = (Raise e, w3))
         \/ (attempt assembly w0 = (Raise e1, w1) /\ transient e1 = true /\
             attempt assembly w1 = (Raise e2, w2) /\ transient e2 = true /\
             attempt assembly w2 = (Raise e, w3))) ->
        transient e = false ->
        GetGenomes.retry zd child platform urlopen 3 0 assembly r w0
        = (Raise e, w3)
        /\ GetGenomes.download_assembly zd child platform urlopen species
             assembly r w0 = (Raise e, w3)).
Proof.
  intros species assembly. split.
  - intros fuel counter r w w' e L A T.
    apply retry_other_error; assumption.
  - intros r w0 w1 w2 w3 e1 e2 e H T.
    pose proof (retry_failure assembly r w0 w1 w2 w3 e1 e2 e H T) as R.
    split; [exact R |].
    unfold GetGenomes.download_assembly, bind. rewrite R. reflexivity.
Qed.

Lemma retry_success assembly r (w0 w1 w2 w3 : world (dstate zd)) e1 e2 v :
  (attempt assembly w0 = (Ok v, w3)
   \/ (attempt assembly w0 = (Raise e1, w1) /\ transient e1 = true /\
       attempt assembly w1 = (Ok v, w3))
   \/ (attempt assembly w0 = (Raise e1, w1) /\ transient e1 = true /\
       attempt assembly w1 = (Raise e2, w2) /\ transient e2 = true /\
       attempt assembly w2 = (Ok v, w3))) ->
  GetGenomes.retry zd child platform urlopen 3 0 assembly r w0
  = (Ok (Some v), w3).
Proof.
  intros [A | [(A1 & T1 & A) | (A1 & T1 & A2 & T2 & A)]].
  - rewrite retry_turn by lia. rewrite A. reflexivity.
  - rewrite retry_turn by lia. rewrite A1, T1.
    rewrite retry_turn by lia. rewrite A. reflexivity.
  - rewrite retry_turn by lia. rewrite A1, T1.
    rewrite retry_turn by lia. rewrite A2, T2.
    rewrite retry_turn by lia. rewrite A. reflexivity.
Qed.

(** When an attempt returns status [v], at once or after one or two
    timeouts, the loop stops there and no further attempt is made.
    Status 0 writes the line of the assembly (species, tab, file path)
    on the standard output; any other status writes the error message
    and exits the program with that status (SystemExit). *)
Theorem success_after_timeouts_is_reported :
  forall species assembly r (w0 w1 w2 w3 : world (dstate zd)) e1 e2 v,
    (attempt assembly w0 = (Ok v, w3)
     \/ (attempt assembly w0 = (Raise e1, w1) /\ transient e1 = true /\
         attempt assembly w1 = (Ok v, w3))
     \/ (attempt assembly w0 = (Raise e1, w1) /\ transient e1 = true /\
         attempt assembly w1 = (Raise e2, w2) /\ transient e2 = true /\
         attempt assembly w2 = (Ok v, w3))) ->
    GetGenomes.download_assembly zd child platform urlopen species
      assembly r w0
    = if v =? 0 then
        (Ok (Some v),
         mkworld (src w3) (gz w3)
           (trace w3 ++ [EvStdout (species ++ GetGenomes.tab
                                   ++ Edirect.filepath assembly
                                   ++ MakeBlastDB.nl)%string]))
      else
        (Raise (SystemExit v),
         mkworld (src w3) (gz w3)
           (trace w3 ++ [EvStderr ("makeblastdb exited with an error"
                                   ++ MakeBlastDB.nl)%string])).
Proof.
  intros species assembly r w0 w1 w2 w3 e1 e2 v H.
  unfold GetGenomes.download_assembly. unfold bind at 1.
  rewrite (retry_success assembly r w0 w1 w2 w3 e1 e2 v H).
  destruct (v =? 0); reflexivity.
Qed.

End RetryExtras.

Lemma other_errors_are_not_retried_witness :
  exists w',
    GetGenomes.download_assembly Inflate.decompressobj byte_count "Linux"
      (failing_once not_gzip) "Homo sapiens" assembly0 None (world0 [])
    = (Raise (ZlibError
                "Error -3 while decompressing data: incorrect header check"),
       w')
    /\ List.length (filter Blastdb.is_urlopen (trace w')) = 2%nat.
Proof.
  eexists. split.
  - eapply (proj2 (other_errors_are_not_retried Inflate.decompressobj
                     byte_count "Linux" (failing_once not_gzip)
                     "Homo sapiens" assembly0)
              None (world0 []) _ (world0 []) _ _ StopIteration).
    + right. left. split; [vm_compute; reflexivity |].
      split; [reflexivity | vm_compute; reflexivity].
    + reflexivity.
  - vm_compute; reflexivity.
Defined.

Lemma success_after_timeouts_is_reported_witness :
  exists w',
    GetGenomes.download_assembly Inflate.decompressobj exits_with_0 "Linux"
      (failing_once gz_a) "Homo sapiens" assembly0 None (world0 [])
    = (Ok (Some 0), w')
    /\ List.length (filter Blastdb.is_urlopen (trace w')) = 2%nat
    /\ MakeBlastDB.stdin_of 0 (trace w') = payload_a.
Proof.
  eexists. split.
  - eapply (success_after_timeouts_is_reported Inflate.decompressobj
              exits_with_0 "Linux" (failing_once gz_a) "Homo sapiens"
              assembly0 None (world0 []) _ (world0 []) _ _ StopIteration 0).
    right. left. split; [vm_compute; reflexivity |].
    split; [reflexivity | vm_compute; reflexivity].
  - split; vm_compute; reflexivity.
Defined.

(* ================================================================== *)
(** * Further properties: references and the repository                *)
(* ================================================================== *)

Module ReferenceExtras.
Import Edirect EdirectFacts.

Lemma endswith_app c x y :
  y <> EmptyString -> endswith c (x ++ y) = endswith c y.
Proof.
  intros NE. induction x as [| a x IH]; [reflexivity |].
  cbn [append endswith]. rewrite IH.
  destruct (x ++ y)%string eqn:E; [| reflexivity].
  destruct x; simpl in E; [contradiction | discriminate].
Qed.

Lemma endswith_contains c s :
  endswith c s = true -> contains (String c EmptyString) s = true.
Proof.
  induction s as [| a s IH]; [discriminate |].
  intros H. rewrite contains_char_cons. destruct s as [| b s].
  - simpl in H. rewrite H. reflexivity.
  - rewrite IH by exact H. apply orb_true_r.
Qed.

Lemma append_nil_r s : (s ++ EmptyString)%string = s.
Proof.
  induction s as [| a s IH]; [reflexivity |]. simpl. now rewrite IH.
Qed.

(** A path that ends with a slash has an empty last segment. *)
Lemma trailing_slash_empty_tail p :
  endswith "/" p = true -> path_split_tail p = EmptyString.
Proof.
  intros H. destruct (path_split_tail_spec p) as (head & E & NC & _).
  destruct (path_split_tail p) as [| a t] eqn:T; [reflexivity |].
  rewrite E, endswith_app in H by discriminate.
  apply endswith_contains in H. congruence.
Qed.

Lemma init_inr_name species p a :
  init species p = inr a ->
  name a = path_split_tail p /\ filepath a = path_join p (filename a) /\
  filename a = (name a ++ "_genomic.fna.gz")%string /\
  Edirect.species a = species /\
  contains "_" (name a) = true.
Proof.
  unfold init. intros H.
  destruct (split1_spec "_" (path_split_tail p))
    as [[NC E] | [C (pre & post & E & _)]]; rewrite E in H.
  - discriminate.
  - cbn [index nth_error] in H. injection H as <-. cbn. auto.
Qed.

(** Whenever a reference is built, its path neither is empty nor ends
    with a slash, and the file path is the path, a slash, the last
    segment of the path and the suffix [_genomic.fna.gz]. *)
Theorem filepath_of_reference :
  forall species path a,
    init species path = inr a ->
    path <> EmptyString /\
    endswith "/" path = false /\
    filepath a
    = (path ++ "/" ++ path_split_tail path ++ "_genomic.fna.gz")%string.
Proof.
  intros species path a H.
  destruct (init_inr_name _ _ _ H) as (N & FP & FN & _ & C).
  assert (NE : path_split_tail path <> EmptyString).
  { rewrite <- N. intros E. rewrite E in C. discriminate. }
  assert (ES : endswith "/" path = false).
  { destruct (endswith "/" path) eqn:E; [| reflexivity].
    apply trailing_slash_empty_tail in E. contradiction. }
  assert (PN : path <> EmptyString).
  { intros ->. apply NE. reflexivity. }
  repeat split; auto.
  rewrite FP, FN, N. unfold path_join. rewrite ES.
  destruct (path_split_tail_spec path) as (head & _ & NC & _).
  destruct (path_split_tail path) as [| c t] eqn:T; [contradiction |].
  rewrite contains_char_cons in NC. apply orb_false_elim in NC.
  destruct NC as [Nc _].
  assert (P : String.prefix "/" (String c t ++ "_genomic.fna.gz") = false).
  { cbn [append String.prefix].
    destruct (ascii_dec "/" c) as [<- | _]; [| reflexivity].
    rewrite Ascii.eqb_refl in Nc. discriminate. }
  rewrite P. destruct path; [contradiction | reflexivity].
Qed.

(** A line that holds a species and no path (no tab once stripped)
    leaves the repository as it was: the species gets no entry. *)
Theorem line_without_path_adds_nothing :
  forall line self,
    contains (String tab EmptyString) (strip line) = false ->
    add_line line self = inr self.
Proof.
  intros line self H. unfold add_line.
  rewrite (split_no_sep _ _ H). reflexivity.
Qed.

End ReferenceExtras.

Lemma filepath_of_reference_witness :
  exists a,
    Edirect.init "Homo sapiens" "ftp://host/all/GCF_1.2_x" = inr a /\
    Edirect.filepath a = "ftp://host/all/GCF_1.2_x/GCF_1.2_x_genomic.fna.gz".
Proof.
  eexists. split; [reflexivity |].
  apply (ReferenceExtras.filepath_of_reference "Homo sapiens"
           "ftp://host/all/GCF_1.2_x").
  reflexivity.
Defined.

Lemma line_without_path_adds_nothing_witness :
  Edirect.add_line
    ("Homo sapiens" ++ String (ascii_of_nat 10) EmptyString)%string []
  = inr [].
Proof.
  apply ReferenceExtras.line_without_path_adds_nothing. reflexivity.
Defined.

(* ================================================================== *)
(** * Further properties: which assemblies are downloaded              *)
(* ================================================================== *)

Module SelectionExtras.
Import Edirect.

Lemma repo_get_set_other k k' refs self :
  k' <> k -> repo_get k' (repo_set k refs self) = repo_get k' self.
Proof.
  intros N. induction self as [| [k0 old] rest IH]; simpl.
  - destruct (String.eqb_spec k k'); [congruence | reflexivity].
  - destruct (String.eqb_spec k0 k) as [-> | N0]; simpl.
    + destruct (String.eqb_spec k k'); [congruence | reflexivity].
    + destruct (String.eqb k0 k'); [reflexivity | exact IH].
Qed.

Lemma repo_set_ok k refs self :
  repo_ok self ->
  refs <> [] -> NoDup (map filepath refs) ->
  (forall a, In a refs -> Edirect.species a = k) ->
  repo_ok (repo_set k refs self).
Proof.
  intros OK NE ND SP. induction OK as [| k0 old rest OK IH G NE0 ND0 SP0].
  - simpl. constructor; auto. constructor.
  - simpl. destruct (String.eqb_spec k0 k) as [-> | N].
    + constructor; auto.
    + constructor; auto. rewrite repo_get_set_other by auto. exact G.
Qed.

Lemma repo_get_ok k refs self :
  repo_ok self -> repo_get k self = Some refs ->
  refs <> [] /\ NoDup (map filepath refs) /\
  (forall a, In a refs -> Edirect.species a = k).
Proof.
  intros OK. induction OK as [| k0 old rest OK IH G NE0 ND0 SP0];
    [discriminate |].
  simpl. destruct (String.eqb_spec k0 k) as [-> | N].
  - intros H. injection H as <-. auto.
  - exact IH.
Qed.

Lemma existsb_filepath a refs :
  existsb (fun x => String.eqb (filepath a) (filepath x)) refs = false ->
  ~ In (filepath a) (map filepath refs).
Proof.
  induction refs as [| x refs IH]; [auto |].
  simpl. intros H. apply orb_false_elim in H. destruct H as [H1 H2].
  intros [E | I]; [| exact (IH H2 I)].
  rewrite E, String.eqb_refl in H1. discriminate.
Qed.

Lemma add_path_ok species p self self' :
  repo_ok self -> add_path species p self = inr self' -> repo_ok self'.
Proof.
  intros OK. unfold add_path.
  destruct (init species p) as [e | a] eqn:I; [discriminate |].
  assert (SA : Edirect.species a = species).
  { unfold init in I. destruct (index _ 1); [discriminate |].
    injection I as <-. reflexivity. }
  destruct (repo_get species self) as [refs |] eqn:G.
  - destruct (repo_get_ok _ _ _ OK G) as (NE & ND & SP).
    destruct (existsb _ refs) eqn:X; intros H; injection H as <-; auto.
    apply repo_set_ok; auto.
    + destruct refs; discriminate.
    + rewrite map_app. simpl. apply NoDup_app_remove_l with (l := []).
      simpl. apply (Permutation_NoDup (l := filepath a :: map filepath refs)).
      * apply Permutation_cons_append.
      * constructor; [apply existsb_filepath; exact X | exact ND].
    + intros x Ix. apply in_app_or in Ix. destruct Ix as [Ix | [<- | []]];
        auto.
  - intros H. injection H as <-. apply repo_set_ok; auto.
    + discriminate.
    + simpl. constructor; [auto | constructor].
    + intros x [<- | []]. exact SA.
Qed.

Lemma add_paths_ok species paths : forall self self',
  repo_ok self -> add_paths species paths self = inr self' -> repo_ok self'.
Proof.
  induction paths as [| p paths IH]; intros self self' OK H.
  - injection H as <-. exact OK.
  - simpl in H. destruct (add_path species p self) as [| self1] eqn:A;
      [discriminate |].
    apply (IH self1); auto. apply (add_path_ok _ _ _ _ OK A).
Qed.

Lemma add_line_ok line self self' :
  repo_ok self -> add_line line self = inr self' -> repo_ok self'.
Proof.
  intros OK. unfold add_line. destruct (index _ 0); [discriminate |].
  apply add_paths_ok. exact OK.
Qed.

(** Whatever the lines, the repository [AssemblyRepository] builds
    holds no species twice, and for each species a non-empty list of
    references that are filed under that species and have distinct
    file paths: a path met twice for a species is kept once. *)
Theorem repository_has_no_duplicates :
  forall f self,
    AssemblyRepository f [] = inr self ->
    repo_ok self /\
    (forall species refs,
        repo_get species self = Some refs ->
        refs <> [] /\ NoDup (map filepath refs) /\
        (forall a, In a refs -> Edirect.species a = species)).
Proof.
  assert (G : forall f self0 self,
             repo_ok self0 -> AssemblyRepository f self0 = inr self ->
             repo_ok self).
  { induction f as [| line f IH]; intros self0 self OK H.
    - injection H as <-. exact OK.
    - simpl in H. destruct (add_line line self0) as [| self1] eqn:A;
        [discriminate |].
      apply (IH self1); auto. apply (add_line_ok _ _ _ OK A). }
  intros f self H. pose proof (G f [] self repo_ok_nil H) as OK.
  split; [exact OK |]. intros species refs. apply repo_get_ok. exact OK.
Qed.

(** A GenBank assembly is downloaded only for a species without any
    RefSeq assembly: when one of the assemblies is RefSeq, the
    selection is the list of the RefSeq ones, each as often and in the
    order it stands in the list; when none is, the selection is the
    whole list unchanged.  So the selection is part of the list, holds
    every RefSeq assembly, holds only RefSeq ones when there is one,
    and is empty only for an empty list. *)
Theorem refseq_is_preferred :
  forall assemblies,
    let selected := GetGenomes.select_assemblies assemblies in
    ((exists y, In y assemblies /\ type y = "RefSeq") ->
     selected
     = filter (fun x => String.eqb (type x) "RefSeq") assemblies) /\
    ((forall y, In y assemblies -> type y <> "RefSeq") ->
     selected = assemblies) /\
    (forall x, In x selected -> In x assemblies) /\
    (forall x, In x assemblies -> type x = "RefSeq" -> In x selected) /\
    (forall x y, In x selected -> In y assemblies ->
                 type y = "RefSeq" -> type x = "RefSeq") /\
    (assemblies <> [] -> selected <> []).
Proof.
  intros assemblies selected. unfold selected, GetGenomes.select_assemblies.
  destruct (existsb _ assemblies) eqn:X.
  - split; [reflexivity |]. split.
    { intros N. apply existsb_exists in X. destruct X as (x & I & T).
      apply String.eqb_eq in T. destruct (N x I). symmetry. exact T. }
    repeat split.
    + intros x I. apply filter_In in I. tauto.
    + intros x I T. apply filter_In. split; auto.
      rewrite T. reflexivity.
    + intros x y I _ _. apply filter_In in I. destruct I as [_ E].
      apply String.eqb_eq. exact E.
    + intros _ E. apply existsb_exists in X. destruct X as (x & I & T).
      assert (I' : In x (filter (fun x => String.eqb (type x) "RefSeq")
                           assemblies)).
      { apply filter_In. split; auto. rewrite String.eqb_sym. exact T. }
      rewrite E in I'. destruct I'.
  - assert (N : forall y, In y assemblies -> type y = "RefSeq" -> False).
    { intros y I T.
      assert (existsb (fun x => String.eqb "RefSeq" (type x)) assemblies
              = true).
      { apply existsb_exists. exists y. split; auto.
        rewrite T. reflexivity. }
      congruence. }
    split; [intros (y & I & T); destruct (N y I T) |].
    repeat split; auto.
    intros x y _ I T. destruct (N y I T).
Qed.

End SelectionExtras.

Lemma repository_has_no_duplicates_witness :
  exists self refs,
    Edirect.AssemblyRepository search_output [] = inr self /\
    Edirect.repo_get "Homo sapiens" self = Some refs /\
    List.length refs = 2%nat /\
    NoDup (map Edirect.filepath refs).
Proof.
  eexists _, _. split; [vm_compute; reflexivity |].
  split; [reflexivity |]. split; [reflexivity |].
  apply (proj2 (SelectionExtras.repository_has_no_duplicates
                  search_output _ eq_refl) "Homo sapiens" _ eq_refl).
Defined.

Lemma refseq_is_preferred_witness :
  GetGenomes.select_assemblies [assembly1; assembly0; assembly0]
  = [assembly0; assembly0]
  /\ GetGenomes.select_assemblies [assembly1; assembly1]
     = [assembly1; assembly1].
Proof.
  split.
  - apply (proj1 (SelectionExtras.refseq_is_preferred
                    [assembly1; assembly0; assembly0])).
    exists assembly0. split; [simpl; auto | reflexivity].
  - apply (proj1 (proj2 (SelectionExtras.refseq_is_preferred
                           [assembly1; assembly1]))).
    intros y [<- | [<- | []]]; discriminate.
Defined.

(* ================================================================== *)
(** * Further properties: misuse and termination of the pump           *)
(* ================================================================== *)

Section PumpExtras.

Variable zd : decompressobj.
Variable child : list pyval -> bytes -> Z.

Import MakeBlastDB.

Lemma communicate_without_process self (w : world (dstate zd)) :
  proc self = None ->
  exists e w' evs,
    communicate zd child self w = (Raise e, w') /\
    trace w' = trace w ++ evs /\
    (evs = [] \/ evs = [EvStderr ("MakeBlastDB: null input" ++ nl)%string]).
Proof.
  intros Hp. unfold communicate. unfold bind at 1.
  destruct (read_method_spec zd self w) as (rd & w0 & E & WB & T0 & _).
  rewrite E. unfold bind at 1.
  destruct (rd w0) as [o w1] eqn:R.
  destruct (WB _ _ _ R) as (NF & T1 & _).
  destruct o as [[| b data] | e |]; [| | | congruence].
  - unfold bind, emit, proc_stdin. rewrite Hp. cbn [raise trace].
    eexists _, _, _. split; [reflexivity |]. cbn [trace].
    rewrite T1, T0. auto.
  - unfold bind at 1. cbn beta. rewrite pump_step, Hp.
    eexists _, _, []. split; [reflexivity |].
    rewrite app_nil_r, T1, T0. auto.
  - eexists _, _, []. split; [reflexivity |].
    rewrite app_nil_r, T1, T0. auto.
Qed.

(** [communicate] called on an instance whose process was not opened
    never returns a status.  It makes the first read, and what it
    raises is fixed by that read: when the read raises, that
    exception, in the world the read left; when it gives a chunk with
    data, the AttributeError of the missing process (no attribute
    stdin), in the world the read left, so with the chunk taken from
    the source and nothing written; when it gives an empty chunk, the
    same AttributeError after the null input was reported on the error
    stream.  In every case the trace gains nothing but that report. *)
Theorem communicate_needs_open_process :
  forall self (w : world (dstate zd)),
    proc self = None ->
    (forall rd w0 o w1,
        read_method zd self w = (Ok rd, w0) ->
        rd w0 = (o, w1) ->
        communicate zd child self w
        = match o with
          | Ok [] =>
              (Raise (AttributeError
                        "'NoneType' object has no attribute 'stdin'"),
               mkworld (src w1) (gz w1)
                 (trace w1
                    ++ [EvStderr ("MakeBlastDB: null input" ++ nl)%string]))
          | Ok (_ :: _) =>
              (Raise (AttributeError
                        "'NoneType' object has no attribute 'stdin'"), w1)
          | Raise e => (Raise e, w1)
          | OutOfFuel => (OutOfFuel, w1)
          end)
    /\
    (exists e w' evs,
        communicate zd child self w = (Raise e, w') /\
        trace w' = trace w ++ evs /\
        (evs = []
         \/ evs = [EvStderr ("MakeBlastDB: null input" ++ nl)%string])).
Proof.
  intros self w Hp. split; [| apply communicate_without_process; exact Hp].
  intros rd w0 o w1 E R.
  unfold communicate. unfold bind at 1. rewrite E. unfold bind at 1.
  rewrite R. destruct o as [[| b data] | e |]; try reflexivity.
  - unfold bind, emit, proc_stdin. rewrite Hp. reflexivity.
  - unfold bind at 1. cbn beta. rewrite pump_step, Hp. reflexivity.
Qed.

(** The loops of the program end on every input: [communicate] for
    every source, chunk size (zero and negative included) and mode,
    and the iteration of a reader for every source and chunk size.  A
    turn that goes on has taken at least one byte from the source, so
    the empty chunks a compressed stream may give never make the loop
    spin. *)
Theorem pump_and_iteration_terminate :
  forall self g (w : world (dstate zd)),
    fst (communicate zd child self w) <> OutOfFuel /\
    fst (StreamGunZip.chunks zd g w) <> OutOfFuel.
Proof.
  intros self g w. split.
  - apply communicate_total.
  - apply chunks_total.
Qed.

End PumpExtras.

Lemma communicate_needs_open_process_witness :
  MakeBlastDB.communicate Inflate.decompressobj byte_count
    (MakeBlastDB.mk "makeblastdb" (VStr "-") VNone VNone VNone (VBool false)
       None (VBool false) (VInt 16384))
    (world0 gz_a)
  = (Raise (AttributeError "'NoneType' object has no attribute 'stdin'"),
     world0 []).
Proof.
  exact (proj1 (communicate_needs_open_process Inflate.decompressobj
                  byte_count
                  (MakeBlastDB.mk "makeblastdb" (VStr "-") VNone VNone VNone
                     (VBool false) None (VBool false) (VInt 16384))
                  (world0 gz_a) eq_refl)
           (stream_read (Some (VInt 16384))) (world0 gz_a)
           (Ok gz_a) (world0 []) eq_refl eq_refl).
Defined.

(* ================================================================== *)
(** * Further properties: a compressed download that fits one chunk    *)
(* ================================================================== *)

Section DownloadCompressed.

Variable zd : decompressobj.
Variable child : list pyval -> bytes -> Z.
Variable platform : string.
Variable urlopen : nat -> string -> string + bytes.

Import MakeBlastDB.




End DownloadCompressed.


(* ================================================================== *)
(** * Further properties: the stream when a download fails             *)
(* ================================================================== *)

Section StreamLeftOpen.

Variable zd : decompressobj.
Variable child : list pyval -> bytes -> Z.
Variable platform : string.
Variable urlopen : nat -> string -> string + bytes.

Import MakeBlastDB.

Lemma pump_events_communicate (evs : list event) :
  forallb is_pump_event evs = true ->
  forallb is_communicate_event evs = true.
Proof.
  induction evs as [| e evs IH]; [reflexivity |].
  simpl. intros H. apply andb_prop in H. destruct H as [H1 H2].
  rewrite IH by exact H2. destruct e; try discriminate; reflexivity.
Qed.

(** All [communicate] does to the outside concerns the child and the
    error stream. *)
Lemma communicate_events self (w : world (dstate zd)) o w' :
  communicate zd child self w = (o, w') ->
  exists evs,
    trace w' = trace w ++ evs /\ forallb is_communicate_event evs = true.
Proof.
  unfold communicate. unfold bind at 1.
  destruct (read_method_spec zd self w) as (rd & w0 & E & WB & T0 & _).
  rewrite E. unfold bind at 1.
  destruct (rd w0) as [o1 w1] eqn:R.
  destruct (WB _ _ _ R) as (NF & T1 & _).
  assert (TAIL : forall (w2 : world (dstate zd)) o2 w3 evs,
    trace w2 = trace w ++ evs ->
    forallb is_communicate_event evs = true ->
    (stdin <- proc_stdin zd self ;;
     emit (EvClose stdin) ;;; proc_wait zd child self) w2 = (o2, w3) ->
    exists evs', trace w3 = trace w ++ evs' /\
                 forallb is_communicate_event evs' = true).
  { intros w2 o2 w3 evs T EV H. unfold bind, proc_stdin, proc_wait, emit in H.
    destruct (proc self) as [pid |]; cbn [ret raise src gz trace] in H;
      injection H as <- <-; cbn [trace]; rewrite T.
    - eexists. rewrite <- !app_assoc. split; [reflexivity |].
      rewrite forallb_app, EV. reflexivity.
    - exists evs. auto. }
  destruct o1 as [[| b data] | e |]; [| | | congruence].
  - unfold bind at 1, emit at 1. intros H.
    apply (TAIL _ _ _ [EvStderr ("MakeBlastDB: null input" ++ nl)%string])
      in H; auto.
    cbn [trace]. rewrite T1, T0. reflexivity.
  - unfold bind at 1. cbn beta.
    destruct (pump_runs zd self rd WB (S (List.length (src w1))) (b :: data)
                w1 (Nat.lt_succ_diag_r _))
      as (o2 & w2 & evs & P & NF' & T2 & EV).
    rewrite P. apply pump_events_communicate in EV.
    destruct o2 as [[] | e |]; [| | congruence].
    + intros H. apply (TAIL _ _ _ evs) in H; auto.
      rewrite T2, T1, T0. reflexivity.
    + intros H. injection H as <- <-. exists evs. split; auto.
      rewrite T2, T1, T0. reflexivity.
  - intros H. injection H as <- <-. exists []. rewrite app_nil_r.
    split; auto. rewrite T1, T0. reflexivity.
Qed.

Lemma download_raises_open url kw (w w' : world (dstate zd)) e :
  Blastdb.download_and_make zd child platform urlopen url kw w
  = (Raise e, w') ->
  exists evs,
    trace w' = trace w ++ evs /\
    forallb (fun x => negb (is_stream_close x)) evs = true /\
    (forall content,
        urlopen (List.length (filter Blastdb.is_urlopen (trace w))) url
        = inr content ->
        exists rest, evs = EvUrlopen url :: EvShutdownWr :: rest).
Proof.
  unfold Blastdb.download_and_make. unfold bind at 1.
  destruct (urlopen _ url) as [reason | content].
  - intros H. injection H as <- <-. exists [EvUrlopen url].
    repeat split; auto. intros content C. discriminate.
  - unfold bind at 1, emit at 1. cbn [src gz trace]. unfold bind at 1.
    assert (early : forall e0 (w0 : world (dstate zd)),
      (Raise e0 : outcome Z,
       mkworld (src w0) (gz w0)
         ((trace w ++ [EvUrlopen url]) ++ [EvShutdownWr])) = (Raise e, w') ->
      exists evs,
        trace w' = trace w ++ evs /\
        forallb (fun x => negb (is_stream_close x)) evs = true /\
        (forall content0 : bytes,
            inr content = (inr content0 : string + bytes) ->
            exists rest, evs = EvUrlopen url :: EvShutdownWr :: rest)).
    { intros e0 w0 H. injection H as <- <-.
      exists [EvUrlopen url; EvShutdownWr]. cbn [trace].
      rewrite <- app_assoc. repeat split; auto.
      intros c _. exists []. reflexivity. }
    destruct (keyword_clash "make" ["input"] kw) as [e0 |];
      [cbn [raise]; apply (early e0 (mkworld content (gz w) [])) |].
    unfold Blastdb.make.
    destruct (keyword_clash "__init__" ["self"; "input"] kw) as [e0 |];
      [cbn [raise]; apply (early e0 (mkworld content (gz w) [])) |].
    destruct (init platform kw) as [self [e0 |]].
    + cbn [raise]. apply (early e0 (mkworld content (gz w) [])).
    + unfold make. cbn [set_options]. unfold bind at 1, open_process.
      cbn [src gz trace].
      match goal with |- context [communicate zd child ?s0 ?w0] =>
        destruct (communicate zd child s0 w0) as [o1 w1] eqn:C;
        destruct (communicate_events _ _ _ _ C) as (evs & T & EV)
      end.
      cbn [trace] in T.
      destruct o1 as [r | e1 |].
      * unfold bind, emit, ret. destruct (r >? 0); discriminate.
      * intros H. injection H as <- <-.
        eexists. rewrite T, <- !app_assoc. cbn [app].
        split; [reflexivity |]. split.
        -- cbn [forallb is_stream_close negb andb].
           clear - EV. induction evs as [| x evs IH]; [reflexivity |].
           simpl in *. apply andb_prop in EV. destruct EV as [E1 E2].
           rewrite IH by exact E2. destruct x; try discriminate; reflexivity.
        -- intros c _. eexists. reflexivity.
      * discriminate.
Qed.

(** When [download_and_make] raises, the stream has not been closed:
    an exception from the options, the decompression or the pump
    skips [stream.close()], so the stream that [urlopen] opened is
    left open (no such event is in the trace). *)
Theorem failed_download_leaves_stream_open :
  forall url kw (w w' : world (dstate zd)) e,
    Blastdb.download_and_make zd child platform urlopen url kw w
    = (Raise e, w') ->
    exists evs,
      trace w' = trace w ++ evs /\
      forallb (fun x => negb (is_stream_close x)) evs = true /\
      (forall content,
          urlopen (List.length (filter Blastdb.is_urlopen (trace w))) url
          = inr content ->
          exists rest, evs = EvUrlopen url :: EvShutdownWr :: rest).
Proof.
  exact download_raises_open.
Qed.

End StreamLeftOpen.

Lemma failed_download_leaves_stream_open_witness :
  Blastdb.download_and_make Inflate.decompressobj byte_count "Linux"
    (always_serving not_gzip) "ftp://host/x.gz"
    [("decompress", VBool true)] (world0 [])
  = (Raise (ZlibError
              "Error -3 while decompressing data: incorrect header check"),
     world1 [] [EvUrlopen "ftp://host/x.gz"; EvShutdownWr; popen0])
  /\ exists evs,
       [EvUrlopen "ftp://host/x.gz"; EvShutdownWr; popen0] = [] ++ evs /\
       forallb (fun x => negb (is_stream_close x)) evs = true.
Proof.
  assert (H : Blastdb.download_and_make Inflate.decompressobj byte_count
                "Linux" (always_serving not_gzip) "ftp://host/x.gz"
                [("decompress", VBool true)] (world0 [])
              = (Raise (ZlibError
                   "Error -3 while decompressing data: incorrect header check"),
                 world1 [] [EvUrlopen "ftp://host/x.gz"; EvShutdownWr; popen0]))
    by (vm_compute; reflexivity).
  split; [exact H |].
  destruct (failed_download_leaves_stream_open Inflate.decompressobj
              byte_count "Linux" (always_serving not_gzip) "ftp://host/x.gz"
              [("decompress", VBool true)] (world0 []) _ _ H)
    as (evs & T & NC & _).
  exists evs. split; [exact T | exact NC].
Defined.

(* ================================================================== *)
(** * Further properties: the size of the writes                       *)
(* ================================================================== *)

Section BoundedWrites.

Variable zd : decompressobj.
Variable child : list pyval -> bytes -> Z.

Import MakeBlastDB.

Lemma read_bounded cs (n : Z) (w : world (dstate zd)) :
  as_int cs = Some n -> 1 <= n ->
  exists data w',
    stream_read (Some cs) w = (Ok data, w') /\
    trace w' = trace w /\
    Z.of_nat (List.length data) <= n.
Proof.
  intros A Hn. unfold stream_read. rewrite A.
  destruct (n <? 0) eqn:L; [apply Z.ltb_lt in L; lia |].
  eexists _, _. split; [reflexivity |]. split; [reflexivity |].
  rewrite length_firstn. lia.
Qed.

Lemma pump_raw_bounded self cs (n : Z) :
  as_int cs = Some n -> 1 <= n ->
  forall fuel data (w : world (dstate zd)) o w',
    Z.of_nat (List.length data) <= n ->
    pump zd fuel self (stream_read (Some cs)) data w = (o, w') ->
    exists evs,
      trace w' = trace w ++ evs /\ forallb (write_within n) evs = true.
Proof.
  intros A Hn. induction fuel as [| fuel IH]; intros data w o w' B H.
  - exists []. rewrite app_nil_r.
    destruct data; simpl in H; injection H as _ <-; auto.
  - destruct data as [| b data].
    + rewrite pump_nil in H. injection H as _ <-.
      exists []. rewrite app_nil_r. auto.
    + rewrite pump_step in H. destruct (proc self) as [pid |].
      * match type of H with context [stream_read (Some cs) ?w1] =>
          destruct (read_bounded cs n w1 A Hn) as (data' & w2 & R & T & B')
        end.
        rewrite R in H. cbn [trace] in T.
        destruct (IH _ _ _ _ B' H) as (evs & T' & EV).
        eexists. rewrite T', T, <- app_assoc. split; [reflexivity |].
        cbn [app forallb write_within]. rewrite EV.
        assert (B1 : (1 <=? Z.of_nat (List.length (b :: data))) = true)
          by (apply Z.leb_le; simpl; lia).
        assert (B2 : (Z.of_nat (List.length (b :: data)) <=? n) = true)
          by (apply Z.leb_le; exact B).
        rewrite B1, B2. reflexivity.
      * injection H as _ <-. exists []. rewrite app_nil_r. auto.
Qed.

Lemma communicate_raw_bounded self (n : Z) (w : world (dstate zd)) o w' :
  truthy (decompress self) = false ->
  as_int (chunk_size self) = Some n -> 1 <= n ->
  communicate zd child self w = (o, w') ->
  exists evs,
    trace w' = trace w ++ evs /\ forallb (write_within n) evs = true.
Proof.
  intros Ht A Hn. unfold communicate. unfold bind at 1. unfold read_method.
  rewrite Ht. cbn [ret]. unfold bind at 1.
  destruct (read_bounded (chunk_size self) n w A Hn)
    as (data & w1 & R & T1 & B).
  rewrite R.
  assert (TAIL : forall (w2 : world (dstate zd)) o2 w3 evs,
    trace w2 = trace w ++ evs ->
    forallb (write_within n) evs = true ->
    (stdin <- proc_stdin zd self ;;
     emit (EvClose stdin) ;;; proc_wait zd child self) w2 = (o2, w3) ->
    exists evs', trace w3 = trace w ++ evs' /\
                 forallb (write_within n) evs' = true).
  { intros w2 o2 w3 evs T EV H. unfold bind, proc_stdin, proc_wait, emit in H.
    destruct (proc self) as [pid |]; cbn [ret raise src gz trace] in H;
      injection H as <- <-; cbn [trace]; rewrite T.
    - eexists. rewrite <- !app_assoc. split; [reflexivity |].
      rewrite forallb_app, EV. reflexivity.
    - exists evs. auto. }
  destruct data as [| b data].
  - unfold bind at 1, emit at 1. intros H.
    apply (TAIL _ _ _ [EvStderr ("MakeBlastDB: null input" ++ nl)%string])
      in H; auto.
    cbn [trace]. rewrite T1. reflexivity.
  - unfold bind at 1. cbn beta.
    destruct (pump zd (S (List.length (src w1))) self
                (stream_read (Some (chunk_size self))) (b :: data) w1)
      as [o2 w2] eqn:P.
    destruct (pump_raw_bounded self _ n A Hn _ _ _ _ _ B P) as (evs & T2 & EV).
    destruct o2 as [[] | e |].
    + intros H. apply (TAIL _ _ _ evs) in H; auto.
      rewrite T2, T1. reflexivity.
    + intros H. injection H as <- <-. exists evs. split; auto.
      rewrite T2, T1. reflexivity.
    + intros H. injection H as <- <-. exists evs. split; auto.
      rewrite T2, T1. reflexivity.
Qed.

(** Without decompression and with a chunk size n >= 1, every write
    [communicate] makes to the child carries at least one byte and at
    most n bytes, however the call ends. *)
Theorem raw_writes_are_bounded :
  forall self (n : Z) (w : world (dstate zd)) o w',
    truthy (decompress self) = false ->
    as_int (chunk_size self) = Some n -> 1 <= n ->
    communicate zd child self w = (o, w') ->
    exists evs,
      trace w' = trace w ++ evs /\ forallb (write_within n) evs = true.
Proof.
  exact communicate_raw_bounded.
Qed.

End BoundedWrites.

Lemma raw_writes_are_bounded_witness :
  exists evs,
    trace (snd (MakeBlastDB.communicate Inflate.decompressobj byte_count
                  (MakeBlastDB.mk "makeblastdb" (VStr "-") VNone VNone VNone
                     (VBool false) (Some 0%nat) (VBool false) (VInt 2))
                  (world1 (Inflate.unhex "414347540a") [popen0])))
    = trace (world1 (Inflate.unhex "414347540a") [popen0]) ++ evs
    /\ forallb (write_within 2) evs = true.
Proof.
  apply (raw_writes_are_bounded Inflate.decompressobj byte_count
           (MakeBlastDB.mk "makeblastdb" (VStr "-") VNone VNone VNone
              (VBool false) (Some 0%nat) (VBool false) (VInt 2))
           2 (world1 (Inflate.unhex "414347540a") [popen0])
           (fst (MakeBlastDB.communicate Inflate.decompressobj byte_count
                   (MakeBlastDB.mk "makeblastdb" (VStr "-") VNone VNone VNone
                      (VBool false) (Some 0%nat) (VBool false) (VInt 2))
                   (world1 (Inflate.unhex "414347540a") [popen0])))).
  - reflexivity.
  - reflexivity.
  - lia.
  - apply surjective_pairing.
Defined.

(* ================================================================== *)
(** * Further properties: keywords that name a parameter               *)
(* ================================================================== *)

Section KeywordClash.

Variable zd : decompressobj.
Variable child : list pyval -> bytes -> Z.
Variable platform : string.
Variable urlopen : nat -> string -> string + bytes.




End KeywordClash.

